(** * bcbio.chipseq: ATAC-seq complexity metrics, fragment splitting and
      peak-calling orchestration

    A shallow embedding of [bcbio/chipseq/atac.py] and
    [bcbio/chipseq/peaks.py], and the properties of these two modules that
    the specification states.

    Layout:
    - [Py]: the fragments of Python the two modules rely on (exceptions,
      [str.strip], [str.split], [int], [os.path.join], [os.path.splitext]);
    - [Sambamba]: the filter expressions handed to [sambamba view -F];
    - the sample record, the file system and the event trace;
    - [Ex]: the sample collections of the examples;
    - [Section Pipeline]: the two modules, over the external collaborators
      (command runner, BAM utilities, peak caller) taken as variables, then
      the vocabulary of the statements and the properties;
    - the properties at concrete inputs. *)

From Stdlib Require Import ZArith QArith Qabs Ascii String.
From Stdlib Require Import DecimalString DecimalZ DecimalPos DecimalN.
From stdpp Require Import base option list strings gmap.

#[local] Open Scope Z_scope.

(** ** Python preliminaries *)

Module Py.

(** The exceptions that the modelled code can raise. *)
Inductive exn :=
| ZeroDivisionError
| OverflowError
| KeyError (key : string)
| IndexError
| TypeError
| ValueError
| StopIteration
| FileNotFoundError (path : string)
| CalledProcessError (cmd : string).

(** A computation either returns or raises. *)
Inductive result (A : Type) :=
| OK (a : A)
| Raise (e : exn).
Arguments OK {A} a.
Arguments Raise {A} e.

#[export] Instance result_ret : MRet result := fun _ a => OK a.
#[export] Instance result_bind : MBind result := fun _ _ f r =>
  match r with OK a => f a | Raise e => Raise e end.

Definition is_OK {A} (r : result A) : bool :=
  match r with OK _ => true | Raise _ => false end.

(** [for x in xs: acc = f(acc, x)], stopping at the first exception. *)
Fixpoint for_each {A B} (f : B -> A -> result B) (xs : list A) (acc : B)
  : result B :=
  match xs with
  | [] => OK acc
  | x :: xs' => acc' ← f acc x; for_each f xs' acc'
  end.

(** *** Strings *)

(** The ASCII characters [str.strip] removes: space, \t, \n, \v, \f, \r and
    the separators \x1c to \x1f. *)
Definition is_space (c : ascii) : bool :=
  let n := nat_of_ascii c in
  ((n =? 32) || ((9 <=? n) && (n <=? 13)) || ((28 <=? n) && (n <=? 31)))%nat.

Fixpoint lstrip (s : string) : string :=
  match s with
  | String c r => if is_space c then lstrip r else s
  | EmptyString => EmptyString
  end.

Fixpoint rstrip (s : string) : string :=
  match s with
  | String c r =>
      match rstrip r with
      | EmptyString => if is_space c then EmptyString else String c EmptyString
      | r' => String c r'
      end
  | EmptyString => EmptyString
  end.

(** [s.strip()] *)
Definition strip (s : string) : string := rstrip (lstrip s).

(** [s.split(sep)] for a one-character separator: never the empty list. *)
Fixpoint split (sep : ascii) (s : string) : list string :=
  match s with
  | EmptyString => [EmptyString]
  | String c r =>
      if Ascii.eqb c sep then EmptyString :: split sep r
      else match split sep r with
           | h :: t => String c h :: t
           | [] => [String c EmptyString]
           end
  end.

(** [str(n)] and [f"{n}"] for an integer: its decimal numeral. *)
Definition str_of_int (z : Z) : string := NilZero.string_of_int (Z.to_int z).

(** [int(s)] on decimal numerals.  Blanks around the numeral are skipped,
    where a blank is a character of C's [isspace] (space, \t, \n, \v, \f,
    \r; not the separators \x1c to \x1f that [str.strip] removes); one sign
    is allowed; the digits may be grouped by single underscores; at least
    one digit is required.  Anything else is a [ValueError].  (Python
    accepts in addition non-ASCII digits and blanks, which the byte strings
    of this development do not hold.) *)
Definition is_c_space (c : ascii) : bool :=
  let n := nat_of_ascii c in
  ((n =? 32) || ((9 <=? n) && (n <=? 13)))%nat.

Fixpoint lskip (s : string) : string :=
  match s with
  | String c r => if is_c_space c then lskip r else s
  | EmptyString => EmptyString
  end.

Fixpoint rskip (s : string) : string :=
  match s with
  | String c r =>
      match rskip r with
      | EmptyString => if is_c_space c then EmptyString else String c EmptyString
      | r' => String c r'
      end
  | EmptyString => EmptyString
  end.

(** The digits of a numeral without the underscores that group them:
    [None] when there is no character at all, or when an underscore comes
    first, last, or right after another one. *)
Fixpoint digits_of (after_digit : bool) (s : string) : option string :=
  match s with
  | EmptyString => if after_digit then Some EmptyString else None
  | String c r =>
      if Ascii.eqb c "_" then
        if after_digit then digits_of false r else None
      else r' ← digits_of true r; Some (String c r')
  end.

Definition int_of_digits (s : string) : result Z :=
  match digits_of false s with
  | Some d => match NilEmpty.uint_of_string d with
              | Some u => OK (Z.of_uint u)
              | None => Raise ValueError
              end
  | None => Raise ValueError
  end.

Definition int (s : string) : result Z :=
  match rskip (lskip s) with
  | String "-" r => n ← int_of_digits r; OK (- n)
  | String "+" r => int_of_digits r
  | r => int_of_digits r
  end.

(** *** Paths (posixpath) *)

(** [s[-1:]]: the last character, if any. *)
Fixpoint last_char (s : string) : option ascii :=
  match s with
  | EmptyString => None
  | String c r => match last_char r with
                  | None => Some c
                  | Some l => Some l
                  end
  end.

Definition ends_with_slash (s : string) : bool :=
  match last_char s with
  | Some "/"%char => true
  | _ => false
  end.

(** [os.path.join(a, b)]: an absolute [b] discards [a]; otherwise the two are
    joined by one slash unless [a] is empty or already ends with one. *)
Definition join (a b : string) : string :=
  match b with
  | String "/" _ => b
  | _ => if bool_decide (a = EmptyString) || ends_with_slash a then a +:+ b
         else a +:+ "/" +:+ b
  end.

(** [p.rfind(c)], as the position after the match: [0] when [c] does not
    occur, [i + 1] when the last occurrence is at index [i]. *)
Fixpoint rfind_succ (c : ascii) (s : string) : nat :=
  match s with
  | EmptyString => 0
  | String x r =>
      match rfind_succ c r with
      | O => if Ascii.eqb x c then 1 else 0
      | S k => S (S k)
      end
  end%nat.

(** The loop of [genericpath._splitext] that skips the leading dots of the
    file name: is some character of [p[from:upto]] not a dot? *)
Definition has_non_dot (p : string) (from upto : nat) : bool :=
  existsb (fun c => negb (Ascii.eqb c "."))
          (list_ascii_of_string (String.substring from (upto - from) p)).

(** [os.path.splitext(p)] *)
Definition splitext (p : string) : string * string :=
  let sep_succ := rfind_succ "/" p in
  let dot_succ := rfind_succ "." p in
  if (sep_succ <? dot_succ)%nat && has_non_dot p sep_succ (dot_succ - 1)
  then (String.substring 0 (dot_succ - 1) p,
        String.substring (dot_succ - 1) (String.length p - (dot_succ - 1)) p)
  else (p, EmptyString).

End Py.
Export Py.

(** ** The filter language of [sambamba view -F]

    [split_ATAC] hands sambamba a filter as text.  The fragment it uses:
    comparisons of the [template_length] field of a record with an integer
    constant, combined by [and]. *)

Module Sambamba.

Inductive comparison := Gt | Lt.

Inductive filter :=
| TemplateLength (op : comparison) (bound : Z)
| And (f g : filter).

Fixpoint render (f : filter) : string :=
  match f with
  | TemplateLength Gt b => "template_length > " +:+ str_of_int b
  | TemplateLength Lt b => "template_length < " +:+ str_of_int b
  | And f g => render f +:+ " and " +:+ render g
  end.

(** Does a record whose template length is [tlen] pass the filter? *)
Fixpoint accepts (f : filter) (tlen : Z) : bool :=
  match f with
  | TemplateLength Gt b => Z.ltb b tlen
  | TemplateLength Lt b => Z.ltb tlen b
  | And f g => accepts f tlen && accepts g tlen
  end.

End Sambamba.

(** ** Data model *)

(** [ATACRange = namedtuple('ATACRange', ['label', 'min', 'max'])] *)
Record ATACRange := mkATACRange {
  label : string;
  min : Z;
  max : Z
}.

(** The [ATACRanges] dictionary, in insertion order. *)
Definition ATACRanges : list (string * ATACRange) :=
  [ ("NF", mkATACRange "NF" 0 100);
    ("MN", mkATACRange "MN" 180 247);
    ("DN", mkATACRange "DN" 315 473);
    ("TN", mkATACRange "TN" 558 615) ].

(** [ATACRanges.values()] *)
Definition ATACRanges_values : list ATACRange := ATACRanges.*2.

(** The value of [metadata.batch]: one batch id or a list of them. *)
Inductive batch_ids :=
| BatchStr (b : string)
| BatchList (bs : list string).

(** The value of [config.algorithm.peakcaller] when present: a list of caller
    names, or a bare string. *)
Inductive peakcaller_conf :=
| CallerStr (s : string)
| CallerList (l : list string).

(** The sample record ("data").  The pipeline keeps it as a nested dictionary;
    the fields below are the entries that the two modules read or write,
    named after the [datadict] accessor or the key path.  [None] stands for
    an absent key (or a Python [None] where the accessor returns one). *)
Record Sample := mkSample {
  sample_name : string;                        (* dd.get_sample_name *)
  phenotype : string;                          (* dd.get_phenotype *)
  batch : batch_ids;                           (* dd.get_batch *)
  genome_build : string;                       (* dd.get_genome_build *)
  work_dir : string;                           (* dd.get_work_dir *)
  work_bam : option string;                    (* dd.get_work_bam *)
  num_cores : Z;                               (* dd.get_num_cores *)
  chip_method : string;                        (* dd.get_chip_method *)
  gtf_file : option string;                    (* dd.get_gtf_file *)
  peakcaller : option peakcaller_conf;         (* config.algorithm.peakcaller *)
  complexity_metrics_file : option string;     (* atac.complexity_metrics_file *)
  align : option (gmap string string);         (* atac.align *)
  NF_macs2_peaks : list string;                (* peaks_files.NF.macs2 *)
  peak_fn : option string;                     (* "peak_fn" *)
  work_bam_input : option (option string);     (* "work_bam_input" *)
  peaks_file : option string                   (* "peaks_file" *)
}.

(** [tz.assoc_in(data, ['atac', 'complexity_metrics_file'], v)] *)
Definition assoc_complexity_metrics_file (v : string) (d : Sample) : Sample :=
  mkSample (sample_name d) (phenotype d) (batch d) (genome_build d)
    (work_dir d) (work_bam d) (num_cores d) (chip_method d) (gtf_file d)
    (peakcaller d) (Some v) (align d) (NF_macs2_peaks d)
    (peak_fn d) (work_bam_input d) (peaks_file d).

(** [tz.assoc_in(data, ['atac', 'align'], v)] *)
Definition assoc_align (v : gmap string string) (d : Sample) : Sample :=
  mkSample (sample_name d) (phenotype d) (batch d) (genome_build d)
    (work_dir d) (work_bam d) (num_cores d) (chip_method d) (gtf_file d)
    (peakcaller d) (complexity_metrics_file d) (Some v) (NF_macs2_peaks d)
    (peak_fn d) (work_bam_input d) (peaks_file d).

(** [data["peak_fn"] = v] *)
Definition set_peak_fn (v : string) (d : Sample) : Sample :=
  mkSample (sample_name d) (phenotype d) (batch d) (genome_build d)
    (work_dir d) (work_bam d) (num_cores d) (chip_method d) (gtf_file d)
    (peakcaller d) (complexity_metrics_file d) (align d) (NF_macs2_peaks d)
    (Some v) (work_bam_input d) (peaks_file d).

(** [data["work_bam_input"] = v] *)
Definition set_work_bam_input (v : option string) (d : Sample) : Sample :=
  mkSample (sample_name d) (phenotype d) (batch d) (genome_build d)
    (work_dir d) (work_bam d) (num_cores d) (chip_method d) (gtf_file d)
    (peakcaller d) (complexity_metrics_file d) (align d) (NF_macs2_peaks d)
    (peak_fn d) (Some v) (peaks_file d).

(** [data["peaks_file"] = v] *)
Definition set_peaks_file (v : string) (d : Sample) : Sample :=
  mkSample (sample_name d) (phenotype d) (batch d) (genome_build d)
    (work_dir d) (work_bam d) (num_cores d) (chip_method d) (gtf_file d)
    (peakcaller d) (complexity_metrics_file d) (align d) (NF_macs2_peaks d)
    (peak_fn d) (work_bam_input d) (Some v).

(** ** The environment: file system, events, effects *)

(** Text files are kept as their lines (each line with its newline), next to
    the set of directories. *)
Record fsys := mkFsys {
  files : gmap string (list string);
  dirs : gset string
}.

(** What leaves the module: calls to the external collaborators and log
    records, in the order in which they happen. *)
Inductive event :=
| EvRun (cmd message : string)                          (* do.run *)
| EvBamSort (bam order : string)                        (* bam.sort *)
| EvBamIndex (bam : string)                             (* bam.index *)
| EvTssBed (gtf : option string) (out : string) (padding : Z) (* gtf.get_tss_bed *)
| EvCaller (caller name : string) (out_dir : string)    (* a peak caller *)
| EvParallel (stage : string) (tasks : list (list Sample)) (* run_parallel *)
| EvLog (msg : string).                                 (* logger.info *)

Record world := mkWorld {
  fs : fsys;
  trace : list event
}.

(** Is the event a call to an external program or utility? *)
Definition is_external (e : event) : bool :=
  match e with
  | EvLog _ => false
  | _ => true
  end.

(** Effectful code: a state transformer on the world that may raise. *)
Definition M (A : Type) : Type := world -> result A * world.

#[export] Instance M_ret : MRet M := fun _ a w => (OK a, w).
#[export] Instance M_bind : MBind M := fun _ _ f m w =>
  match m w with
  | (OK a, w') => f a w'
  | (Raise e, w') => (Raise e, w')
  end.

Definition raise {A} (e : exn) : M A := fun w => (Raise e, w).

Definition lift {A} (r : result A) : M A := fun w => (r, w).

Definition emit (e : event) : M unit :=
  fun w => (OK tt, mkWorld (fs w) (trace w ++ [e])).

Definition get_fs : M fsys := fun w => (OK (fs w), w).

Definition put_fs (f : fsys) : M unit := fun w => (OK tt, mkWorld f (trace w)).

(** [logger.info(msg)] *)
Definition logger_info (msg : string) : M unit := emit (EvLog msg).

(** [for x in xs: body(x)] *)
Fixpoint for_M {A} (body : A -> M unit) (xs : list A) : M unit :=
  match xs with
  | [] => mret tt
  | x :: xs' => _ ← body x; for_M body xs'
  end.

(** *** File operations *)

Definition write_file (p : string) (lines : list string) (f : fsys) : fsys :=
  mkFsys (<[p := lines]> (files f)) (dirs f).

Definition remove_file (p : string) (f : fsys) : fsys :=
  mkFsys (delete p (files f)) (dirs f).

Definition move_file (src dst : string) (f : fsys) : fsys :=
  match files f !! src with
  | Some c => mkFsys (<[dst := c]> (delete src (files f))) (dirs f)
  | None => f
  end.

(** Modelled from the spec: [utils.file_exists] is not part of the two
    modules; the specification speaks of a file that "already exists". *)
Definition file_exists (p : string) : M bool :=
  fun w => (OK (bool_decide (is_Some (files (fs w) !! p))), w).

(** Modelled from the spec: [utils.safe_makedir] creates the directory when
    it is absent and returns its path. *)
Definition safe_makedir (p : string) : M string :=
  fun w => (OK p, mkWorld (mkFsys (files (fs w)) ({[p]} ∪ dirs (fs w))) (trace w)).

(** [x[0]] on a list *)
Definition item0 {A} (l : list A) : result A :=
  match l with
  | x :: _ => OK x
  | [] => Raise IndexError
  end.

(** [d[k]] on a dictionary *)
Definition getitem {V} (d : gmap string V) (k : string) : result V :=
  match d !! k with
  | Some v => OK v
  | None => Raise (KeyError k)
  end.

(** Python truthiness of an optional string: [None] and the empty string are
    false. *)
Definition truthy (o : option string) : bool :=
  match o with
  | Some (String _ _) => true
  | _ => false
  end.

(** An optional string inside an f-string: [None] prints as "None". *)
Definition fmt (o : option string) : string := default "None" o.

(** [s.endswith(suffix)] *)
Definition endswith (s suffix : string) : bool :=
  String.prefix (String.rev suffix) (String.rev s).

(** [a in b] between strings: [a] occurs in [b]. *)
Fixpoint str_in (a b : string) : bool :=
  String.prefix a b ||
  match b with
  | String _ r => str_in a r
  | EmptyString => false
  end.

(** The double quote and the newline, which string literals cannot hold. *)
Definition dquote : string := String "034"%char EmptyString.
Definition nl : string := String "010"%char EmptyString.

(** The metrics file as [calculate_complexity_metrics] has it written: the
    header, and the row that awk prints with [%d,%d,%d,%d] and a newline. *)
Definition metrics_lines (mt m0 m1 m2 : Z) : list string :=
  [ "mt,m0,m1,m2" +:+ nl;
    str_of_int mt +:+ "," +:+ str_of_int m0 +:+ "," +:+ str_of_int m1 +:+
    "," +:+ str_of_int m2 +:+ nl ].

(** ** Sample collections and collaborators used in the examples *)

Module Ex.

Definition record (name phenotype : string) (batch : batch_ids)
    (chip_method : string) (peakcaller : option peakcaller_conf) : Sample :=
  mkSample name phenotype batch "hg38" "/w"
    (Some ("/w/align/" +:+ name +:+ ".bam")) 4 chip_method
    (Some "/ref/genes.gtf") peakcaller None None [] None None None.

Definition s1 : Sample :=
  record "s1" "chip" (BatchStr "b1") "chip" (Some (CallerList ["macs2"])).

Definition ctrl1 : Sample :=
  record "ctrl1" "input" (BatchList ["b1"]) "chip" None.

Definition ctrl2 : Sample :=
  record "ctrl2" "input" (BatchList ["b2"]) "chip" None.

(** A chip sample whose batch has no input sample. *)
Definition s3 : Sample :=
  record "s3" "chip" (BatchStr "b3") "chip" (Some (CallerList ["macs2"])).

(** A chip sample without a "peakcaller" entry. *)
Definition s4 : Sample := record "s4" "chip" (BatchStr "b1") "chip" None.

(** A chip sample configured for a caller that the registry does not have. *)
Definition s5 : Sample :=
  record "s5" "chip" (BatchStr "b9") "chip" (Some (CallerList ["epic2"])).

(** An ATAC sample after splitting and peak calling. *)
Definition atac1 : Sample :=
  mkSample "a1" "chip" (BatchStr "b1") "hg38" "/w" (Some "/w/align/a1.bam") 4
    "atac" (Some "/ref/genes.gtf") (Some (CallerList ["macs2"]))
    (Some "/w/metrics/atac/a1-atac-metrics.csv")
    (Some {[ "NF" := "/w/align/a1-NF.bam" ]})
    ["/w/macs2/a1/a1_peaks.xls"; "/w/macs2/a1/a1_peaks.narrowPeak"]
    None None None.

(** The same sample in a ChIP-seq run. *)
Definition chip1 : Sample :=
  mkSample "a1" "chip" (BatchStr "b1") "hg38" "/w" (Some "/w/align/a1.bam") 4
    "chip" (Some "/ref/genes.gtf") (Some (CallerList ["macs2"]))
    (Some "/w/metrics/atac/a1-atac-metrics.csv")
    (Some {[ "NF" := "/w/align/a1-NF.bam" ]})
    ["/w/macs2/a1/a1_peaks.xls"; "/w/macs2/a1/a1_peaks.narrowPeak"]
    None None None.

Definition no_files : world := mkWorld (mkFsys ∅ ∅) [].

(** A world that holds the metrics file of [a1] with the given row. *)
Definition with_metrics (mt m0 m1 m2 : Z) : world :=
  mkWorld
    (mkFsys {[ "/w/metrics/atac/a1-atac-metrics.csv" :=
                 metrics_lines mt m0 m1 m2 ]} ∅)
    [].

(** A world that holds every output of [a1]: the metrics file, the four
    range files and the ataqv report. *)
Definition cached : world :=
  mkWorld
    (mkFsys {[ "/w/metrics/atac/a1-atac-metrics.csv" :=
                 metrics_lines 10 6 4 2;
               "/w/align/a1-NF.bam" := []; "/w/align/a1-MN.bam" := [];
               "/w/align/a1-DN.bam" := []; "/w/align/a1-TN.bam" := [];
               "/w/qc/a1/ataqv/a1.ataqv.json.gz" := ["{}"] ]} ∅)
    [].

(** Collaborators that always succeed and leave the files alone. *)
Definition get_program (name : string) (_ : Sample) : option string :=
  Some name.
Definition shell (_ : string) (f : fsys) : option fsys := Some f.
Definition bam_sort (bam _ : string) (f : fsys) : option (string * fsys) :=
  Some (bam, f).
Definition bam_index (_ : string) (f : fsys) : option fsys := Some f.
Definition get_tss_bed (_ : option string) (out : string) (_ : Sample)
    (_ : Z) (f : fsys) : option (string * fsys) := Some (out, f).
Definition mito (_ : Sample) : list string := ["chrM"].
Definition nonmito (_ : Sample) : list string := ["chr1"; "chr2"].
Definition tx_path (p : string) : string := p +:+ ".tx".
Definition macs2_run (name : string) (_ _ : option string) (_ out_dir : string)
    (_ : Sample) (f : fsys) : option (string * fsys) :=
  Some (out_dir +:+ "/" +:+ name +:+ "_peaks.narrowPeak", f).

(** Collaborators that fail, and others that do their work. *)
Definition failing_shell (_ : string) (_ : fsys) : option fsys := None.
Definition failing_sort (_ _ : string) (_ : fsys) : option (string * fsys) :=
  None.
Definition no_mito (_ : Sample) : list string := [].
Definition no_program (_ : string) (_ : Sample) : option string := None.

(** A shell whose command leaves the header and the row 10,6,4,2 in the
    temporary metrics file of [a1]. *)
Definition awk_shell (_ : string) (f : fsys) : option fsys :=
  Some (mkFsys (<[ "/w/metrics/atac/a1-atac-metrics.csv.tx" :=
                     metrics_lines 10 6 4 2 ]> (files f)) (dirs f)).




(** An input sample whose batch is a string that holds the batch of [s1],
    and a chip sample whose batches are a list. *)
Definition ctrl10 : Sample :=
  record "ctrl10" "input" (BatchStr "b10") "chip" None.

Definition s6 : Sample :=
  record "s6" "chip" (BatchList ["b1"; "b2"]) "chip" (Some (CallerList ["macs2"])).

(** A chip sample configured with "macs2" twice among other callers, one
    configured with a bare string, and an input sample that lists macs2. *)
Definition s7 : Sample :=
  record "s7" "chip" (BatchStr "b1") "chip"
    (Some (CallerList ["epic2"; "macs2"; "macs2"])).

Definition s8 : Sample :=
  record "s8" "chip" (BatchStr "b1") "chip" (Some (CallerStr "macs2")).

(** A sample without a work BAM. *)
Definition nobam : Sample :=
  mkSample "n1" "chip" (BatchStr "b1") "hg38" "/w" None 4 "atac"
    (Some "/ref/genes.gtf") None None None [] None None None.

End Ex.

(** ** The two modules *)

Section Pipeline.

(** *** External collaborators *)

(** Floating point: [F] stands for the binary64 floats and [rnd] for the
    rounding of an exact quotient to the nearest float, which is what
    Python's [/] on integers computes. *)
Variable F : Type.
Variable rnd : Q -> F.

(** [config_utils.get_program(name, data)]: the resolved program, if any. *)
Variable get_program : string -> Sample -> option string.

(** [do.run(cmd, message)]: the effect of a shell command on the file
    system; [None] when the command exits with a non-zero status. *)
Variable shell : string -> fsys -> option fsys.

(** [bam.sort(in_bam, config, order)]: the sorted BAM and the new file
    system. *)
Variable bam_sort : string -> string -> fsys -> option (string * fsys).

(** [bam.index(in_bam, config)] *)
Variable bam_index : string -> fsys -> option fsys.

(** [gtf.get_tss_bed(gtf_file, out_file, data, padding)] *)
Variable get_tss_bed :
  option string -> string -> Sample -> Z -> fsys -> option (string * fsys).

(** [chromhacks.get_mitochondrial_chroms] and
    [chromhacks.get_nonmitochondrial_chroms] *)
Variable get_mitochondrial_chroms : Sample -> list string.
Variable get_nonmitochondrial_chroms : Sample -> list string.

(** [file_transaction(path)]: the temporary path handed to the body. *)
Variable tx_path : string -> string.

(** [macs2.run(name, chip_bam, input_bam, genome_build, out_dir, config)]:
    the peaks file, or the string "error". *)
Variable macs2_run :
  string -> option string -> option string -> string -> string -> Sample ->
  fsys -> option (string * fsys).

(** What [dd.get_phenotype] answers on a value that is not a sample record. *)
Variable default_phenotype : string.

(** *** Effects of the collaborators *)

Definition do_run (cmd message : string) : M unit :=
  fun w =>
    let w1 := mkWorld (fs w) (trace w ++ [EvRun cmd message]) in
    match shell cmd (fs w) with
    | Some f => (OK tt, mkWorld f (trace w1))
    | None => (Raise (CalledProcessError cmd), w1)
    end.

Definition do_bam_sort (in_bam order : string) : M string :=
  fun w =>
    let w1 := mkWorld (fs w) (trace w ++ [EvBamSort in_bam order]) in
    match bam_sort in_bam order (fs w) with
    | Some (out, f) => (OK out, mkWorld f (trace w1))
    | None => (Raise (CalledProcessError "sort"), w1)
    end.

Definition do_bam_index (in_bam : string) : M unit :=
  fun w =>
    let w1 := mkWorld (fs w) (trace w ++ [EvBamIndex in_bam]) in
    match bam_index in_bam (fs w) with
    | Some f => (OK tt, mkWorld f (trace w1))
    | None => (Raise (CalledProcessError "index"), w1)
    end.

Definition do_get_tss_bed (gtf : option string) (out : string) (data : Sample)
    (padding : Z) : M string :=
  fun w =>
    let w1 := mkWorld (fs w) (trace w ++ [EvTssBed gtf out padding]) in
    match get_tss_bed gtf out data padding (fs w) with
    | Some (p, f) => (OK p, mkWorld f (trace w1))
    | None => (Raise (CalledProcessError "tss"), w1)
    end.

(** [with file_transaction(out) as tx: body(tx)]: the body writes to a
    temporary path; when it returns, the temporary file (if it was written)
    is moved to [out]; when it raises, the temporary file is dropped and
    [out] is left as it was. *)
Definition file_transaction {A} (out : string) (body : string -> M A) : M A :=
  fun w =>
    let tx := tx_path out in
    match body tx w with
    | (OK a, w') => (OK a, mkWorld (move_file tx out (fs w')) (trace w'))
    | (Raise e, w') => (Raise e, mkWorld (remove_file tx (fs w')) (trace w'))
    end.

(** [with open(p, "w") as h: h.write(...)] *)
Definition open_write (p : string) (lines : list string) : M unit :=
  fun w => (OK tt, mkWorld (write_file p lines (fs w)) (trace w)).

(** *** atac.py *)

(** Python numbers in the metrics map: [0] is an [int], quotients are
    floats. *)
Inductive number :=
| Int (z : Z)
| Float (x : F).

(** [a / b] on integers: a zero divisor is a [ZeroDivisionError]; otherwise
    the result is the quotient rounded to the nearest float, and an
    [OverflowError] when that float would not be finite.  The largest
    finite binary64 float is [2^1024 - 2^971], so the quotient rounds (to
    nearest, ties to even) to a finite float exactly when its magnitude is
    below [2^1024 - 2^970]. *)
Definition float_overflow_bound : Z := (2 ^ 1024 - 2 ^ 970)%Z.

Definition overflows (q : Q) : bool :=
  Qle_bool (inject_Z float_overflow_bound) (Qabs q).

(** An integer below that bound in magnitude: divided by an integer other
    than zero it does not overflow. *)
Definition in_float_range (z : Z) : Prop :=
  (Z.abs z < float_overflow_bound)%Z.

Definition truediv (a b : Z) : result number :=
  if (b =? 0)%Z then Raise ZeroDivisionError
  else if overflows (inject_Z a / inject_Z b) then Raise OverflowError
  else OK (Float (rnd (inject_Z a / inject_Z b)%Q)).

Definition metrics_path (data : Sample) : string :=
  join (join (join (work_dir data) "metrics") "atac")
       (sample_name data +:+ "-atac-metrics.csv").

Definition complexity_cmd (bedtools : option string) (work_bam tx : string)
  : string :=
  fmt bedtools +:+ " bamtobed -bedpe -i " +:+ work_bam +:+ " | " +:+
  "awk 'BEGIN{OFS=" +:+ dquote +:+ "\t" +:+ dquote +:+
  "}{print $1,$2,$4,$6,$9,$10}' | " +:+
  "sort | " +:+
  "uniq -c | " +:+
  "awk 'BEGIN{mt=0;m0=0;m1=0;m2=0}($1==1){m1=m1+1} " +:+
  "($1==2){m2=m2+1}{m0=m0+1}{mt=mt+$1}END{printf " +:+ dquote +:+
  "%d,%d,%d,%d\n" +:+ dquote +:+ ", mt,m0,m1,m2}' >> " +:+
  tx.

(** The tally of the last awk program of [complexity_cmd].  Its input is the
    output of [uniq -c]: one line per distinct read pair, whose first field
    is the number of occurrences of the pair.  Per line:
    [($1==1){m1=m1+1} ($1==2){m2=m2+1} {m0=m0+1} {mt=mt+$1}]. *)
Record tally := mkTally {
  tally_mt : Z;
  tally_m0 : Z;
  tally_m1 : Z;
  tally_m2 : Z
}.

Definition awk_line (t : tally) (count : Z) : tally :=
  mkTally (tally_mt t + count)
          (tally_m0 t + 1)
          (if (count =? 1)%Z then tally_m1 t + 1 else tally_m1 t)
          (if (count =? 2)%Z then tally_m2 t + 1 else tally_m2 t).

Definition awk_tally (counts : list Z) : tally :=
  foldl awk_line (mkTally 0 0 0 0) counts.

Definition calculate_complexity_metrics (work_bam : string) (data : Sample)
  : M Sample :=
  let bedtools := get_program "bedtools" data in
  let metrics_dir := join (join (work_dir data) "metrics") "atac" in
  _ ← safe_makedir metrics_dir;
  let metrics_file := join metrics_dir (sample_name data +:+ "-atac-metrics.csv") in
  cached ← file_exists metrics_file;
  if cached : bool then
    mret (assoc_complexity_metrics_file metrics_file data)
  else
    work_bam ← do_bam_sort work_bam "queryname";
    _ ← file_transaction metrics_file (fun tx_metrics_file =>
          _ ← open_write tx_metrics_file ["mt,m0,m1,m2" +:+ nl];
          let cmd := complexity_cmd bedtools work_bam tx_metrics_file in
          let message := "Calculating ATAC-seq complexity metrics on " +:+
                         work_bam +:+ ", saving as " +:+ metrics_file +:+ "." in
          do_run cmd message);
    mret (assoc_complexity_metrics_file metrics_file data).

(** [open(path)]: the lines still to be read. *)
Definition open_read (path : string) (f : fsys) : result (list string) :=
  match files f !! path with
  | Some lines => OK lines
  | None => Raise (FileNotFoundError path)
  end.

(** [next(handle)] *)
Definition next (handle : list string) : result (string * list string) :=
  match handle with
  | line :: rest => OK (line, rest)
  | [] => Raise StopIteration
  end.

(** [{h: int(v) for h, v in zip(header, values)}] *)
Definition raw_metrics_of (header values : list string)
  : result (gmap string Z) :=
  for_each (fun (m : gmap string Z) '(h, v) => n ← int v; OK (<[h := n]> m))
           (zip header values) ∅.

(** The computation of [calculate_encode_complexity_metrics] once the
    dictionary [raw_metrics] is built. *)
Definition encode_metrics (raw_metrics : gmap string Z)
  : result (gmap string number) :=
  m1 ← getitem raw_metrics "m1";
  m0 ← getitem raw_metrics "m0";
  PBC1 ← truediv m1 m0;
  m0 ← getitem raw_metrics "m0";
  mt ← getitem raw_metrics "mt";
  NRF ← truediv m0 mt;
  let metrics : gmap string number := <["NRF" := NRF]> {["PBC1" := PBC1]} in
  m2 ← getitem raw_metrics "m2";
  PBC2 ← (if (m2 =? 0)%Z then OK (Int 0)
          else m1 ← getitem raw_metrics "m1";
               m2 ← getitem raw_metrics "m2";
               truediv m1 m2);
  OK (<["PBC2" := PBC2]> metrics).

Definition calculate_encode_complexity_metrics (data : Sample)
  : M (gmap string number) :=
  let metrics_file := complexity_metrics_file data in
  if negb (truthy metrics_file) then mret ∅
  else
    f ← get_fs;
    lift (in_handle ← open_read (default EmptyString metrics_file) f;
          '(line, in_handle) ← next in_handle;
          let header := split "," (strip line) in
          '(line, in_handle) ← next in_handle;
          let values := split "," (strip line) in
          raw_metrics ← raw_metrics_of header values;
          encode_metrics raw_metrics).

(** The filter of [split_ATAC] for one range:
    [template_length > {arange.min} and template_length < {arange.max}]. *)
Definition range_filter (arange : ATACRange) : Sambamba.filter :=
  Sambamba.And (Sambamba.TemplateLength Sambamba.Gt (min arange))
               (Sambamba.TemplateLength Sambamba.Lt (max arange)).

Definition split_out_file (out_stem : string) (arange : ATACRange) : string :=
  out_stem +:+ "-" +:+ label arange +:+ ".bam".

Definition split_cmd (base_cmd : string) (arange : ATACRange)
    (bam_file tx_out_file : string) : string :=
  base_cmd +:+
  "-F " +:+ dquote +:+ Sambamba.render (range_filter arange) +:+ dquote +:+ " " +:+
  bam_file +:+ " > " +:+ tx_out_file.

(** One turn of the loop of [split_ATAC]. *)
Definition split_range (base_cmd bam_file out_stem : string)
    (split_files : gmap string string) (arange : ATACRange)
  : M (gmap string string) :=
  let out_file := split_out_file out_stem arange in
  cached ← file_exists out_file;
  _ ← (if cached : bool then mret tt
       else
         _ ← file_transaction out_file (fun tx_out_file =>
               let cmd := split_cmd base_cmd arange bam_file tx_out_file in
               let message := "Splitting " +:+ label arange +:+
                              " regions from " +:+ bam_file +:+ "." in
               do_run cmd message);
         do_bam_index out_file);
  mret (<[label arange := out_file]> split_files).

(** [for x in xs: acc = body(acc, x)] with effects *)
Fixpoint fold_M {A B} (body : B -> A -> M B) (xs : list A) (acc : B) : M B :=
  match xs with
  | [] => mret acc
  | x :: xs' => acc' ← body acc x; fold_M body xs' acc'
  end.

Definition split_ATAC (data : Sample) (bam_file : option string) : M Sample :=
  let sambamba := get_program "sambamba" data in
  let base_cmd := fmt sambamba +:+ " view --format bam --nthreads " +:+
                  str_of_int (num_cores data) +:+ " " in
  let bam_file := if truthy bam_file then bam_file else work_bam data in
  match bam_file with
  | None => raise TypeError
  | Some bam_file =>
      let out_stem := (splitext bam_file).1 in
      split_files ← fold_M (split_range base_cmd bam_file out_stem)
                           ATACRanges_values ∅;
      let split_files := <["full" := bam_file]> split_files in
      mret (assoc_align split_files data)
  end.

(** [tz.get_in(("atac", "align", "NF"), data, None)] *)
Definition get_NF_bam (data : Sample) : option string :=
  m ← align data; m !! "NF".

Definition get_NF_peaks (data : Sample) : option string :=
  let peak_files := NF_macs2_peaks data in
  List.find (fun f => endswith f "narrowPeak" || endswith f "broadPeak")
            peak_files.

Definition _make_autosomal_reference_file (out_file : string) (data : Sample)
  : M string :=
  cached ← file_exists out_file;
  if cached : bool then mret out_file
  else
    let nonmito := get_nonmitochondrial_chroms data in
    _ ← file_transaction out_file (fun tx_out_file =>
          open_write tx_out_file ((fun chrom => chrom +:+ nl) <$> nonmito));
    mret out_file.

Definition ataqv_out_dir (data : Sample) : string :=
  join (join (join (work_dir data) "qc") (sample_name data)) "ataqv".

Definition ataqv_out_file (data : Sample) : string :=
  join (ataqv_out_dir data) (sample_name data +:+ ".ataqv.json.gz").

Definition ataqv_cmd (ataqv : option string)
    (peak_file name tx_out_file tss_bed_file autosomal_reference mitoname
     bam_file : string) : string :=
  fmt ataqv +:+ " --peak-file " +:+ peak_file +:+ " --name " +:+ name +:+
  " --metrics-file " +:+ tx_out_file +:+ " " +:+
  "--tss-file " +:+ tss_bed_file +:+ " --autosomal-reference-file " +:+
  autosomal_reference +:+ " " +:+
  "--ignore-read-groups --mitochondrial-reference-name " +:+ mitoname +:+ " " +:+
  "None " +:+ bam_file.

Definition run_ataqv (data : Sample) : M (option string) :=
  if negb (bool_decide (chip_method data = "atac")) then mret None
  else
    let sample_name := sample_name data in
    let out_dir := ataqv_out_dir data in
    let peak_file := get_NF_peaks data in
    let bam_file := get_NF_bam data in
    let out_file := join out_dir (sample_name +:+ ".ataqv.json.gz") in
    if negb (truthy peak_file) then
      _ ← logger_info ("NF peak file for " +:+ sample_name +:+
                       " not found, skipping ataqv");
      mret None
    else if negb (truthy bam_file) then
      _ ← logger_info ("NF BAM file for " +:+ sample_name +:+
                       " not found, skipping ataqv");
      mret None
    else
      cached ← file_exists out_file;
      if cached : bool then mret (Some out_file)
      else
        let tss_bed_file := join out_dir "TSS.bed" in
        tss_bed_file ← do_get_tss_bed (gtf_file data) tss_bed_file data 1000;
        let autosomal_reference := join out_dir "autosomal.txt" in
        autosomal_reference ←
          _make_autosomal_reference_file autosomal_reference data;
        let ataqv := get_program "ataqv" data in
        mitoname ← lift (item0 (get_mitochondrial_chroms data));
        if negb (truthy ataqv) then
          _ ← logger_info
                "ataqv executable not found, skipping running ataqv.";
          mret None
        else
          _ ← file_transaction out_file (fun tx_out_file =>
                let cmd := ataqv_cmd ataqv (fmt peak_file) sample_name
                             tx_out_file tss_bed_file autosomal_reference
                             mitoname (fmt bam_file) in
                let message := "Running ataqv on the NF fraction of " +:+
                               sample_name +:+ "." in
                do_run cmd message);
          mret (Some out_file).

(** *** peaks.py *)

(** A peak caller: [(name, chip_bam, input_bam, genome_build, out_dir,
    config)] to the peaks file. *)
Definition caller_fn : Type :=
  string -> option string -> option string -> string -> string -> Sample ->
  M string.

Definition macs2 : caller_fn :=
  fun name chip_bam input_bam genome_build out_dir config w =>
    let w1 := mkWorld (fs w) (trace w ++ [EvCaller "macs2" name out_dir]) in
    match macs2_run name chip_bam input_bam genome_build out_dir config (fs w) with
    | Some (out, f) => (OK out, mkWorld f (trace w1))
    | None => (Raise (CalledProcessError "macs2"), w1)
    end.

Definition get_callers : gmap string caller_fn := {["macs2" := macs2]}.

(** [a in b] for batch values: membership in a list, occurrence in a
    string; a list on the left of a string is a [TypeError]. *)
Definition batch_in (a b : batch_ids) : result bool :=
  match b, a with
  | BatchList bs, BatchStr x => OK (bool_decide (x ∈ bs))
  | BatchList bs, BatchList _ => OK false
  | BatchStr y, BatchStr x => OK (str_in x y)
  | BatchStr _, BatchList _ => Raise TypeError
  end.

(** The local variable [mimic] of [peakcall_preparation]: first a copy of
    the sample, then whatever [_get_paired_samples] returned. *)
Inductive mimic_val :=
| MRecord (s : Sample)
| MGroup (g : list Sample)
| MNone.

(** [dd.get_phenotype(mimic)]: the phenotype of a sample record, and
    [default_phenotype] on a list or on [None]. *)
Definition get_phenotype (m : mimic_val) : string :=
  match m with
  | MRecord s => phenotype s
  | _ => default_phenotype
  end.

Fixpoint _get_paired_samples (sample : Sample) (data : list (list Sample))
  : result (option (list Sample)) :=
  match data with
  | [] => OK None
  | origin :: data' =>
      origin0 ← item0 origin;
      hit ← batch_in (batch sample) (batch origin0);
      if hit && bool_decide (phenotype origin0 = "input") then
        OK (Some [set_work_bam_input (work_bam origin0) sample])
      else _get_paired_samples sample data'
  end.

(** What iterating [config.algorithm.get("peakcaller", "macs2")] yields:
    the elements of a list, the characters of a string. *)
Definition chars (s : string) : list string :=
  (fun c => String c EmptyString) <$> list_ascii_of_string s.

Definition callers_of (conf : option peakcaller_conf) : list string :=
  match default (CallerStr "macs2") conf with
  | CallerStr s => chars s
  | CallerList l => l
  end.

(** One turn of the inner loop of [peakcall_preparation]; the state is
    [mimic] and [to_process]. *)
Definition prepare_caller (data : list (list Sample))
    (st : mimic_val * list (list Sample)) (caller : string)
  : M (mimic_val * list (list Sample)) :=
  let '(mimic, to_process) := st in
  if bool_decide (is_Some (get_callers !! caller)) &&
     bool_decide (get_phenotype mimic = "chip")
  then
    match mimic with
    | MRecord mimic =>
        let mimic := set_peak_fn caller mimic in
        let name := sample_name mimic in
        paired ← lift (_get_paired_samples mimic data);
        match paired with
        | Some (s :: g) => mret (MGroup (s :: g), to_process ++ [s :: g])
        | Some [] => _ ← logger_info ("No input sample for " +:+ name);
                     mret (MGroup [], to_process)
        | None => _ ← logger_info ("No input sample for " +:+ name);
                  mret (MNone, to_process)
        end
    | _ => raise TypeError
    end
  else mret st.

(** One turn of the outer loop. *)
Definition prepare_sample (data : list (list Sample))
    (to_process : list (list Sample)) (sample : list Sample)
  : M (list (list Sample)) :=
  sample0 ← lift (item0 sample);
  let mimic := MRecord sample0 in
  st ← fold_M (prepare_caller data) (callers_of (peakcaller sample0))
              (mimic, to_process);
  mret st.2.

(** [d["peaks_file"]] *)
Definition get_peaks_file (d : Sample) : result string :=
  match peaks_file d with
  | Some p => OK p
  | None => Raise (KeyError "peaks_file")
  end.

(** The body of the inner loop of [_sync]; the group [original_sample] is
    updated in place. *)
Definition sync_result (original_sample processs_sample : list Sample)
  : result (list Sample) :=
  o ← item0 original_sample;
  p ← item0 processs_sample;
  if bool_decide (sample_name o = sample_name p) then
    pf ← get_peaks_file p;
    if negb (bool_decide (pf = "error")) then
      pf ← get_peaks_file p;
      OK (set_peaks_file pf o :: tail original_sample)
    else OK original_sample
  else OK original_sample.

Fixpoint _sync (original processed : list (list Sample))
  : result (list (list Sample)) :=
  match original with
  | [] => OK []
  | original_sample :: original' =>
      original_sample ← for_each sync_result processed original_sample;
      original' ← _sync original' processed;
      OK (original_sample :: original')
  end.

(** The end of [peakcall_preparation]: the tasks are handed to the runner
    and the results merged, unless there is no task.  The call of the
    runner is recorded in the trace. *)
Definition dispatch (data : list (list Sample))
    (run_parallel : string -> list (list Sample) -> M (list (list Sample)))
    (to_process : list (list Sample)) : M (list (list Sample)) :=
  match to_process with
  | [] => mret data
  | _ =>
      _ ← emit (EvParallel "peakcalling" to_process);
      after_process ← run_parallel "peakcalling" to_process;
      lift (_sync data after_process)
  end.

Definition peakcall_preparation (data : list (list Sample))
    (run_parallel : string -> list (list Sample) -> M (list (list Sample)))
  : M (list (list Sample)) :=
  to_process ← fold_M (prepare_sample data) data [];
  dispatch data run_parallel to_process.

(** [data[k]] for [k] one of the task keys *)
Definition get_key {A} (k : string) (o : option A) : result A :=
  match o with
  | Some v => OK v
  | None => Raise (KeyError k)
  end.

Definition calling (data : Sample) : M (list (list Sample)) :=
  let chip_bam := work_bam data in
  input_bam ← lift (get_key "work_bam_input" (work_bam_input data));
  fn ← lift (get_key "peak_fn" (peak_fn data));
  caller_fn ← lift (getitem get_callers fn);
  let name := sample_name data in
  fn ← lift (get_key "peak_fn" (peak_fn data));
  out_dir ← safe_makedir (join (join (work_dir data) fn) name);
  out_file ← caller_fn name chip_bam input_bam (genome_build data) out_dir data;
  mret [[set_peaks_file out_file data]].

(** A runner that meets the contract of [run_parallel] in the simplest way:
    it runs [calling] on the first sample of each task, one task after the
    other, and collects the results. *)
Definition run_serial (stage : string) (tasks : list (list Sample))
  : M (list (list Sample)) :=
  fold_M (fun (done : list (list Sample)) (task : list Sample) =>
            t ← lift (item0 task);
            r ← calling t;
            mret (done ++ r))
         tasks [].

(** ** Vocabulary of the statements *)

(** The commands that [split_ATAC] runs never fail: the shell command exits
    with status zero and the index is built. *)
Definition collaborators_succeed : Prop :=
  (forall cmd f, is_Some (shell cmd f)) /\
  (forall bam f, is_Some (bam_index bam f)).

(** What one turn of the loop of [split_ATAC] records in [split_files]. *)
Definition record_range (out_stem : string) (m : gmap string string)
    (arange : ATACRange) : gmap string string :=
  <[label arange := split_out_file out_stem arange]> m.

(** A path that is not empty and does not end with a slash, and a path that
    does not start with one: [os.path.join] puts exactly one slash between
    such paths. *)
Definition is_plain (s : string) : bool :=
  negb (bool_decide (s = EmptyString)) && negb (ends_with_slash s).

Definition is_relative (s : string) : bool :=
  match s with
  | String "/" _ => false
  | _ => true
  end.

(** Does every character of the string satisfy [P]? *)
Fixpoint all_chars (P : ascii -> bool) (s : string) : bool :=
  match s with
  | EmptyString => true
  | String c r => P c && all_chars P r
  end.

(** The characters of a decimal numeral: the digits and the minus sign. *)
Definition is_numeral_char (c : ascii) : bool :=
  let n := nat_of_ascii c in
  ((n =? 45) || ((48 <=? n) && (n <=? 57)))%nat.

(** The dictionary [raw_metrics] read from the file [metrics_lines mt m0 m1
    m2]. *)
Definition raw_metrics_dict (mt m0 m1 m2 : Z) : gmap string Z :=
  <["m2" := m2]> (<["m1" := m1]> (<["m0" := m0]> (<["mt" := mt]> ∅))).

(** The result [p] carries a peaks file for the original [o]: same sample
    name, and a value of [peaks_file] other than "error". *)
Definition overwrites (o p : Sample) (pf : string) : Prop :=
  sample_name o = sample_name p /\ peaks_file p = Some pf /\ pf <> "error".

(** The result group [pg] leaves the original [o] as it is: its first sample
    has another name, or carries "error". *)
Definition leaves (o : Sample) (pg : list Sample) : Prop :=
  exists p prest, pg = p :: prest /\
    (sample_name o <> sample_name p \/ peaks_file p = Some "error").

(** A result group as [calling] returns it: not empty, and its first sample
    has a [peaks_file] entry. *)
Definition has_peaks_file (pg : list Sample) : Prop :=
  exists p prest pf, pg = p :: prest /\ peaks_file p = Some pf.

(** [o] is a control of [s]: Python's [in] finds the batch of [s] in the
    batch of [o], and the phenotype of [o] is "input". *)
Definition is_control_for (s o : Sample) : Prop :=
  batch_in (batch s) (batch o) = OK true /\ phenotype o = "input".

(** The scan of [_get_paired_samples] passes over the group: the group is
    not empty, the test [in] is defined, and the first sample of the group
    is not a control of [s]. *)
Definition passed_over (s : Sample) (g : list Sample) : Prop :=
  exists o rest b, g = o :: rest /\
    batch_in (batch s) (batch o) = OK b /\
    (b = false \/ phenotype o <> "input").

(** [o] heads the first group of [data], in iteration order, that is a
    control of [s]. *)
Definition first_control (s : Sample) (data : list (list Sample)) (o : Sample)
  : Prop :=
  exists pre rest post,
    data = pre ++ (o :: rest) :: post /\
    Forall (passed_over s) pre /\
    is_control_for s o.

(** The task group [tg] was prepared from a group of [groups]: the first
    sample [s] of that group has phenotype "chip", one of its configured
    callers is in the registry, and the task is the copy of [s] tagged with
    that caller and with the work BAM of the first control of [s] in
    [data]. *)
Definition prepared_from (data groups : list (list Sample))
    (tg : list Sample) : Prop :=
  exists s rest caller o,
    (s :: rest) ∈ groups /\
    phenotype s = "chip" /\
    caller ∈ callers_of (peakcaller s) /\
    is_Some (get_callers !! caller) /\
    first_control s data o /\
    tg = [set_work_bam_input (work_bam o) (set_peak_fn caller s)].

(** The world after [logger.info(msg)]. *)
Definition logged (msg : string) (w : world) : world :=
  mkWorld (fs w) (trace w ++ [EvLog msg]).

(** The group [g'] is the group [g] after the merge: the same group, or the
    same group with a [peaks_file] written into its first sample. *)
Definition merged_group (g g' : list Sample) : Prop :=
  g' = g \/
  exists o rest pf, g = o :: rest /\ g' = set_peaks_file pf o :: rest.

(** What [split_ATAC] leaves in the trace for a range that it computes: the
    filter command, then the indexing of the output. *)
Definition range_events (base_cmd bam_file out_stem : string)
    (arange : ATACRange) : list event :=
  [ EvRun (split_cmd base_cmd arange bam_file
             (tx_path (split_out_file out_stem arange)))
          ("Splitting " +:+ label arange +:+ " regions from " +:+ bam_file +:+
           ".");
    EvBamIndex (split_out_file out_stem arange) ].

(** The prefix of every command of [split_ATAC]. *)
Definition split_base_cmd (data : Sample) : string :=
  fmt (get_program "sambamba" data) +:+ " view --format bam --nthreads " +:+
  str_of_int (num_cores data) +:+ " ".

(** A peak file as [get_NF_peaks] looks for it: a path that ends with
    "narrowPeak" or with "broadPeak". *)
Definition is_peak_file (f : string) : Prop :=
  exists pre, f = pre +:+ "narrowPeak" \/ f = pre +:+ "broadPeak".

(** The auxiliary files of [run_ataqv] and the record of its call to
    [gtf.get_tss_bed]. *)
Definition tss_bed_path (data : Sample) : string :=
  join (ataqv_out_dir data) "TSS.bed".

Definition autosomal_path (data : Sample) : string :=
  join (ataqv_out_dir data) "autosomal.txt".

Definition tss_event (data : Sample) : event :=
  EvTssBed (gtf_file data) (tss_bed_path data) 1000.

(** The sample passes the three guards of [run_ataqv]: its assay method is
    "atac", and it has a nucleosome-free peak file and BAM. *)
Definition ataqv_ready (data : Sample) : Prop :=
  chip_method data = "atac" /\
  truthy (get_NF_peaks data) = true /\
  truthy (get_NF_bam data) = true.

(** The directory of the metrics files, and the file system once
    [utils.safe_makedir] has made sure of a directory. *)
Definition metrics_dir (data : Sample) : string :=
  join (join (work_dir data) "metrics") "atac".

Definition with_dir (dir : string) (f : fsys) : fsys :=
  mkFsys (files f) ({[dir]} ∪ dirs f).

(** The command of [calculate_complexity_metrics] on the sorted BAM, and its
    message. *)
Definition metrics_cmd (data : Sample) (sorted : string) : string :=
  complexity_cmd (get_program "bedtools" data) sorted
    (tx_path (metrics_path data)).

Definition metrics_message (data : Sample) (sorted : string) : string :=
  "Calculating ATAC-seq complexity metrics on " +:+ sorted +:+
  ", saving as " +:+ metrics_path data +:+ ".".

(** The metrics map that [calculate_encode_complexity_metrics] builds from
    the four integers. *)
Definition encode_ratios (mt m0 m1 m2 : Z) : gmap string number :=
  <["PBC2" := if (m2 =? 0)%Z then Int 0
              else Float (rnd (inject_Z m1 / inject_Z m2)%Q)]>
    (<["NRF" := Float (rnd (inject_Z m0 / inject_Z mt)%Q)]>
       {["PBC1" := Float (rnd (inject_Z m1 / inject_Z m0)%Q)]}).




(** From [w] to [w'] nothing happened but calls of [logger.info]: the files
    are the same and the trace grew by log events only. *)
Definition only_logs (w w' : world) : Prop :=
  fs w' = fs w /\ exists msgs, trace w' = trace w ++ (EvLog <$> msgs).

(** The directory that [calling] makes for the peaks of a sample. *)
Definition peaks_dir (data : Sample) (fn : string) : string :=
  join (join (work_dir data) fn) (sample_name data).

(** What one result group says about the original sample named [name]: the
    peaks file to write into it, if any. *)
Definition verdict (name : string) (pg : list Sample) : result (option string) :=
  p ← item0 pg;
  if bool_decide (name = sample_name p) then
    pf ← get_peaks_file p;
    OK (if negb (bool_decide (pf = "error")) then Some pf else None)
  else OK None.

(** The peaks file that the results, taken in order, leave in the original
    sample named [name]: the last one that a result group writes. *)
Fixpoint last_peaks_file (processed : list (list Sample)) (name : string)
  : result (option string) :=
  match processed with
  | [] => OK None
  | pg :: processed' =>
      v ← verdict name pg;
      l ← last_peaks_file processed' name;
      OK (match l with Some pf => Some pf | None => v end)
  end.

Definition write_peaks_file (v : option string) (o : Sample) : Sample :=
  match v with
  | Some pf => set_peaks_file pf o
  | None => o
  end.

(** A task and the result group that [calling] returns for it. *)
Definition result_of_task (tg rg : list Sample) : Prop :=
  exists t out, tg = [t] /\ rg = [set_peaks_file out t].

(** ** Properties *)

(** *** Strings *)

Lemma append_assoc (a b c : string) : (a +:+ b) +:+ c = a +:+ (b +:+ c).
Proof.
  induction a as [|x a IH]; [reflexivity | exact (f_equal (String x) IH)].
Qed.

(** *** Fragment-size ranges *)

Lemma range_filter_accepts (arange : ATACRange) (L : Z) :
  Sambamba.accepts (range_filter arange) L = true <->
  (min arange < L /\ L < max arange)%Z.
Proof.
  unfold range_filter. simpl.
  rewrite andb_true_iff, !Z.ltb_lt. reflexivity.
Qed.

Lemma range_filter_render (arange : ATACRange) :
  Sambamba.render (range_filter arange) =
  "template_length > " +:+ str_of_int (min arange) +:+
  " and template_length < " +:+ str_of_int (max arange).
Proof. reflexivity. Qed.

(** C4. The filter that [split_ATAC] hands to sambamba for a range of the
    catalog NF (0,100), MN (180,247), DN (315,473), TN (558,615) accepts a
    template length [L] exactly when [min < L < max], both inequalities
    strict; the bounds 100, 180, 247, 315, 473, 558 and 615 pass the filter
    of no range. *)
Theorem split_filter_strict :
  ATACRanges_values =
    [mkATACRange "NF" 0 100; mkATACRange "MN" 180 247;
     mkATACRange "DN" 315 473; mkATACRange "TN" 558 615] /\
  (forall (base_cmd bam_file tx : string) (arange : ATACRange),
     split_cmd base_cmd arange bam_file tx =
     base_cmd +:+ "-F " +:+ dquote +:+
     "template_length > " +:+ str_of_int (min arange) +:+
     " and template_length < " +:+ str_of_int (max arange) +:+
     dquote +:+ " " +:+ bam_file +:+ " > " +:+ tx) /\
  Forall (fun arange => forall L : Z,
            Sambamba.accepts (range_filter arange) L = true <->
            (min arange < L /\ L < max arange)%Z)
         ATACRanges_values /\
  Forall (fun arange =>
            Forall (fun bound =>
                      Sambamba.accepts (range_filter arange) bound = false)
                   [100; 180; 247; 315; 473; 558; 615]%Z)
         ATACRanges_values.
Proof.
  split; [reflexivity|]. split.
  - intros. unfold split_cmd. rewrite range_filter_render.
    rewrite !append_assoc. reflexivity.
  - split.
    + apply Forall_forall. intros arange _ L. apply range_filter_accepts.
    + repeat constructor.
Qed.

(** *** Effects *)

Lemma bind_OK {A B} (m : M A) (f : A -> M B) (w w' : world) (a : A) :
  m w = (OK a, w') -> (m ≫= f) w = f a w'.
Proof. intros H. unfold mbind, M_bind. by rewrite H. Qed.

Lemma bind_inv_OK {A B} (m : M A) (f : A -> M B) (w w' : world) (b : B) :
  (m ≫= f) w = (OK b, w') ->
  exists a w1, m w = (OK a, w1) /\ f a w1 = (OK b, w').
Proof.
  unfold mbind, M_bind. destruct (m w) as [[a|e] w1]; [eauto | discriminate].
Qed.

Lemma file_exists_true (p : string) (w : world) :
  is_Some (files (fs w) !! p) -> file_exists p w = (OK true, w).
Proof. intros H. unfold file_exists. by rewrite bool_decide_eq_true_2. Qed.

(** *** The complexity metrics file is computed once *)

Lemma calculate_complexity_metrics_cached (work_bam : string) (data : Sample)
    (w : world) :
  is_Some (files (fs w) !! metrics_path data) ->
  calculate_complexity_metrics work_bam data w =
  (OK (assoc_complexity_metrics_file (metrics_path data) data),
   mkWorld (mkFsys (files (fs w))
                   ({[join (join (work_dir data) "metrics") "atac"]} ∪
                    dirs (fs w)))
           (trace w)).
Proof.
  intros Hex. unfold calculate_complexity_metrics.
  erewrite bind_OK; [|reflexivity].
  erewrite bind_OK; [|by apply file_exists_true]. reflexivity.
Qed.

(** *** One turn of the splitting loop *)

Lemma split_range_cached (base_cmd bam_file out_stem : string)
    (split_files : gmap string string) (arange : ATACRange) (w : world) :
  is_Some (files (fs w) !! split_out_file out_stem arange) ->
  split_range base_cmd bam_file out_stem split_files arange w =
  (OK (<[label arange := split_out_file out_stem arange]> split_files), w).
Proof.
  intros Hex. unfold split_range.
  erewrite bind_OK; [|by apply file_exists_true]. reflexivity.
Qed.

Lemma split_range_returns (base_cmd bam_file out_stem : string)
    (split_files split_files' : gmap string string) (arange : ATACRange)
    (w w' : world) :
  split_range base_cmd bam_file out_stem split_files arange w
    = (OK split_files', w') ->
  split_files' = <[label arange := split_out_file out_stem arange]> split_files.
Proof.
  unfold split_range. intros H.
  apply bind_inv_OK in H as (cached & w1 & _ & H).
  apply bind_inv_OK in H as (? & w2 & _ & H).
  by injection H as <- _.
Qed.

Lemma split_range_total (base_cmd bam_file out_stem : string)
    (split_files : gmap string string) (arange : ATACRange) (w : world) :
  collaborators_succeed ->
  exists w',
    split_range base_cmd bam_file out_stem split_files arange w =
    (OK (<[label arange := split_out_file out_stem arange]> split_files), w').
Proof.
  intros [Hsh Hix]. unfold split_range.
  unfold mbind at 1, M_bind at 1, file_exists.
  destruct (bool_decide _); [by eexists|].
  unfold file_transaction, do_run, do_bam_index, mbind, M_bind, mret, M_ret.
  cbn.
  destruct (Hsh (split_cmd base_cmd arange bam_file
                   (tx_path (split_out_file out_stem arange))) (fs w))
    as [f1 ->]. cbn.
  match goal with |- context [bam_index ?b ?f] =>
    destruct (Hix b f) as [f2 ->] end.
  by eexists.
Qed.

Lemma split_loop_returns (base_cmd bam_file out_stem : string)
    (ranges : list ATACRange) :
  forall (split_files split_files' : gmap string string) (w w' : world),
    fold_M (split_range base_cmd bam_file out_stem) ranges split_files w
      = (OK split_files', w') ->
    split_files' = foldl (record_range out_stem) split_files ranges.
Proof.
  induction ranges as [|r rs IH]; intros sf sf' w w' H.
  - by injection H as <- _.
  - cbn in H. apply bind_inv_OK in H as (sf1 & w1 & H1 & H).
    apply split_range_returns in H1 as ->. by apply IH in H.
Qed.

Lemma split_loop_total (base_cmd bam_file out_stem : string)
    (ranges : list ATACRange) :
  collaborators_succeed ->
  forall (split_files : gmap string string) (w : world),
  exists w',
    fold_M (split_range base_cmd bam_file out_stem) ranges split_files w
    = (OK (foldl (record_range out_stem) split_files ranges), w').
Proof.
  intros Hok. induction ranges as [|r rs IH]; intros sf w.
  - by eexists.
  - destruct (split_range_total base_cmd bam_file out_stem sf r w Hok)
      as [w1 H1].
    destruct (IH (record_range out_stem sf r) w1) as [w' H].
    exists w'. cbn. erewrite bind_OK; [|exact H1]. exact H.
Qed.

Lemma split_loop_cached (base_cmd bam_file out_stem : string)
    (ranges : list ATACRange) (w : world) :
  Forall (fun r => is_Some (files (fs w) !! split_out_file out_stem r)) ranges ->
  forall split_files : gmap string string,
    fold_M (split_range base_cmd bam_file out_stem) ranges split_files w
    = (OK (foldl (record_range out_stem) split_files ranges), w).
Proof.
  induction 1 as [|r rs Hr _ IH]; intros sf; [reflexivity|].
  cbn. erewrite bind_OK; [|by apply split_range_cached]. apply IH.
Qed.

(** C5. Whenever [split_ATAC] returns, and it does return when the external
    commands succeed, the [atac.align] entry of the returned sample is the
    map with exactly the keys NF, MN, DN, TN and full: each range label is
    bound to the stem of the BAM path followed by [-label.bam], and full to
    the BAM path itself.  The map is the same whether the range files were
    computed in this call or were there before. *)
Theorem split_ATAC_align (data : Sample) (bam_file : option string)
    (bam : string) (w : world) :
  (if truthy bam_file then bam_file else work_bam data) = Some bam ->
  let out_stem := (splitext bam).1 in
  let split_files : gmap string string :=
    {[ "NF" := out_stem +:+ "-NF.bam"; "MN" := out_stem +:+ "-MN.bam";
       "DN" := out_stem +:+ "-DN.bam"; "TN" := out_stem +:+ "-TN.bam";
       "full" := bam ]} in
  dom split_files = ({[ "NF"; "MN"; "DN"; "TN"; "full" ]} : gset string) /\
  (forall d' w', split_ATAC data bam_file w = (OK d', w') ->
                 d' = assoc_align split_files data /\
                 align d' = Some split_files) /\
  (collaborators_succeed ->
   exists w', split_ATAC data bam_file w =
              (OK (assoc_align split_files data), w')) /\
  (Forall (fun r => is_Some (files (fs w) !! split_out_file out_stem r))
          ATACRanges_values ->
   split_ATAC data bam_file w = (OK (assoc_align split_files data), w)).
Proof.
  intros Hbam out_stem split_files.
  assert (Hmap : <["full" := bam]>
                   (foldl (record_range out_stem) ∅ ATACRanges_values)
                 = split_files).
  { subst split_files. apply map_eq. intros k.
    unfold ATACRanges_values, ATACRanges, record_range, split_out_file.
    cbn [foldl fmap list_fmap snd label].
    destruct (decide (k = "full")) as [->|]; [by simplify_map_eq|].
    destruct (decide (k = "TN")) as [->|]; [by simplify_map_eq|].
    destruct (decide (k = "DN")) as [->|]; [by simplify_map_eq|].
    destruct (decide (k = "MN")) as [->|]; [by simplify_map_eq|].
    destruct (decide (k = "NF")) as [->|]; [by simplify_map_eq|].
    by simplify_map_eq. }
  assert (Hdom : dom split_files
                 = ({[ "NF"; "MN"; "DN"; "TN"; "full" ]} : gset string)).
  { subst split_files. rewrite !dom_insert_L, dom_singleton_L. set_solver. }
  assert (Hret : forall d' w', split_ATAC data bam_file w = (OK d', w') ->
                               d' = assoc_align split_files data).
  { intros d' w' H. unfold split_ATAC in H. rewrite Hbam in H.
    apply bind_inv_OK in H as (sf & w1 & Hloop & H).
    apply split_loop_returns in Hloop as ->.
    injection H as <- _. by rewrite <- Hmap. }
  split; [exact Hdom|]. split; [|split].
  - intros d' w' H. apply Hret in H as ->. done.
  - intros Hok. unfold split_ATAC. rewrite Hbam.
    edestruct split_loop_total as [w' Hloop]; [exact Hok|].
    exists w'. erewrite bind_OK; [|exact Hloop].
    unfold mret, M_ret. by rewrite <- Hmap.
  - intros Hall. unfold split_ATAC. rewrite Hbam.
    erewrite bind_OK; [|by apply split_loop_cached].
    unfold mret, M_ret. by rewrite <- Hmap.
Qed.

(** *** Paths *)

Lemma last_char_app (a : string) (c : ascii) (r : string) :
  last_char (a +:+ String c r) = last_char (String c r).
Proof.
  induction a as [|x a IH]; [reflexivity|].
  change (last_char (String x (a +:+ String c r)) = last_char (String c r)).
  cbn [last_char] in *. rewrite IH. by destruct (last_char r).
Qed.

Lemma is_plain_app (a b : string) :
  is_plain b = true -> is_plain (a +:+ b) = true.
Proof.
  destruct b as [|c r]; [done|]. unfold is_plain, ends_with_slash.
  rewrite last_char_app. intros H.
  rewrite andb_true_iff in *. split; [|apply H].
  rewrite bool_decide_eq_false_2; [done|]. by destruct a.
Qed.

Lemma is_relative_app (a b : string) :
  is_relative a = true -> is_relative b = true -> is_relative (a +:+ b) = true.
Proof. destruct a as [|x a]; [done|]. intros H _. exact H. Qed.

Lemma join_plain (a b : string) :
  is_plain a = true -> is_relative b = true -> join a b = a +:+ "/" +:+ b.
Proof.
  unfold is_plain, join. rewrite andb_true_iff, !negb_true_iff.
  intros [-> ->] Hb. cbn.
  destruct b as [|c r]; [done|].
  destruct (ascii_dec c "/") as [->|Hc]; [done|].
  destruct c as [[|] [|] [|] [|] [|] [|] [|] [|]]; try reflexivity.
  by destruct Hc.
Qed.

Lemma metrics_path_plain (data : Sample) :
  is_plain (work_dir data) = true ->
  is_relative (sample_name data) = true ->
  metrics_path data =
  work_dir data +:+ "/metrics/atac/" +:+ sample_name data +:+
  "-atac-metrics.csv".
Proof.
  intros Hw Hn. unfold metrics_path.
  rewrite (join_plain (work_dir data)) by done.
  rewrite (join_plain _ "atac"); [|by apply is_plain_app|done].
  rewrite join_plain;
    [|by apply is_plain_app|by apply is_relative_app].
  rewrite !append_assoc. reflexivity.
Qed.

Lemma ataqv_out_file_plain (data : Sample) :
  is_plain (work_dir data) = true ->
  is_plain (sample_name data) = true ->
  is_relative (sample_name data) = true ->
  ataqv_out_file data =
  work_dir data +:+ "/qc/" +:+ sample_name data +:+ "/ataqv/" +:+
  sample_name data +:+ ".ataqv.json.gz".
Proof.
  intros Hw Hp Hn. unfold ataqv_out_file, ataqv_out_dir.
  rewrite (join_plain (work_dir data)) by done.
  rewrite (join_plain _ (sample_name data)); [|by apply is_plain_app|done].
  rewrite (join_plain _ "ataqv"); [|by do 2 apply is_plain_app|done].
  rewrite join_plain;
    [|by apply is_plain_app|by apply is_relative_app].
  rewrite !append_assoc. reflexivity.
Qed.

(** *** Memoization on the output paths *)

Lemma filter_external_log (t : list event) (msg : string) :
  filter is_external (t ++ [EvLog msg]) = filter is_external t.
Proof. rewrite filter_app. cbn. by rewrite app_nil_r. Qed.

(** C6. When the metrics file exists, [calculate_complexity_metrics] only
    records its path: no event is added to the trace, the files are left as
    they are, and a second call from the resulting world changes nothing at
    all.  When the output of a range exists, the turn of the loop of
    [split_ATAC] for that range only records the path and leaves the world
    as it is; when the four outputs exist, so does the whole of
    [split_ATAC].  The metrics file is looked up at
    [{workDir}/metrics/atac/{sampleName}-atac-metrics.csv] (for a work
    directory and a sample name between which [os.path.join] puts one
    slash). *)
Theorem outputs_computed_once (in_bam : string) (data : Sample)
    (base_cmd bam_file out_stem : string) (split_files : gmap string string)
    (arange : ATACRange) (bam_arg : option string) (w : world) :
  (is_Some (files (fs w) !! metrics_path data) ->
   exists w',
     calculate_complexity_metrics in_bam data w =
       (OK (assoc_complexity_metrics_file (metrics_path data) data), w') /\
     trace w' = trace w /\
     files (fs w') = files (fs w) /\
     calculate_complexity_metrics in_bam data w' =
       (OK (assoc_complexity_metrics_file (metrics_path data) data), w')) /\
  (is_Some (files (fs w) !! split_out_file out_stem arange) ->
   split_range base_cmd bam_file out_stem split_files arange w =
     (OK (<[label arange := split_out_file out_stem arange]> split_files), w)) /\
  ((if truthy bam_arg then bam_arg else work_bam data) = Some bam_file ->
   Forall (fun r => is_Some (files (fs w) !!
                             split_out_file (splitext bam_file).1 r))
          ATACRanges_values ->
   exists d', split_ATAC data bam_arg w = (OK d', w)) /\
  (is_plain (work_dir data) = true ->
   is_relative (sample_name data) = true ->
   metrics_path data =
   work_dir data +:+ "/metrics/atac/" +:+ sample_name data +:+
   "-atac-metrics.csv").
Proof.
  split; [|split; [|split]]; [| | |apply metrics_path_plain].
  - intros Hex. eexists. split; [by apply calculate_complexity_metrics_cached|].
    split; [done|]. split; [done|].
    rewrite calculate_complexity_metrics_cached by done. cbn.
    do 3 f_equal. by rewrite (assoc_L (∪)), (idemp_L (∪)).
  - apply split_range_cached.
  - intros Hbam Hall. unfold split_ATAC. rewrite Hbam.
    erewrite bind_OK; [|by apply split_loop_cached]. by eexists.
Qed.

(** C7 (amended). When the output of ataqv exists, [run_ataqv] returns its
    path at once for a sample whose assay method is "atac" and that has a
    nucleosome-free peak file and a nucleosome-free BAM; for any other
    sample it returns nothing.  In both cases it calls no external program
    and leaves the file system as it is.  The output is looked up at
    [{workDir}/qc/{sampleName}/ataqv/{sampleName}.ataqv.json.gz] (for a work
    directory and a sample name between which [os.path.join] puts one
    slash). *)
Theorem run_ataqv_cached (data : Sample) (w : world) :
  is_Some (files (fs w) !! ataqv_out_file data) ->
  (chip_method data = "atac" ->
   truthy (get_NF_peaks data) = true ->
   truthy (get_NF_bam data) = true ->
   run_ataqv data w = (OK (Some (ataqv_out_file data)), w)) /\
  (exists w',
     run_ataqv data w =
       (OK (if bool_decide (chip_method data = "atac") &&
               truthy (get_NF_peaks data) && truthy (get_NF_bam data)
            then Some (ataqv_out_file data) else None), w') /\
     fs w' = fs w /\
     filter is_external (trace w') = filter is_external (trace w)) /\
  (is_plain (work_dir data) = true ->
   is_plain (sample_name data) = true ->
   is_relative (sample_name data) = true ->
   ataqv_out_file data =
   work_dir data +:+ "/qc/" +:+ sample_name data +:+ "/ataqv/" +:+
   sample_name data +:+ ".ataqv.json.gz").
Proof.
  intros Hex.
  assert (Hhit : chip_method data = "atac" ->
                 truthy (get_NF_peaks data) = true ->
                 truthy (get_NF_bam data) = true ->
                 run_ataqv data w = (OK (Some (ataqv_out_file data)), w)).
  { intros Hm Hp Hb. unfold run_ataqv.
    rewrite bool_decide_eq_true_2 by done. rewrite Hp, Hb. cbn [negb].
    erewrite bind_OK; [|by apply file_exists_true]. reflexivity. }
  split; [exact Hhit|]. split; [|apply ataqv_out_file_plain].
  destruct (decide (chip_method data = "atac")) as [Hm|Hm].
  - rewrite (bool_decide_eq_true_2 _ Hm).
    destruct (truthy (get_NF_peaks data)) eqn:Hp.
    + destruct (truthy (get_NF_bam data)) eqn:Hb.
      * exists w. by rewrite Hhit.
      * eexists. unfold run_ataqv.
        rewrite bool_decide_eq_true_2 by done. rewrite Hp, Hb. cbn [negb].
        split; [reflexivity|]. cbn. by rewrite filter_external_log.
    + eexists. unfold run_ataqv.
      rewrite bool_decide_eq_true_2 by done. rewrite Hp. cbn [negb].
      split; [reflexivity|]. cbn. by rewrite filter_external_log.
  - rewrite (bool_decide_eq_false_2 _ Hm). exists w. unfold run_ataqv.
    by rewrite bool_decide_eq_false_2.
Qed.

(** *** Decimal numerals, [strip], [split] and [int] *)

Lemma all_chars_app (P : ascii -> bool) (a b : string) :
  all_chars P (a +:+ b) = all_chars P a && all_chars P b.
Proof.
  induction a as [|x a IH]; [reflexivity|].
  change (P x && all_chars P (a +:+ b) = P x && all_chars P a && all_chars P b).
  by rewrite IH, andb_assoc.
Qed.

Lemma all_chars_impl (P Q : ascii -> bool) (s : string) :
  (forall c, P c = true -> Q c = true) ->
  all_chars P s = true -> all_chars Q s = true.
Proof.
  intros HPQ. induction s as [|c r IH]; [done|]. cbn.
  rewrite !andb_true_iff. intros [? ?]. auto.
Qed.

Lemma numeral_char_not_space (c : ascii) :
  is_numeral_char c = true -> negb (is_space c) = true.
Proof. by destruct c as [[|] [|] [|] [|] [|] [|] [|] [|]]. Qed.

Lemma numeral_char_not_comma (c : ascii) :
  is_numeral_char c = true -> negb (Ascii.eqb c ",") = true.
Proof. by destruct c as [[|] [|] [|] [|] [|] [|] [|] [|]]. Qed.

Lemma string_of_uint_chars (u : Decimal.uint) :
  all_chars is_numeral_char (NilEmpty.string_of_uint u) = true.
Proof. induction u; cbn; auto. Qed.

Lemma to_uint_not_nil (p : positive) : Pos.to_uint p <> Decimal.Nil.
Proof.
  intros E. pose proof (DecimalPos.Unsigned.of_to p) as H.
  rewrite E in H. discriminate.
Qed.

Lemma string_of_uint_not_nil (u : Decimal.uint) :
  u <> Decimal.Nil -> NilZero.string_of_uint u = NilEmpty.string_of_uint u.
Proof. by destruct u. Qed.

Lemma str_of_int_chars (z : Z) :
  all_chars is_numeral_char (str_of_int z) = true.
Proof.
  unfold str_of_int. destruct z as [|p|p]; [done| |];
    cbn [Z.to_int NilZero.string_of_int].
  - rewrite string_of_uint_not_nil by apply to_uint_not_nil.
    apply string_of_uint_chars.
  - rewrite string_of_uint_not_nil by apply to_uint_not_nil.
    cbn. apply string_of_uint_chars.
Qed.

Lemma rstrip_no_space (s : string) :
  all_chars (fun c => negb (is_space c)) s = true -> rstrip s = s.
Proof.
  induction s as [|c r IH]; [done|]. cbn.
  rewrite andb_true_iff, negb_true_iff. intros [Hc Hr].
  rewrite IH by done. destruct r; [by rewrite Hc | done].
Qed.

Lemma rstrip_newline (s : string) : rstrip (s +:+ nl) = rstrip s.
Proof.
  induction s as [|c r IH]; [reflexivity|].
  change (rstrip (String c (r +:+ nl)) = rstrip (String c r)).
  cbn. by rewrite IH.
Qed.

Lemma strip_line (s : string) :
  all_chars (fun c => negb (is_space c)) s = true -> strip (s +:+ nl) = s.
Proof.
  intros H. unfold strip. destruct s as [|c r]; [reflexivity|].
  assert (Hc : is_space c = false).
  { cbn in H. rewrite andb_true_iff, negb_true_iff in H. apply H. }
  change (rstrip (lstrip (String c (r +:+ nl))) = String c r).
  cbn [lstrip]. rewrite Hc.
  change (rstrip (String c r +:+ nl) = String c r).
  rewrite rstrip_newline. by apply rstrip_no_space.
Qed.

Lemma strip_no_space (s : string) :
  all_chars (fun c => negb (is_space c)) s = true -> strip s = s.
Proof.
  intros H. unfold strip. destruct s as [|c r]; [reflexivity|].
  assert (Hc : is_space c = false).
  { cbn in H. rewrite andb_true_iff, negb_true_iff in H. apply H. }
  cbn [lstrip]. rewrite Hc. by apply rstrip_no_space.
Qed.

Lemma split_single (sep : ascii) (a : string) :
  all_chars (fun c => negb (Ascii.eqb c sep)) a = true -> split sep a = [a].
Proof.
  induction a as [|c r IH]; [done|]. cbn.
  rewrite andb_true_iff, negb_true_iff. intros [-> Hr]. by rewrite IH.
Qed.

Lemma split_cons (sep : ascii) (a rest : string) :
  all_chars (fun c => negb (Ascii.eqb c sep)) a = true ->
  split sep (a +:+ String sep rest) = a :: split sep rest.
Proof.
  induction a as [|c r IH].
  - intros _. change (split sep (String sep rest) = EmptyString :: split sep rest).
    cbn. by rewrite Ascii.eqb_refl.
  - cbn. rewrite andb_true_iff, negb_true_iff. intros [Hc Hr].
    change (split sep (String c (r +:+ String sep rest))
            = String c r :: split sep rest).
    cbn. by rewrite Hc, IH.
Qed.

Lemma numeral_char_not_c_space (c : ascii) :
  is_numeral_char c = true -> negb (is_c_space c) = true.
Proof. by destruct c as [[|] [|] [|] [|] [|] [|] [|] [|]]. Qed.

Lemma rskip_no_space (s : string) :
  all_chars (fun c => negb (is_c_space c)) s = true -> rskip s = s.
Proof.
  induction s as [|c r IH]; [done|]. cbn.
  rewrite andb_true_iff, negb_true_iff. intros [Hc Hr].
  rewrite IH by done. destruct r; [by rewrite Hc | done].
Qed.

Lemma skip_no_space (s : string) :
  all_chars (fun c => negb (is_c_space c)) s = true -> rskip (lskip s) = s.
Proof.
  intros H. destruct s as [|c r]; [reflexivity|].
  assert (Hc : is_c_space c = false).
  { cbn in H. rewrite andb_true_iff, negb_true_iff in H. apply H. }
  cbn [lskip]. rewrite Hc. by apply rskip_no_space.
Qed.

Lemma digits_of_uint (u : Decimal.uint) :
  digits_of true (NilEmpty.string_of_uint u) =
  Some (NilEmpty.string_of_uint u).
Proof.
  induction u; cbn [NilEmpty.string_of_uint digits_of]; [reflexivity|..];
    cbn [Ascii.eqb Bool.eqb]; by rewrite IHu.
Qed.

Lemma int_of_digits_uint (u : Decimal.uint) :
  u <> Decimal.Nil ->
  int_of_digits (NilEmpty.string_of_uint u) = OK (Z.of_uint u).
Proof.
  intros Hu. unfold int_of_digits.
  assert (Hd : digits_of false (NilEmpty.string_of_uint u) =
               Some (NilEmpty.string_of_uint u)).
  { destruct u; [done|..];
      cbn [NilEmpty.string_of_uint digits_of Ascii.eqb Bool.eqb];
      by rewrite digits_of_uint. }
  by rewrite Hd, NilEmpty.usu.
Qed.

Lemma int_of_uint_string (u : Decimal.uint) :
  u <> Decimal.Nil ->
  int (NilEmpty.string_of_uint u) = OK (Z.of_uint u).
Proof.
  intros Hu. unfold int.
  rewrite skip_no_space
    by (eapply all_chars_impl;
        [apply numeral_char_not_c_space | apply string_of_uint_chars]).
  rewrite <- (int_of_digits_uint u Hu). by destruct u.
Qed.

Lemma int_str_of_int (z : Z) : int (str_of_int z) = OK z.
Proof.
  unfold str_of_int. destruct z as [|p|p]; [reflexivity| |];
    cbn [Z.to_int NilZero.string_of_int];
    rewrite string_of_uint_not_nil by apply to_uint_not_nil.
  - rewrite int_of_uint_string by apply to_uint_not_nil.
    f_equal. exact (DecimalZ.of_to (Z.pos p)).
  - assert (Hd : int_of_digits (NilEmpty.string_of_uint (Pos.to_uint p))
                 = OK (Z.pos p)).
    { rewrite int_of_digits_uint by apply to_uint_not_nil.
      f_equal. exact (DecimalZ.of_to (Z.pos p)). }
    unfold int. rewrite skip_no_space.
    + by rewrite Hd.
    + apply (all_chars_impl is_numeral_char);
        [apply numeral_char_not_c_space|].
      cbn. apply string_of_uint_chars.
Qed.

(** *** Reading the metrics file *)

Lemma no_comma (z : Z) :
  all_chars (fun c => negb (Ascii.eqb c ",")) (str_of_int z) = true.
Proof.
  apply (all_chars_impl is_numeral_char);
    [apply numeral_char_not_comma | apply str_of_int_chars].
Qed.

Lemma split_field (sep : ascii) (a rest : string) :
  all_chars (fun c => negb (Ascii.eqb c sep)) a = true ->
  split sep (a +:+ String sep EmptyString +:+ rest) = a :: split sep rest.
Proof. apply split_cons. Qed.

Lemma metrics_row_fields (mt m0 m1 m2 : Z) :
  split ","
    (strip (str_of_int mt +:+ "," +:+ str_of_int m0 +:+ "," +:+
            str_of_int m1 +:+ "," +:+ str_of_int m2 +:+ nl))
  = [str_of_int mt; str_of_int m0; str_of_int m1; str_of_int m2].
Proof.
  pose proof (fun z => all_chars_impl _ _ _ numeral_char_not_space
                         (str_of_int_chars z)) as Hsp.
  replace (str_of_int mt +:+ "," +:+ str_of_int m0 +:+ "," +:+
           str_of_int m1 +:+ "," +:+ str_of_int m2 +:+ nl)
    with ((str_of_int mt +:+ "," +:+ str_of_int m0 +:+ "," +:+
           str_of_int m1 +:+ "," +:+ str_of_int m2) +:+ nl)
    by (rewrite !append_assoc; reflexivity).
  rewrite strip_line
    by (rewrite !all_chars_app, !Hsp; reflexivity).
  rewrite !split_field by apply no_comma.
  by rewrite split_single by apply no_comma.
Qed.

Lemma raw_metrics_of_row (mt m0 m1 m2 : Z) :
  raw_metrics_of ["mt"; "m0"; "m1"; "m2"]
    [str_of_int mt; str_of_int m0; str_of_int m1; str_of_int m2]
  = OK (raw_metrics_dict mt m0 m1 m2).
Proof.
  unfold raw_metrics_of. cbn [zip zip_with for_each].
  unfold mbind, result_bind. by rewrite !int_str_of_int.
Qed.

Lemma calculate_encode_reads (data : Sample) (path : string) (w : world)
    (mt m0 m1 m2 : Z) :
  complexity_metrics_file data = Some path ->
  path <> EmptyString ->
  files (fs w) !! path = Some (metrics_lines mt m0 m1 m2) ->
  calculate_encode_complexity_metrics data w =
  (encode_metrics (raw_metrics_dict mt m0 m1 m2), w).
Proof.
  intros Hp Hne Hf. unfold calculate_encode_complexity_metrics.
  rewrite Hp. destruct path as [|c path]; [done|]. cbn [truthy negb from_option id].
  erewrite bind_OK; [|reflexivity].
  unfold lift, open_read. rewrite Hf.
  unfold metrics_lines. cbn [mbind result_bind next].
  rewrite metrics_row_fields.
  change (split "," (strip ("mt,m0,m1,m2" +:+ nl)))
    with ["mt"; "m0"; "m1"; "m2"].
  by rewrite raw_metrics_of_row.
Qed.

Lemma raw_metrics_lookup (mt m0 m1 m2 : Z) :
  getitem (raw_metrics_dict mt m0 m1 m2) "mt" = OK mt /\
  getitem (raw_metrics_dict mt m0 m1 m2) "m0" = OK m0 /\
  getitem (raw_metrics_dict mt m0 m1 m2) "m1" = OK m1 /\
  getitem (raw_metrics_dict mt m0 m1 m2) "m2" = OK m2.
Proof. unfold getitem, raw_metrics_dict. by simplify_map_eq. Qed.

(** *** The ENCODE ratios *)

(** Quotients that do not overflow: a numerator below the bound, or a
    quotient of at most one. *)
Lemma no_overflow (a b : Z) :
  b <> 0%Z -> in_float_range a ->
  overflows (inject_Z a / inject_Z b) = false.
Proof.
  unfold overflows, in_float_range.
  generalize float_overflow_bound as B. intros B Hb Ha.
  apply not_true_iff_false. rewrite Qle_bool_iff.
  intros Hle. unfold Qle, Qabs, Qdiv, Qmult, Qinv, inject_Z in Hle.
  destruct b as [|p|p]; [done| |]; cbn in Hle; nia.
Qed.

Lemma float_overflow_bound_large : (1 < float_overflow_bound)%Z.
Proof. reflexivity. Qed.

Lemma no_overflow_le (a b : Z) :
  (0 <= a <= b)%Z -> (0 < b)%Z ->
  overflows (inject_Z a / inject_Z b) = false.
Proof.
  unfold overflows. pose proof float_overflow_bound_large as HB. revert HB.
  generalize float_overflow_bound as B. intros B HB Ha Hb.
  apply not_true_iff_false. rewrite Qle_bool_iff.
  intros Hle. unfold Qle, Qabs, Qdiv, Qmult, Qinv, inject_Z in Hle.
  destruct b as [|p|p]; [lia| |lia]; cbn in Hle; nia.
Qed.

Lemma overflow_by_one (a : Z) :
  (float_overflow_bound <= a)%Z ->
  overflows (inject_Z a / inject_Z 1) = true.
Proof.
  unfold overflows. pose proof float_overflow_bound_large as HB. revert HB.
  generalize float_overflow_bound as B. intros B HB Ha.
  rewrite Qle_bool_iff.
  unfold Qle, Qabs, Qdiv, Qmult, Qinv, inject_Z. cbn. nia.
Qed.

Lemma truediv_defined (a b : Z) :
  b <> 0%Z -> overflows (inject_Z a / inject_Z b) = false ->
  truediv a b = OK (Float (rnd (inject_Z a / inject_Z b)%Q)).
Proof.
  intros Hb Ho. unfold truediv. apply Z.eqb_neq in Hb. by rewrite Hb, Ho.
Qed.

Lemma encode_metrics_defined (mt m0 m1 m2 : Z) :
  m0 <> 0%Z -> mt <> 0%Z ->
  overflows (inject_Z m1 / inject_Z m0) = false ->
  overflows (inject_Z m0 / inject_Z mt) = false ->
  (m2 <> 0%Z -> overflows (inject_Z m1 / inject_Z m2) = false) ->
  encode_metrics (raw_metrics_dict mt m0 m1 m2) =
  OK (<["PBC2" := if (m2 =? 0)%Z then Int 0
                  else Float (rnd (inject_Z m1 / inject_Z m2)%Q)]>
        (<["NRF" := Float (rnd (inject_Z m0 / inject_Z mt)%Q)]>
           {["PBC1" := Float (rnd (inject_Z m1 / inject_Z m0)%Q)]})).
Proof.
  intros H0 Ht Ho1 Ho2 Ho3. unfold encode_metrics.
  destruct (raw_metrics_lookup mt m0 m1 m2) as (-> & -> & -> & ->).
  cbn [mbind result_bind]. rewrite (truediv_defined m1 m0) by done.
  cbn [mbind result_bind]. rewrite (truediv_defined m0 mt) by done.
  cbn [mbind result_bind].
  destruct (m2 =? 0)%Z eqn:E2; [reflexivity|].
  apply Z.eqb_neq in E2. cbn [mbind result_bind].
  by rewrite (truediv_defined m1 m2) by auto.
Qed.





(** *** The rows that the pipeline records *)

Lemma awk_tally_invariant (counts : list Z) :
  Forall (fun c => (1 <= c)%Z) counts ->
  let t := awk_tally counts in
  (0 <= tally_m1 t <= tally_m0 t)%Z /\
  (0 <= tally_m2 t <= tally_m0 t)%Z /\
  (tally_m0 t <= tally_mt t)%Z /\
  tally_m0 t = Z.of_nat (length counts).
Proof.
  intros Hc. unfold awk_tally.
  assert (Hgen : forall t0 : tally,
            (0 <= tally_m1 t0)%Z -> (0 <= tally_m2 t0)%Z ->
            (tally_m1 t0 + tally_m2 t0 <= tally_m0 t0)%Z ->
            (tally_m0 t0 <= tally_mt t0)%Z ->
            let t := foldl awk_line t0 counts in
            (0 <= tally_m1 t)%Z /\ (0 <= tally_m2 t)%Z /\
            (tally_m1 t + tally_m2 t <= tally_m0 t)%Z /\
            (tally_m0 t <= tally_mt t)%Z /\
            tally_m0 t = (tally_m0 t0 + Z.of_nat (length counts))%Z).
  { induction Hc as [|c cs Hc1 _ IH]; intros t0 H1 H2 H12 Ht; cbn [foldl].
    - cbn. lia.
    - cbn [length].
      destruct (IH (awk_line t0 c)) as (? & ? & ? & ? & Hm0).
      + cbn. destruct (c =? 1)%Z; lia.
      + cbn. destruct (c =? 2)%Z; lia.
      + cbn. destruct (c =? 1)%Z eqn:E1; destruct (c =? 2)%Z eqn:E2; lia.
      + cbn. lia.
      + repeat split; try done. rewrite Hm0. cbn [awk_line tally_m0]. lia. }
  specialize (Hgen (mkTally 0 0 0 0)). cbn in Hgen.
  destruct Hgen as (? & ? & ? & ? & ?); lia.
Qed.

(** The file that the pipeline records for a non-empty list of occurrence
    counts has [m0 > 0] and [mt > 0]: both quotients by [m0] and by [mt] are
    defined, and the metrics map is returned (the number of distinct pairs
    being below the overflow bound of binary64). *)
Lemma encode_metrics_of_tally (data : Sample) (path : string) (w : world)
    (counts : list Z) :
  counts <> [] ->
  Forall (fun c => (1 <= c)%Z) counts ->
  (Z.of_nat (length counts) < float_overflow_bound)%Z ->
  let t := awk_tally counts in
  complexity_metrics_file data = Some path ->
  path <> EmptyString ->
  files (fs w) !! path =
    Some (metrics_lines (tally_mt t) (tally_m0 t) (tally_m1 t) (tally_m2 t)) ->
  calculate_encode_complexity_metrics data w =
  (OK (<["PBC2" := if (tally_m2 t =? 0)%Z then Int 0
                   else Float (rnd (inject_Z (tally_m1 t) /
                                    inject_Z (tally_m2 t))%Q)]>
         (<["NRF" := Float (rnd (inject_Z (tally_m0 t) /
                                 inject_Z (tally_mt t))%Q)]>
            {["PBC1" := Float (rnd (inject_Z (tally_m1 t) /
                                    inject_Z (tally_m0 t))%Q)]})), w).
Proof.
  intros Hne Hc Hb t Hp Hpath Hf.
  destruct (awk_tally_invariant counts Hc) as (H1 & H2 & Ht & Hlen).
  fold t in H1, H2, Ht, Hlen.
  assert (length counts <> 0%nat) by (by destruct counts).
  assert (0 < tally_m0 t)%Z by lia.
  erewrite calculate_encode_reads by done.
  rewrite encode_metrics_defined; [reflexivity|lia|lia|..].
  - apply no_overflow; [lia|unfold in_float_range; lia].
  - apply no_overflow_le; lia.
  - intros Hm2. apply no_overflow; [done|unfold in_float_range; lia].
Qed.

(** *** Merging the results: [_sync] *)

Lemma sync_result_leaves (o : Sample) (rest pg : list Sample) :
  leaves o pg -> sync_result (o :: rest) pg = OK (o :: rest).
Proof.
  intros (p & prest & -> & [Hn|He]); unfold sync_result; cbn.
  - by rewrite bool_decide_eq_false_2.
  - unfold get_peaks_file. rewrite He. cbn. by destruct (bool_decide _).
Qed.

Lemma sync_result_overwrites (o p : Sample) (rest prest : list Sample)
    (pf : string) :
  overwrites o p pf ->
  sync_result (o :: rest) (p :: prest) = OK (set_peaks_file pf o :: rest).
Proof.
  intros (Hn & Hp & He). unfold sync_result, get_peaks_file. cbn.
  rewrite bool_decide_eq_true_2 by done. rewrite Hp. cbn.
  by rewrite bool_decide_eq_false_2.
Qed.

Lemma sync_result_step (o p : Sample) (rest prest : list Sample) (pf : string) :
  sample_name o = sample_name p -> peaks_file p = Some pf ->
  sync_result (o :: rest) (p :: prest) =
  OK ((if decide (pf = "error") then o else set_peaks_file pf o) :: rest).
Proof.
  intros Hn Hp. destruct (decide (pf = "error")) as [->|He].
  - apply sync_result_leaves. exists p, prest. auto.
  - by apply sync_result_overwrites.
Qed.

Lemma set_peaks_file_twice (pf pf' : string) (o : Sample) :
  set_peaks_file pf' (set_peaks_file pf o) = set_peaks_file pf' o.
Proof. reflexivity. Qed.

Lemma leaves_set_peaks_file (o : Sample) (pf : string) (pg : list Sample) :
  leaves o pg -> leaves (set_peaks_file pf o) pg.
Proof. intros (p & prest & -> & H). by exists p, prest. Qed.

Lemma for_each_cons {A B} (f : B -> A -> result B) (x : A) (xs : list A)
    (acc : B) :
  for_each f (x :: xs) acc =
  match f acc x with
  | OK acc' => for_each f xs acc'
  | Raise e => Raise e
  end.
Proof. reflexivity. Qed.

Lemma sync_results_leave (o : Sample) (rest : list Sample)
    (processed : list (list Sample)) :
  Forall (leaves o) processed ->
  for_each sync_result processed (o :: rest) = OK (o :: rest).
Proof.
  induction 1 as [|pg pgs H _ IH]; [reflexivity|].
  by rewrite for_each_cons, sync_result_leaves.
Qed.

Lemma sync_results_last (o p : Sample) (rest prest : list Sample)
    (pre post : list (list Sample)) (pf : string) (g : list Sample) :
  for_each sync_result (pre ++ (p :: prest) :: post) (o :: rest) = OK g ->
  overwrites o p pf ->
  Forall (leaves o) post ->
  g = set_peaks_file pf o :: rest.
Proof.
  revert o. induction pre as [|pg pre IH]; intros o Hrun Hov Hpost.
  - cbn [app] in Hrun.
    rewrite for_each_cons, (sync_result_overwrites _ _ _ _ pf) in Hrun by done.
    rewrite sync_results_leave in Hrun.
    + by injection Hrun as <-.
    + eapply Forall_impl; [exact Hpost|]. intros ?. apply leaves_set_peaks_file.
  - cbn [app] in Hrun. rewrite for_each_cons in Hrun.
    destruct (sync_result (o :: rest) pg) as [g1|e] eqn:E; [|done].
    assert (Hg1 : g1 = o :: rest \/ exists pf1, g1 = set_peaks_file pf1 o :: rest).
    { unfold sync_result in E. cbn in E.
      destruct (item0 pg) as [p1|]; [|done]. cbn in E.
      destruct (bool_decide _); [|left; congruence].
      destruct (get_peaks_file p1) as [x|]; [|done]. cbn in E.
      destruct (bool_decide _); cbn in E; [left; congruence|].
      right. exists x. congruence. }
    destruct Hg1 as [->|[pf1 ->]]; [by eapply IH|].
    rewrite <- (set_peaks_file_twice pf1 pf o).
    eapply IH; [exact Hrun| |].
    + exact Hov.
    + eapply Forall_impl; [exact Hpost|]. intros ?. apply leaves_set_peaks_file.
Qed.

Lemma sync_inv (original processed original' : list (list Sample)) :
  _sync original processed = OK original' ->
  Forall2 (fun g g' => for_each sync_result processed g = OK g')
          original original'.
Proof.
  revert original'. induction original as [|g gs IH]; intros original' H.
  - injection H as <-. constructor.
  - cbn in H. destruct (for_each sync_result processed g) as [g'|] eqn:E;
      [|done]. cbn in H.
    destruct (_sync gs processed) as [gs'|]; [|done]. cbn in H.
    injection H as <-. constructor; auto.
Qed.

Lemma sync_result_total (o : Sample) (rest pg : list Sample) :
  has_peaks_file pg ->
  exists o', sync_result (o :: rest) pg = OK (o' :: rest).
Proof.
  intros (p & prest & pf & -> & Hp).
  destruct (decide (sample_name o = sample_name p)) as [Hn|Hn].
  - rewrite (sync_result_step o p rest prest pf) by done. eauto.
  - rewrite sync_result_leaves; [eauto|]. exists p, prest. auto.
Qed.

Lemma sync_results_total (processed : list (list Sample)) :
  Forall has_peaks_file processed ->
  forall (o : Sample) (rest : list Sample),
  exists o', for_each sync_result processed (o :: rest) = OK (o' :: rest).
Proof.
  induction 1 as [|pg pgs H _ IH]; intros o rest; [by exists o|].
  destruct (sync_result_total o rest pg H) as [o1 H1].
  destruct (IH o1 rest) as [o' H']. exists o'.
  by rewrite for_each_cons, H1.
Qed.

Lemma sync_total (original processed : list (list Sample)) :
  Forall (fun g => g <> []) original ->
  Forall has_peaks_file processed ->
  exists original', _sync original processed = OK original'.
Proof.
  intros Ho Hp. induction Ho as [|g gs Hg _ [gs' IH]]; [by eexists|].
  destruct g as [|o rest]; [done|].
  destruct (sync_results_total processed Hp o rest) as [o' H'].
  exists ((o' :: rest) :: gs'). cbn [_sync]. rewrite H'. cbn. by rewrite IH.
Qed.

(** C3. [_sync] merges the results into the originals by sample name.  A
    result with the name of an original overwrites the original's
    [peaks_file] exactly when its own [peaks_file] is not "error".  Over the
    whole run: an original for which every result has another name or
    carries "error" is returned as it was, with its prior [peaks_file]; an
    original is returned with the [peaks_file] of the last result of its
    name that does not carry "error".  The merge returns whenever no group
    is empty and every result has a [peaks_file]. *)
Theorem sync_spares_error (original processed : list (list Sample)) :
  (forall (o p : Sample) (rest prest : list Sample) (pf : string),
     sample_name o = sample_name p -> peaks_file p = Some pf ->
     sync_result (o :: rest) (p :: prest) =
     OK ((if decide (pf = "error") then o else set_peaks_file pf o) :: rest)) /\
  (forall original',
     _sync original processed = OK original' ->
     Forall2 (fun g g' =>
                forall (o : Sample) (rest : list Sample), g = o :: rest ->
                  (Forall (leaves o) processed -> g' = g) /\
                  (forall pre p prest post pf,
                     processed = pre ++ (p :: prest) :: post ->
                     overwrites o p pf ->
                     Forall (leaves o) post ->
                     g' = set_peaks_file pf o :: rest))
             original original') /\
  (Forall (fun g => g <> []) original ->
   Forall has_peaks_file processed ->
   exists original', _sync original processed = OK original').
Proof.
  split; [|split].
  - intros. by apply sync_result_step.
  - intros original' H. apply sync_inv in H.
    eapply Forall2_impl; [exact H|]. cbn. intros g g' Hg o rest ->. split.
    + intros Hl. rewrite sync_results_leave in Hg by done. congruence.
    + intros pre p prest post pf -> Hov Hpost.
      by eapply sync_results_last.
  - apply sync_total.
Qed.

(** *** Pairing a sample with its control: [_get_paired_samples] *)

Lemma paired_passed_over (s : Sample) (g : list Sample)
    (data : list (list Sample)) :
  passed_over s g ->
  _get_paired_samples s (g :: data) = _get_paired_samples s data.
Proof.
  intros (o & rest & b & -> & Hb & H). cbn. rewrite Hb. cbn.
  destruct H as [->|H]; [done|].
  by rewrite bool_decide_eq_false_2, andb_false_r.
Qed.

Lemma paired_control (s o : Sample) (rest : list Sample)
    (data : list (list Sample)) :
  is_control_for s o ->
  _get_paired_samples s ((o :: rest) :: data) =
  OK (Some [set_work_bam_input (work_bam o) s]).
Proof.
  intros [Hb Hp]. cbn. rewrite Hb. cbn. by rewrite bool_decide_eq_true_2.
Qed.

Lemma paired_first (s o : Sample) (data : list (list Sample)) :
  first_control s data o ->
  _get_paired_samples s data = OK (Some [set_work_bam_input (work_bam o) s]).
Proof.
  intros (pre & rest & post & -> & Hpre & Hc).
  induction Hpre as [|g pre Hg _ IH]; cbn [app].
  - by apply paired_control.
  - by rewrite paired_passed_over.
Qed.

Lemma paired_none (s : Sample) (data : list (list Sample)) :
  Forall (passed_over s) data -> _get_paired_samples s data = OK None.
Proof.
  induction 1 as [|g data Hg _ IH]; [reflexivity|].
  by rewrite paired_passed_over.
Qed.

Lemma paired_inv (s : Sample) (data : list (list Sample))
    (r : option (list Sample)) :
  _get_paired_samples s data = OK r ->
  match r with
  | Some g => exists o, first_control s data o /\
                        g = [set_work_bam_input (work_bam o) s]
  | None => Forall (passed_over s) data
  end.
Proof.
  revert r. induction data as [|g data IH]; intros r H.
  - injection H as <-. constructor.
  - cbn in H. destruct g as [|o rest]; [done|]. cbn in H.
    destruct (batch_in (batch s) (batch o)) as [b|] eqn:Hb; [|done].
    cbn in H.
    destruct (b && bool_decide (phenotype o = "input")) eqn:Hhit.
    + injection H as <-. apply andb_true_iff in Hhit as [-> Hp].
      apply bool_decide_eq_true in Hp.
      exists o. split; [|done]. exists [], rest, data. by repeat split.
    + assert (Hpass : passed_over s (o :: rest)).
      { exists o, rest, b. repeat split; [done|].
        apply andb_false_iff in Hhit as [?|Hp]; [by left|right].
        by apply bool_decide_eq_false in Hp. }
      apply IH in H. destruct r as [g|].
      * destruct H as (o' & (pre & rest' & post & -> & Hpre & Hc) & ->).
        exists o'. split; [|done].
        exists ((o :: rest) :: pre), rest', post.
        split; [done|]. split; [by constructor|done].
      * by constructor.
Qed.


(** *** Preparing the tasks *)

Lemma fold_M_app {A B} (body : B -> A -> M B) (xs ys : list A) (acc : B)
    (w : world) :
  fold_M body (xs ++ ys) acc w =
  (acc' ← fold_M body xs acc; fold_M body ys acc') w.
Proof.
  revert acc w. induction xs as [|x xs IH]; intros acc w; [reflexivity|].
  cbn [app fold_M]. unfold mbind, M_bind in *.
  destruct (body acc x w) as [[a|e] w1]; [|reflexivity].
  by rewrite IH.
Qed.

Lemma registry_lookup (caller : string) :
  is_Some (get_callers !! caller) <-> caller = "macs2".
Proof.
  unfold get_callers. split.
  - intros [f Hf]. by apply lookup_singleton_Some in Hf as [-> _].
  - intros ->. rewrite lookup_singleton_eq. eauto.
Qed.

Lemma prepare_caller_other (data : list (list Sample))
    (st : mimic_val * list (list Sample)) (caller : string) (w : world) :
  ~ is_Some (get_callers !! caller) ->
  prepare_caller data st caller w = (OK st, w).
Proof.
  intros H. unfold prepare_caller. destruct st as [m tp].
  by rewrite (bool_decide_eq_false_2 _ H).
Qed.

Lemma prepare_caller_idle (data : list (list Sample)) (m : mimic_val)
    (tp : list (list Sample)) (caller : string) (w : world) :
  get_phenotype m <> "chip" ->
  prepare_caller data (m, tp) caller w = (OK (m, tp), w).
Proof.
  intros H. unfold prepare_caller.
  by rewrite (bool_decide_eq_false_2 _ H), andb_false_r.
Qed.

Lemma prepare_caller_chip (data : list (list Sample)) (s : Sample)
    (tp : list (list Sample)) (caller : string) (w : world) :
  is_Some (get_callers !! caller) -> phenotype s = "chip" ->
  prepare_caller data (MRecord s, tp) caller w =
  match _get_paired_samples (set_peak_fn caller s) data with
  | OK (Some (t :: g)) => (OK (MGroup (t :: g), tp ++ [t :: g]), w)
  | OK (Some []) =>
      (OK (MGroup [], tp), logged ("No input sample for " +:+ sample_name s) w)
  | OK None =>
      (OK (MNone, tp), logged ("No input sample for " +:+ sample_name s) w)
  | Raise e => (Raise e, w)
  end.
Proof.
  intros Hc Hp. unfold prepare_caller.
  rewrite (bool_decide_eq_true_2 _ Hc). cbn [get_phenotype].
  rewrite (bool_decide_eq_true_2 _ Hp). cbn [andb].
  unfold mbind, M_bind, lift.
  destruct (_get_paired_samples (set_peak_fn caller s) data)
    as [[[|t g]|]|e]; reflexivity.
Qed.

Lemma callers_idle (data : list (list Sample)) (m : mimic_val)
    (callers : list string) :
  get_phenotype m <> "chip" ->
  forall (tp : list (list Sample)) (w : world),
    fold_M (prepare_caller data) callers (m, tp) w = (OK (m, tp), w).
Proof.
  intros H. induction callers as [|c cs IH]; intros tp w; [reflexivity|].
  cbn [fold_M]. erewrite bind_OK; [|by apply prepare_caller_idle]. apply IH.
Qed.

Lemma callers_none (data : list (list Sample)) (m : mimic_val)
    (callers : list string) :
  Forall (fun c => ~ is_Some (get_callers !! c)) callers ->
  forall (tp : list (list Sample)) (w : world),
    fold_M (prepare_caller data) callers (m, tp) w = (OK (m, tp), w).
Proof.
  induction 1 as [|c cs Hc _ IH]; intros tp w; [reflexivity|].
  cbn [fold_M]. erewrite bind_OK; [|by apply prepare_caller_other]. apply IH.
Qed.

Lemma callers_miss (data : list (list Sample)) (s : Sample)
    (callers : list string) :
  phenotype s = "chip" ->
  default_phenotype <> "chip" ->
  Forall (passed_over s) data ->
  Exists (fun c => is_Some (get_callers !! c)) callers ->
  forall (tp : list (list Sample)) (w : world),
    fold_M (prepare_caller data) callers (MRecord s, tp) w =
    (OK (MNone, tp), logged ("No input sample for " +:+ sample_name s) w).
Proof.
  intros Hp Hd Hnone Hex tp w.
  induction callers as [|c cs IH]; [by apply Exists_nil in Hex|].
  cbn [fold_M].
  destruct (decide (is_Some (get_callers !! c))) as [Hc|Hc].
  - erewrite bind_OK.
    2:{ rewrite prepare_caller_chip by done.
        by rewrite (paired_none (set_peak_fn c s) data Hnone). }
    by apply callers_idle.
  - erewrite bind_OK; [|by apply prepare_caller_other].
    apply IH. by apply Exists_cons in Hex as [?|?].
Qed.

Lemma callers_tasks (data : list (list Sample)) (callers : list string) :
  forall (m m' : mimic_val) (tp tp' : list (list Sample)) (w w' : world),
    fold_M (prepare_caller data) callers (m, tp) w = (OK (m', tp'), w') ->
    tp' = tp \/
    exists s caller o,
      m = MRecord s /\ phenotype s = "chip" /\
      caller ∈ callers /\ is_Some (get_callers !! caller) /\
      first_control s data o /\
      tp' = tp ++ [[set_work_bam_input (work_bam o) (set_peak_fn caller s)]].
Proof.
  induction callers as [|c cs IH]; intros m m' tp tp' w w' H.
  - left. by injection H as _ <- _.
  - cbn [fold_M] in H. apply bind_inv_OK in H as ([m1 tp1] & w1 & Hc & H).
    assert (Hstep :
      (m1 = m /\ tp1 = tp) \/
      (tp1 = tp /\ forall s, m1 <> MRecord s) \/
      exists s o, m = MRecord s /\ phenotype s = "chip" /\
        is_Some (get_callers !! c) /\ first_control s data o /\
        (forall s', m1 <> MRecord s') /\
        tp1 = tp ++ [[set_work_bam_input (work_bam o) (set_peak_fn c s)]]).
    { unfold prepare_caller in Hc.
      destruct (bool_decide (is_Some (get_callers !! c))) eqn:Hreg;
        [|left; by injection Hc as <- <- _].
      destruct (bool_decide (get_phenotype m = "chip")) eqn:Hph;
        [|left; by injection Hc as <- <- _].
      cbn [andb] in Hc. destruct m as [s| |]; [|done..].
      apply bool_decide_eq_true in Hreg, Hph. cbn in Hph.
      unfold mbind, M_bind, lift in Hc.
      destruct (_get_paired_samples (set_peak_fn c s) data) as [r|] eqn:Hr;
        [|done].
      apply paired_inv in Hr. destruct r as [[|t g]|].
      - destruct Hr as (? & _ & ?). done.
      - destruct Hr as (o & Hfc & Hg). injection Hc as <- <- _.
        right. right. exists s, o. rewrite Hg. by repeat split.
      - injection Hc as <- <- _. right. left. done. }
    destruct Hstep as [[-> ->]|[[-> Hm1]|Hhit]].
    + apply IH in H as [->|(s & c' & o & -> & ? & ? & ? & ? & ->)];
        [by left|right].
      exists s, c', o. repeat split; try done. by apply list_elem_of_further.
    + apply IH in H as [->|(s & ? & ? & -> & _)]; [by left|].
      by destruct (Hm1 s).
    + destruct Hhit as (s & o & -> & Hp & Hreg & Hfc & Hm1 & ->).
      apply IH in H as [->|(s' & ? & ? & -> & _)]; [|by destruct (Hm1 s')].
      right. exists s, c, o. repeat split; try done. apply list_elem_of_here.
Qed.

Lemma prepare_sample_no_caller (data tp : list (list Sample)) (s : Sample)
    (rest : list Sample) (w : world) :
  Forall (fun c => ~ is_Some (get_callers !! c)) (callers_of (peakcaller s)) ->
  prepare_sample data tp (s :: rest) w = (OK tp, w).
Proof.
  intros H. unfold prepare_sample. cbn [item0].
  erewrite bind_OK; [|reflexivity].
  erewrite bind_OK; [|by apply callers_none]. reflexivity.
Qed.

Lemma prepare_sample_miss (data tp : list (list Sample)) (s : Sample)
    (rest : list Sample) (w : world) :
  phenotype s = "chip" ->
  default_phenotype <> "chip" ->
  Forall (passed_over s) data ->
  Exists (fun c => is_Some (get_callers !! c)) (callers_of (peakcaller s)) ->
  prepare_sample data tp (s :: rest) w =
  (OK tp, logged ("No input sample for " +:+ sample_name s) w).
Proof.
  intros Hp Hd Hnone Hex. unfold prepare_sample. cbn [item0].
  erewrite bind_OK; [|reflexivity].
  erewrite bind_OK; [|by apply callers_miss]. reflexivity.
Qed.

Lemma prepare_sample_tasks (data tp tp' : list (list Sample))
    (g : list Sample) (w w' : world) :
  prepare_sample data tp g w = (OK tp', w') ->
  tp' = tp \/ exists tg, prepared_from data [g] tg /\ tp' = tp ++ [tg].
Proof.
  unfold prepare_sample. intros H.
  apply bind_inv_OK in H as (s & w1 & Hs & H).
  destruct g as [|s0 rest]; [done|]. injection Hs as <- <-.
  apply bind_inv_OK in H as ([m' tp1] & w2 & Hfold & H).
  injection H as <- _. cbn [snd].
  apply callers_tasks in Hfold
    as [->|(s' & c & o & Hs' & Hp & Hc & Hreg & Hfc & ->)]; [by left|].
  injection Hs' as <-. right. eexists. split; [|reflexivity].
  exists s0, rest, c, o. repeat split; try done. apply list_elem_of_here.
Qed.

Lemma prepared_from_mono (data groups groups' : list (list Sample))
    (tg : list Sample) :
  groups ⊆ groups' -> prepared_from data groups tg ->
  prepared_from data groups' tg.
Proof.
  intros Hsub (s & rest & c & o & Hin & H). exists s, rest, c, o.
  split; [by apply Hsub|exact H].
Qed.

Lemma prepare_all_tasks (data groups : list (list Sample)) :
  forall (tp tp' : list (list Sample)) (w w' : world),
    fold_M (prepare_sample data) groups tp w = (OK tp', w') ->
    exists new, tp' = tp ++ new /\ Forall (prepared_from data groups) new.
Proof.
  induction groups as [|g gs IH]; intros tp tp' w w' H.
  - injection H as <- _. exists []. by rewrite app_nil_r.
  - cbn [fold_M] in H. apply bind_inv_OK in H as (tp1 & w1 & Hg & H).
    apply IH in H as (new & -> & Hnew).
    assert (Hnew' : Forall (prepared_from data (g :: gs)) new).
    { eapply Forall_impl; [exact Hnew|]. intros tg.
      apply prepared_from_mono. intros x. apply list_elem_of_further. }
    apply prepare_sample_tasks in Hg as [->|(tg & Htg & ->)].
    + by exists new.
    + exists (tg :: new). split; [by rewrite <- app_assoc|].
      constructor; [|done]. eapply prepared_from_mono; [|exact Htg].
      intros x Hx. apply list_elem_of_singleton in Hx as ->.
      apply list_elem_of_here.
Qed.

Lemma default_callers_unknown :
  Forall (fun c => ~ is_Some (get_callers !! c)) (callers_of None).
Proof.
  repeat constructor; intros H; apply registry_lookup in H; discriminate.
Qed.

Lemma prepare_all_none (data groups : list (list Sample)) :
  Forall (fun g => exists s rest, g = s :: rest /\ peakcaller s = None) groups ->
  forall (tp : list (list Sample)) (w : world),
    fold_M (prepare_sample data) groups tp w = (OK tp, w).
Proof.
  induction 1 as [|g gs (s & rest & -> & Hs) _ IH]; intros tp w;
    [reflexivity|].
  cbn [fold_M]. erewrite bind_OK; [apply IH|].
  apply prepare_sample_no_caller. rewrite Hs. apply default_callers_unknown.
Qed.

(** C9 (amended). A sample group whose configuration has no "peakcaller"
    entry is prepared with the characters of the default "macs2" as caller
    names; none of them is a key of the registry, so its turn of the loop
    adds no task, logs nothing and does not fail, whatever its phenotype.
    When no group of the collection has a "peakcaller" entry, the runner is
    not called and the collection is returned as it was. *)
Theorem default_peakcaller_prepares_nothing (data : list (list Sample))
    (run_parallel : string -> list (list Sample) -> M (list (list Sample)))
    (w : world) :
  callers_of None = ["m"; "a"; "c"; "s"; "2"] /\
  Forall (fun c => get_callers !! c = None) (callers_of None) /\
  (forall (tp : list (list Sample)) (s : Sample) (rest : list Sample)
          (w0 : world),
     peakcaller s = None ->
     prepare_sample data tp (s :: rest) w0 = (OK tp, w0)) /\
  (Forall (fun g => exists s rest, g = s :: rest /\ peakcaller s = None) data ->
   peakcall_preparation data run_parallel w = (OK data, w)).
Proof.
  split; [reflexivity|]. split; [|split].
  - eapply Forall_impl; [apply default_callers_unknown|]. cbn.
    intros c Hc. destruct (get_callers !! c) eqn:E; [|done].
    destruct Hc. eauto.
  - intros tp s rest w0 Hs. apply prepare_sample_no_caller.
    rewrite Hs. apply default_callers_unknown.
  - intros Hall. unfold peakcall_preparation.
    erewrite bind_OK; [|by apply prepare_all_none]. reflexivity.
Qed.

Lemma sync_result_merged (g pg g' : list Sample) :
  sync_result g pg = OK g' -> merged_group g g'.
Proof.
  unfold sync_result. intros H.
  destruct g as [|o rest]; [done|]. cbn in H.
  destruct (item0 pg) as [p|]; [|done]. cbn in H.
  destruct (bool_decide _); [|left; congruence].
  destruct (get_peaks_file p) as [pf|]; [|done]. cbn in H.
  destruct (bool_decide _); cbn in H; [left; congruence|].
  right. exists o, rest, pf. split; congruence.
Qed.

Lemma merged_group_trans (g1 g2 g3 : list Sample) :
  merged_group g1 g2 -> merged_group g2 g3 -> merged_group g1 g3.
Proof.
  intros [->|(o & rest & pf & -> & ->)]; [done|].
  intros [->|(o' & rest' & pf' & Ho & ->)].
  - right. by exists o, rest, pf.
  - injection Ho as <- <-. right. by exists o, rest, pf'.
Qed.

Lemma sync_results_merged (processed : list (list Sample)) :
  forall g g', for_each sync_result processed g = OK g' -> merged_group g g'.
Proof.
  induction processed as [|pg pgs IH]; intros g g' H.
  - injection H as <-. by left.
  - rewrite for_each_cons in H.
    destruct (sync_result g pg) as [g1|] eqn:E; [|done].
    eapply merged_group_trans; [by eapply sync_result_merged|by apply IH].
Qed.

Lemma sync_merged (original processed original' : list (list Sample)) :
  _sync original processed = OK original' ->
  Forall2 merged_group original original'.
Proof.
  intros H. apply sync_inv in H.
  eapply Forall2_impl; [exact H|]. cbn. intros g g' Hg.
  by apply (sync_results_merged processed).
Qed.

Lemma peakcall_preparation_merged (data data' : list (list Sample))
    (run_parallel : string -> list (list Sample) -> M (list (list Sample)))
    (w w' : world) :
  peakcall_preparation data run_parallel w = (OK data', w') ->
  Forall2 merged_group data data'.
Proof.
  unfold peakcall_preparation. intros H.
  apply bind_inv_OK in H as (tp & w1 & _ & H).
  unfold dispatch in H. destruct tp as [|t tp].
  - injection H as <- _. apply Forall2_same_length_lookup_2; [done|].
    intros i g g' Hg Hg'. left. congruence.
  - apply bind_inv_OK in H as (? & w2 & _ & H).
    apply bind_inv_OK in H as (after & w3 & _ & H).
    unfold lift in H. injection H as H _. by apply (sync_merged _ after).
Qed.

Lemma prefix_append (p s : string) :
  String.prefix p s = true <-> exists t, s = p +:+ t.
Proof.
  revert s. induction p as [|x p IH]; intros s.
  - split; [intros _; by exists s|intros _; by destruct s].
  - destruct s as [|y s].
    + split; [done|]. intros [t Ht]. discriminate.
    + cbn [String.prefix]. destruct (ascii_dec x y) as [->|Hne].
      * rewrite IH. split; intros [t Ht]; exists t.
        -- by rewrite Ht.
        -- by injection Ht.
      * split; [done|]. intros [t Ht]. injection Ht as Hxy _. congruence.
Qed.

Lemma str_in_occurs (a b : string) :
  str_in a b = true <-> exists pre post, b = pre +:+ a +:+ post.
Proof.
  induction b as [|c b IH].
  - cbn [str_in]. rewrite orb_false_r, prefix_append. split.
    + intros [t Ht]. by exists EmptyString, t.
    + intros ([|x pre] & post & H); [by exists post|discriminate].
  - cbn [str_in]. rewrite orb_true_iff, prefix_append, IH. split.
    + intros [[t Ht]|(pre & post & Hb)].
      * by exists EmptyString, t.
      * exists (String c pre), post. by rewrite Hb.
    + intros ([|x pre] & post & H).
      * left. by exists post.
      * right. exists pre, post. by injection H.
Qed.

Lemma registry_only_macs2 (callers : list string) :
  "macs2" ∉ callers ->
  Forall (fun c => ~ is_Some (get_callers !! c)) callers.
Proof.
  intros H. apply Forall_forall. intros c Hc Hreg.
  apply registry_lookup in Hreg. by subst c.
Qed.

Lemma prepare_all_nonempty (data groups : list (list Sample)) :
  forall (tp tp' : list (list Sample)) (w w' : world),
    fold_M (prepare_sample data) groups tp w = (OK tp', w') ->
    Forall (fun g => g <> []) groups.
Proof.
  induction groups as [|g groups IH]; intros tp tp' w w' H; [constructor|].
  cbn [fold_M] in H. apply bind_inv_OK in H as (tp1 & w1 & Hs & H).
  constructor; [|by eapply IH]. by intros ->.
Qed.



Lemma dispatch_merges (data : list (list Sample))
    (run_parallel : string -> list (list Sample) -> M (list (list Sample)))
    (tp results : list (list Sample)) (w1 w2 : world) :
  tp <> [] ->
  Forall (fun g => g <> []) data ->
  run_parallel "peakcalling" tp
    (mkWorld (fs w1) (trace w1 ++ [EvParallel "peakcalling" tp])) =
  (OK results, w2) ->
  Forall has_peaks_file results ->
  exists data',
    _sync data results = OK data' /\
    dispatch data run_parallel tp w1 = (OK data', w2) /\
    Forall2 merged_group data data'.
Proof.
  intros Htp Hne Hrun Hres.
  destruct (sync_total data results Hne Hres) as [data' Hs].
  exists data'. split; [exact Hs|]. split; [|by eapply sync_merged].
  unfold dispatch. destruct tp as [|tg tp]; [done|].
  unfold emit. unfold mbind at 1, M_bind at 1.
  erewrite bind_OK; [|exact Hrun]. unfold lift. by rewrite Hs.
Qed.

(** C8 (amended). Take a sample of phenotype "chip", one of whose
    configured callers is in the registry, and for which the scan of the
    collection finds no control (every group is passed over).  Its turn of
    the loop of [peakcall_preparation] adds no task, logs "No input sample
    for" followed by its name, and does not fail; the task list is the one
    prepared from the groups before and after it.  When the loop returns,
    its tasks are those of the other groups; without tasks the collection
    is returned as it is, and otherwise the runner is called with exactly
    these tasks: when it answers with result groups that hold a
    [peaks_file], [peakcall_preparation] returns the merge of these results
    into the original collection, which is the original collection changed
    at most by the merge. *)
Theorem missing_control_skipped (data pre post : list (list Sample))
    (s : Sample) (rest : list Sample)
    (run_parallel : string -> list (list Sample) -> M (list (list Sample)))
    (w : world) :
  data = pre ++ (s :: rest) :: post ->
  phenotype s = "chip" ->
  Exists (fun c => is_Some (get_callers !! c)) (callers_of (peakcaller s)) ->
  default_phenotype <> "chip" ->
  Forall (passed_over s) data ->
  let msg := "No input sample for " +:+ sample_name s in
  (forall tp w0,
     prepare_sample data tp (s :: rest) w0 = (OK tp, logged msg w0)) /\
  (forall tp0 w0,
     fold_M (prepare_sample data) data tp0 w0 =
     (tp1 ← fold_M (prepare_sample data) pre tp0;
      _ ← logger_info msg;
      fold_M (prepare_sample data) post tp1) w0) /\
  (forall data' w',
     peakcall_preparation data run_parallel w = (OK data', w') ->
     Forall2 merged_group data data') /\
  (forall tp w1,
     fold_M (prepare_sample data) data [] w = (OK tp, w1) ->
     Forall (prepared_from data (pre ++ post)) tp /\
     (tp = [] -> peakcall_preparation data run_parallel w = (OK data, w1)) /\
     (tp <> [] ->
      forall results w2,
        run_parallel "peakcalling" tp
          (mkWorld (fs w1) (trace w1 ++ [EvParallel "peakcalling" tp])) =
        (OK results, w2) ->
        Forall has_peaks_file results ->
        exists data',
          _sync data results = OK data' /\
          peakcall_preparation data run_parallel w = (OK data', w2) /\
          Forall2 merged_group data data')).
Proof.
  intros Hdata Hp Hex Hd Hnone msg.
  assert (Hturn : forall tp w0,
            prepare_sample data tp (s :: rest) w0 = (OK tp, logged msg w0)).
  { intros tp w0. by apply prepare_sample_miss. }
  assert (Hloop : forall tp0 w0,
            fold_M (prepare_sample data) data tp0 w0 =
            (tp1 ← fold_M (prepare_sample data) pre tp0;
             _ ← logger_info msg;
             fold_M (prepare_sample data) post tp1) w0).
  { intros tp0 w0. rewrite Hdata at 2. rewrite fold_M_app.
    unfold mbind, M_bind.
    destruct (fold_M (prepare_sample data) pre tp0 w0) as [[tp1|e] w1];
      [|reflexivity].
    cbn [fold_M]. unfold mbind, M_bind. by rewrite Hturn. }
  split; [exact Hturn|]. split; [exact Hloop|]. split.
  - intros data' w'. apply peakcall_preparation_merged.
  - intros tp w1 Hfold. split; [|split].
    + pose proof Hfold as H. rewrite Hloop in H.
      apply bind_inv_OK in H as (tp1 & wa & Hpre & H).
      apply bind_inv_OK in H as ([] & wb & _ & Hpost).
      apply prepare_all_tasks in Hpre as (new1 & -> & Hnew1).
      apply prepare_all_tasks in Hpost as (new2 & -> & Hnew2).
      cbn [app]. apply Forall_app. split.
      * eapply Forall_impl; [exact Hnew1|]. intros tg.
        apply prepared_from_mono. intros g Hg. apply elem_of_app. by left.
      * eapply Forall_impl; [exact Hnew2|]. intros tg.
        apply prepared_from_mono. intros g Hg. apply elem_of_app. by right.
    + intros ->. unfold peakcall_preparation.
      erewrite bind_OK; [|exact Hfold]. reflexivity.
    + intros Htp results w2 Hrun Hres.
      pose proof (prepare_all_nonempty _ _ _ _ _ _ Hfold) as Hne.
      destruct (dispatch_merges data run_parallel tp results w1 w2
                  Htp Hne Hrun Hres) as (data' & Hs & Hdisp & Hm).
      exists data'. split; [exact Hs|]. split; [|exact Hm].
      unfold peakcall_preparation. erewrite bind_OK; [|exact Hfold].
      exact Hdisp.
Qed.


(** ** Further properties of the two modules *)

(** *** The catalog of ranges *)

Lemma catalog_inv (r : ATACRange) :
  r ∈ ATACRanges_values ->
  r = mkATACRange "NF" 0 100 \/ r = mkATACRange "MN" 180 247 \/
  r = mkATACRange "DN" 315 473 \/ r = mkATACRange "TN" 558 615.
Proof.
  unfold ATACRanges_values, ATACRanges. cbn [fmap list_fmap snd].
  rewrite !elem_of_cons, elem_of_nil.
  intros [H|[H|[H|[H|[]]]]]; auto.
Qed.

(** X1. The ranges of the catalog do not overlap: a template length passes
    the filter of at most one range, so a fragment is written to at most
    one of the four files; the lengths that pass a filter lie strictly
    between 0 and 615. *)
Lemma ranges_disjoint (r1 r2 : ATACRange) (L : Z) :
  r1 ∈ ATACRanges_values -> r2 ∈ ATACRanges_values ->
  Sambamba.accepts (range_filter r1) L = true ->
  Sambamba.accepts (range_filter r2) L = true ->
  r1 = r2 /\ (0 < L < 615)%Z.
Proof.
  intros H1 H2 A1 A2.
  apply range_filter_accepts in A1, A2.
  apply catalog_inv in H1, H2.
  destruct H1 as [-> | [-> | [-> | ->]]], H2 as [-> | [-> | [-> | ->]]];
    cbn in A1, A2; first [split; [reflexivity|lia] | lia].
Qed.

(** X2. Between the ranges there are gaps: a template length from 100 to
    180, from 247 to 315, from 473 to 558, at most 0 or at least 615 passes
    the filter of no range, so such a fragment is in none of the four
    files. *)
Lemma ranges_leave_gaps (r : ATACRange) (L : Z) :
  r ∈ ATACRanges_values ->
  (L <= 0 \/ 100 <= L <= 180 \/ 247 <= L <= 315 \/ 473 <= L <= 558 \/
   615 <= L)%Z ->
  Sambamba.accepts (range_filter r) L = false.
Proof.
  intros Hr HL. apply not_true_is_false. intros A.
  apply range_filter_accepts in A. apply catalog_inv in Hr.
  destruct Hr as [-> | [-> | [-> | ->]]]; cbn in A; lia.
Qed.
(** *** [os.path.splitext] and the names of the range files *)

Lemma length_append (a b : string) :
  String.length (a +:+ b) = (String.length a + String.length b)%nat.
Proof.
  induction a as [|x a IH]; [reflexivity|].
  change (S (String.length (a +:+ b)) = S (String.length a + String.length b)).
  by rewrite IH.
Qed.

Lemma substring_full (s : string) : substring 0 (String.length s) s = s.
Proof. induction s as [|x s IH]; [reflexivity|]. cbn. by rewrite IH. Qed.

Lemma substring_split (s : string) :
  forall n : nat, (n <= String.length s)%nat ->
    substring 0 n s +:+ substring n (String.length s - n) s = s.
Proof.
  induction s as [|x s IH]; intros n Hn.
  - cbn in Hn. by replace n with 0%nat by lia.
  - destruct n as [|n].
    + change (substring 0 (S (String.length s)) (String x s) = String x s).
      cbn. by rewrite substring_full.
    + cbn in Hn.
      change (String x (substring 0 n s +:+
                        substring n (String.length s - n) s) = String x s).
      rewrite IH by lia. reflexivity.
Qed.

Lemma rfind_succ_le (c : ascii) (s : string) :
  (rfind_succ c s <= String.length s)%nat.
Proof.
  induction s as [|x s IH]; [done|]. cbn.
  destruct (rfind_succ c s); [destruct (Ascii.eqb x c)|]; lia.
Qed.

Lemma rfind_succ_suffix (c : ascii) (s : string) :
  forall k : nat, rfind_succ c s = S k ->
    exists t, substring k (String.length s - k) s = String c t.
Proof.
  induction s as [|x s IH]; intros k Hk; [done|].
  cbn in Hk. destruct (rfind_succ c s) as [|j] eqn:E.
  - destruct (Ascii.eqb x c) eqn:Ex; [|done].
    apply Ascii.eqb_eq in Ex as ->. injection Hk as <-.
    eexists. reflexivity.
  - injection Hk as <-. destruct (IH j eq_refl) as [t Ht].
    exists t. exact Ht.
Qed.

Lemma splitext_join (p : string) : (splitext p).1 +:+ (splitext p).2 = p.
Proof.
  unfold splitext. destruct (_ && _).
  - cbn [fst snd]. apply substring_split.
    pose proof (rfind_succ_le "." p). lia.
  - cbn [fst snd]. clear. induction p as [|x p IH]; [done|].
    exact (f_equal (String x) IH).
Qed.

Lemma splitext_ext (p : string) :
  (splitext p).2 = EmptyString \/ exists t, (splitext p).2 = String "." t.
Proof.
  unfold splitext. destruct (_ && _) eqn:E; [|by left]. right.
  cbn [snd]. apply andb_true_iff in E as [E _]. apply Nat.ltb_lt in E.
  destruct (rfind_succ "." p) as [|k] eqn:Hk; [lia|].
  replace (S k - 1)%nat with k by lia. by apply rfind_succ_suffix.
Qed.

Lemma rfind_succ_app (c : ascii) (a b : string) :
  rfind_succ c (a +:+ b) =
  match rfind_succ c b with
  | O => rfind_succ c a
  | S k => (String.length a + S k)%nat
  end.
Proof.
  induction a as [|x a IH].
  { change (EmptyString +:+ b) with b. by destruct (rfind_succ c b). }
  change (rfind_succ c (String x (a +:+ b)) =
          match rfind_succ c b with
          | O => rfind_succ c (String x a)
          | S k => (S (String.length a) + S k)%nat
          end).
  cbn [rfind_succ]. rewrite IH. destruct (rfind_succ c b); [done|].
  replace (String.length a + S n)%nat with (S (String.length a + n)) by lia.
  f_equal. lia.
Qed.

Lemma substring_app_l (a b : string) :
  forall k m : nat, (k + m <= String.length a)%nat ->
    substring k m (a +:+ b) = substring k m a.
Proof.
  induction a as [|x a IH]; intros k m H.
  - cbn in H. assert (k = 0%nat) as -> by lia. assert (m = 0%nat) as -> by lia.
    by destruct b.
  - cbn in H. destruct k as [|k].
    + destruct m as [|m]; [reflexivity|].
      change (String x (substring 0 m (a +:+ b)) = String x (substring 0 m a)).
      by rewrite IH by lia.
    + change (substring k m (a +:+ b) = substring k m a). apply IH. lia.
Qed.

Lemma base_name_has_non_dot (s : string) (c : ascii) :
  last_char s = Some c -> c <> "/"%char -> c <> "."%char ->
  has_non_dot s (rfind_succ "/" s) (String.length s) = true.
Proof.
  unfold has_non_dot. intros Hl Hs Hd.
  induction s as [|x s IH]; [done|].
  cbn [last_char] in Hl. cbn [rfind_succ String.length].
  destruct (last_char s) as [l|] eqn:El.
  - injection Hl as ->. specialize (IH eq_refl).
    destruct (rfind_succ "/" s) as [|j] eqn:Ej.
    + rewrite Nat.sub_0_r in IH.
      destruct (Ascii.eqb x "/"); cbn; rewrite ?Nat.sub_0_r.
      * exact IH.
      * rewrite IH. apply orb_true_r.
    + exact IH.
  - injection Hl as ->.
    destruct s as [|y s]; [|cbn in El; by destruct (last_char s)].
    apply Ascii.eqb_neq in Hs, Hd. cbn [rfind_succ String.length].
    rewrite Hs. cbn. by rewrite Hd.
Qed.

Lemma splitext_bam (stem : string) (c : ascii) :
  last_char stem = Some c -> c <> "/"%char -> c <> "."%char ->
  splitext (stem +:+ ".bam") = (stem, ".bam").
Proof.
  intros Hl Hs Hd. unfold splitext.
  rewrite !rfind_succ_app.
  change (rfind_succ "." ".bam") with 1%nat.
  change (rfind_succ "/" ".bam") with 0%nat.
  cbv beta iota.
  replace (String.length stem + 1 - 1)%nat with (String.length stem) by lia.
  pose proof (rfind_succ_le "/" stem) as Hle.
  assert (Hlt : (rfind_succ "/" stem <? String.length stem + 1)%nat = true)
    by (apply Nat.ltb_lt; lia).
  rewrite Hlt. cbn [andb].
  assert (Hnd : has_non_dot (stem +:+ ".bam") (rfind_succ "/" stem)
                  (String.length stem) = true).
  { unfold has_non_dot. rewrite substring_app_l by lia.
    by apply (base_name_has_non_dot stem c). }
  rewrite Hnd. f_equal.
  - rewrite substring_app_l by lia. apply substring_full.
  - rewrite length_append.
    replace (String.length stem + String.length ".bam" - String.length stem)%nat
      with (String.length ".bam") by lia.
    clear. induction stem as [|x stem IH]; [reflexivity|exact IH].
Qed.
(** *** More on [split_ATAC] *)

Lemma split_ATAC_returns (data d' : Sample) (bam_arg : option string)
    (bam : string) (w w' : world) :
  (if truthy bam_arg then bam_arg else work_bam data) = Some bam ->
  split_ATAC data bam_arg w = (OK d', w') ->
  d' = assoc_align
         (<["full" := bam]>
            (foldl (record_range (splitext bam).1) ∅ ATACRanges_values))
         data.
Proof.
  intros Hbam H. unfold split_ATAC in H. rewrite Hbam in H.
  apply bind_inv_OK in H as (sf & w1 & Hloop & H).
  apply split_loop_returns in Hloop as ->. by injection H as <- _.
Qed.

(** X3. The range files never collide: the path of a range file differs
    from the path of the BAM that is split, and two ranges of the catalog
    have different paths. *)
Lemma range_files_distinct (bam : string) (r1 r2 : ATACRange) :
  r1 ∈ ATACRanges_values -> r2 ∈ ATACRanges_values ->
  split_out_file (splitext bam).1 r1 <> bam /\
  (split_out_file (splitext bam).1 r1 = split_out_file (splitext bam).1 r2 ->
   r1 = r2).
Proof.
  intros H1 H2. apply catalog_inv in H1, H2. split.
  - intros E. rewrite <- (splitext_join bam) in E at 2.
    unfold split_out_file in E. apply (inj (String.app _)) in E.
    destruct (splitext_ext bam) as [He|[t He]]; rewrite He in E;
      destruct H1 as [-> | [-> | [-> | ->]]]; discriminate.
  - intros E. unfold split_out_file in E. apply (inj (String.app _)) in E.
    destruct H1 as [-> | [-> | [-> | ->]]],
             H2 as [-> | [-> | [-> | ->]]]; first [reflexivity|discriminate].
Qed.

(** X4. For a BAM path [stem.bam], where [stem] ends neither with a slash
    nor with a dot, the range files that [split_ATAC] records are
    [stem-NF.bam], [stem-MN.bam], [stem-DN.bam] and [stem-TN.bam]: the label
    goes between the base name and the extension. *)
Lemma split_ATAC_names (data d' : Sample) (stem : string) (c : ascii)
    (w w' : world) :
  last_char stem = Some c -> c <> "/"%char -> c <> "."%char ->
  split_ATAC data (Some (stem +:+ ".bam")) w = (OK d', w') ->
  align d' =
  Some {[ "NF" := stem +:+ "-NF.bam"; "MN" := stem +:+ "-MN.bam";
          "DN" := stem +:+ "-DN.bam"; "TN" := stem +:+ "-TN.bam";
          "full" := stem +:+ ".bam" ]}.
Proof.
  intros Hl Hs Hd H.
  assert (Ht : truthy (Some (stem +:+ ".bam")) = true) by (by destruct stem).
  apply (split_ATAC_returns data d' _ (stem +:+ ".bam")) in H;
    [|by rewrite Ht].
  rewrite (splitext_bam stem c) in H by done. subst d'. cbn [align assoc_align].
  reflexivity.
Qed.

(** X5. An empty path given to [split_ATAC] counts as no path: the work BAM
    of the sample is split instead.  When the sample has no work BAM
    either, [split_ATAC] raises [TypeError] before any command is run. *)
Lemma split_ATAC_default_bam (data : Sample) (w : world) :
  split_ATAC data (Some EmptyString) w = split_ATAC data None w /\
  (work_bam data = None ->
   split_ATAC data None w = (Raise TypeError, w)).
Proof.
  split; [reflexivity|]. intros H. unfold split_ATAC. cbn [truthy].
  by rewrite H.
Qed.

Lemma split_range_trace (base_cmd bam_file out_stem : string)
    (sf sf' : gmap string string) (arange : ATACRange) (w w' : world) :
  split_range base_cmd bam_file out_stem sf arange w = (OK sf', w') ->
  w' = w \/
  (files (fs w) !! split_out_file out_stem arange = None /\
   trace w' = trace w ++ range_events base_cmd bam_file out_stem arange).
Proof.
  unfold split_range, file_exists, mbind at 1, M_bind at 1.
  destruct (files (fs w) !! split_out_file out_stem arange) eqn:E.
  - rewrite bool_decide_eq_true_2 by eauto.
    intros H. left. by injection H as _ <-.
  - rewrite bool_decide_eq_false_2 by (by intros [? ?]).
    intros H. right. split; [done|].
    unfold file_transaction, do_run, do_bam_index, mbind, M_bind, mret, M_ret
      in H. cbn in H.
    destruct (shell _ (fs w)) as [f1|]; [|done]. cbn in H.
    destruct (bam_index _ _) as [f2|]; [|done].
    injection H as _ <-. cbn. by rewrite <- app_assoc.
Qed.

Lemma split_loop_trace (base_cmd bam_file out_stem : string)
    (ranges : list ATACRange) :
  forall (sf sf' : gmap string string) (w w' : world),
    fold_M (split_range base_cmd bam_file out_stem) ranges sf w = (OK sf', w') ->
    exists computed,
      computed `sublist_of` ranges /\
      trace w' =
      trace w ++ (computed ≫= range_events base_cmd bam_file out_stem).
Proof.
  induction ranges as [|r rs IH]; intros sf sf' w w' H.
  - injection H as _ <-. exists []. by rewrite app_nil_r.
  - cbn [fold_M] in H. apply bind_inv_OK in H as (sf1 & w1 & Hr & H).
    apply IH in H as (computed & Hsub & Ht).
    apply split_range_trace in Hr as [->|[_ Hr]].
    + exists computed. split; [by apply sublist_cons|done].
    + exists (r :: computed). split; [by apply sublist_skip|].
      rewrite Ht, Hr. cbn [mbind list_bind]. by rewrite <- !app_assoc.
Qed.
(** X6. When [split_ATAC] returns, what it added to the trace is, for some
    of the ranges taken in the order NF, MN, DN, TN, the filter command of
    the range followed at once by the indexing of its output: an index is
    built only for an output computed in this call, and nothing else is
    run. *)
Lemma split_ATAC_trace (data d' : Sample) (bam_arg : option string)
    (bam : string) (w w' : world) :
  (if truthy bam_arg then bam_arg else work_bam data) = Some bam ->
  split_ATAC data bam_arg w = (OK d', w') ->
  exists computed,
    computed `sublist_of` ATACRanges_values /\
    trace w' =
    trace w ++
    (computed ≫= range_events (split_base_cmd data) bam (splitext bam).1).
Proof.
  intros Hbam H. unfold split_ATAC in H. rewrite Hbam in H.
  apply bind_inv_OK in H as (sf & w1 & Hloop & H).
  injection H as _ <-. by apply split_loop_trace in Hloop.
Qed.

(** X7. A turn of the loop of [split_ATAC] fails only where the output was
    missing, and then either the filter command failed, or it succeeded and
    the indexing failed.  When the filter command fails, the exception names
    the command, the indexing is not attempted, and there is still no file
    at the path of the output. *)
Lemma split_range_fails (base_cmd bam_file out_stem : string)
    (sf : gmap string string) (arange : ATACRange) (e : exn) (w w' : world) :
  split_range base_cmd bam_file out_stem sf arange w = (Raise e, w') ->
  let out_file := split_out_file out_stem arange in
  let cmd := split_cmd base_cmd arange bam_file (tx_path out_file) in
  files (fs w) !! out_file = None /\
  ((e = CalledProcessError cmd /\
    shell cmd (fs w) = None /\
    files (fs w') !! out_file = None /\
    trace w' =
    trace w ++ [EvRun cmd ("Splitting " +:+ label arange +:+
                           " regions from " +:+ bam_file +:+ ".")]) \/
   (is_Some (shell cmd (fs w)) /\
    trace w' = trace w ++ range_events base_cmd bam_file out_stem arange)).
Proof.
  intros H out_file cmd. revert H.
  unfold split_range, file_exists, mbind at 1, M_bind at 1.
  fold out_file.
  destruct (files (fs w) !! out_file) eqn:E.
  { rewrite bool_decide_eq_true_2 by eauto. discriminate. }
  rewrite bool_decide_eq_false_2 by (by intros [? ?]).
  intros H. split; [done|].
  unfold file_transaction, do_run, do_bam_index, mbind, M_bind, mret, M_ret
    in H. cbn in H. fold cmd in H.
  destruct (shell cmd (fs w)) as [f1|] eqn:Hsh; cbn in H.
  - destruct (bam_index _ _) as [f2|]; [done|].
    injection H as <- <-. right. split; [by eexists|]. cbn.
    by rewrite <- app_assoc.
  - injection H as <- <-. left. repeat split; try done. cbn.
    destruct (decide (tx_path out_file = out_file)) as [->|Hne].
    + apply lookup_delete_eq.
    + by rewrite lookup_delete_ne.
Qed.

(** X8. After [split_ATAC], [get_NF_bam] finds the nucleosome-free BAM: the
    file of the range NF, a path that is not empty, so that [run_ataqv] does
    not skip the sample for a missing BAM. *)
Lemma split_ATAC_then_NF_bam (data d' : Sample) (bam_arg : option string)
    (bam : string) (w w' : world) :
  (if truthy bam_arg then bam_arg else work_bam data) = Some bam ->
  split_ATAC data bam_arg w = (OK d', w') ->
  get_NF_bam d' = Some ((splitext bam).1 +:+ "-NF.bam") /\
  truthy (get_NF_bam d') = true.
Proof.
  intros Hbam H. apply (split_ATAC_returns data d' _ bam) in H; [|done].
  assert (Hnf : get_NF_bam d' = Some ((splitext bam).1 +:+ "-NF.bam")).
  { subst d'. unfold get_NF_bam. cbn [align assoc_align mbind option_bind].
    unfold ATACRanges_values, ATACRanges, record_range, split_out_file.
    cbn [foldl fmap list_fmap snd label]. by simplify_map_eq. }
  split; [exact Hnf|]. rewrite Hnf. by destruct ((splitext bam).1).
Qed.
(** *** [get_NF_peaks] *)

Lemma rev_app_append (a b : string) :
  String.rev_app a b = String.rev a +:+ b.
Proof.
  unfold String.rev. revert b.
  induction a as [|x a IH]; intros b; [reflexivity|].
  cbn [String.rev_app]. rewrite (IH (String x b)), (IH (String x EmptyString)).
  by rewrite append_assoc.
Qed.

Lemma rev_append (a b : string) :
  String.rev (a +:+ b) = String.rev b +:+ String.rev a.
Proof.
  induction a as [|x a IH].
  - change (EmptyString +:+ b) with b. cbn.
    clear. induction (String.rev b) as [|y s IH]; [done|].
    exact (f_equal (String y) IH).
  - change (String.rev (String x (a +:+ b))
            = String.rev b +:+ String.rev (String x a)).
    unfold String.rev at 1 3. cbn [String.rev_app].
    rewrite !rev_app_append, IH. by rewrite append_assoc.
Qed.

Lemma rev_involutive (s : string) : String.rev (String.rev s) = s.
Proof.
  induction s as [|x s IH]; [reflexivity|].
  unfold String.rev at 2. cbn [String.rev_app].
  rewrite rev_app_append, rev_append, IH. reflexivity.
Qed.

Lemma endswith_append (s suffix : string) :
  endswith s suffix = true <-> exists pre, s = pre +:+ suffix.
Proof.
  unfold endswith. rewrite prefix_append. split.
  - intros [t Ht]. exists (String.rev t).
    rewrite <- (rev_involutive s), Ht, rev_append, rev_involutive. reflexivity.
  - intros [pre ->]. exists (String.rev pre). apply rev_append.
Qed.

Lemma peak_suffix (f : string) :
  endswith f "narrowPeak" || endswith f "broadPeak" = true <-> is_peak_file f.
Proof.
  rewrite orb_true_iff, !endswith_append. unfold is_peak_file.
  split.
  - intros [[pre H]|[pre H]]; exists pre; auto.
  - intros [pre [H|H]]; [left|right]; by exists pre.
Qed.

(** X9. [get_NF_peaks] returns the first path of [peaks_files.NF.macs2], in
    list order, that ends with "narrowPeak" or "broadPeak", and nothing
    exactly when no path of the list does.  A path that it returns is never
    empty, so [run_ataqv] skips a sample for a missing peak file only when
    the list has no such path. *)
Lemma get_NF_peaks_first (data : Sample) :
  match get_NF_peaks data with
  | Some f =>
      (exists before after,
         NF_macs2_peaks data = before ++ f :: after /\
         Forall (fun g => ~ is_peak_file g) before) /\
      is_peak_file f /\ truthy (Some f) = true
  | None => Forall (fun g => ~ is_peak_file g) (NF_macs2_peaks data)
  end.
Proof.
  unfold get_NF_peaks.
  induction (NF_macs2_peaks data) as [|g l IH]; [constructor|].
  cbn [find].
  destruct (endswith g "narrowPeak" || endswith g "broadPeak") eqn:E.
  - apply peak_suffix in E. split; [|split; [done|]].
    + exists [], l. by split.
    + destruct E as [pre [->| ->]]; by destruct pre.
  - assert (Hg : ~ is_peak_file g).
    { intros H. apply peak_suffix in H. congruence. }
    destruct (find _ l) as [f|].
    + destruct IH as ((before & after & -> & Hb) & Hf & Ht).
      split; [|done]. exists (g :: before), after. split; [done|].
      by constructor.
    + by constructor.
Qed.
(** *** The auxiliary files and the late checks of [run_ataqv] *)

Lemma autosomal_reference_step (out_file : string) (data : Sample)
    (w : world) :
  files (fs w) !! out_file = None ->
  _make_autosomal_reference_file out_file data w =
  (OK out_file,
   mkWorld
     (move_file (tx_path out_file) out_file
        (write_file (tx_path out_file)
           ((fun chrom => chrom +:+ nl) <$> get_nonmitochondrial_chroms data)
           (fs w)))
     (trace w)).
Proof.
  intros Hno. unfold _make_autosomal_reference_file.
  unfold file_exists, mbind at 1, M_bind at 1.
  rewrite bool_decide_eq_false_2 by (rewrite Hno; by intros [? ?]).
  reflexivity.
Qed.

(** X10. When the list of chromosomes is not there yet,
    [_make_autosomal_reference_file] writes the non-mitochondrial
    chromosomes to it, one per line and in their order, runs nothing, and
    leaves every other file (but its temporary one) as it was; a second call
    changes nothing. *)
Lemma autosomal_reference_written (out_file : string) (data : Sample)
    (w : world) :
  files (fs w) !! out_file = None ->
  exists w',
    _make_autosomal_reference_file out_file data w = (OK out_file, w') /\
    files (fs w') !! out_file =
      Some ((fun chrom => chrom +:+ nl) <$> get_nonmitochondrial_chroms data) /\
    trace w' = trace w /\
    (forall p, p <> out_file -> p <> tx_path out_file ->
               files (fs w') !! p = files (fs w) !! p) /\
    _make_autosomal_reference_file out_file data w' = (OK out_file, w').
Proof.
  intros Hno. rewrite autosomal_reference_step by done.
  eexists. split; [reflexivity|].
  unfold move_file, write_file. cbn [files dirs fs trace].
  rewrite lookup_insert_eq. cbn [files dirs fs trace].
  assert (Hout : forall c (m : gmap string (list string)),
            <[out_file := c]> m !! out_file = Some c)
    by (intros; apply lookup_insert_eq).
  split; [apply Hout|]. split; [done|]. split.
  - intros p Hp Htx. rewrite lookup_insert_ne by done.
    rewrite lookup_delete_ne by done. by rewrite lookup_insert_ne.
  - unfold _make_autosomal_reference_file, file_exists, mbind, M_bind.
    cbn. rewrite bool_decide_eq_true_2; [done|]. rewrite Hout. eauto.
Qed.

Lemma autosomal_reference_returns (out_file : string) (data : Sample)
    (w : world) :
  exists w',
    _make_autosomal_reference_file out_file data w = (OK out_file, w') /\
    trace w' = trace w /\
    is_Some (files (fs w') !! out_file).
Proof.
  destruct (files (fs w) !! out_file) as [c|] eqn:E.
  - exists w. unfold _make_autosomal_reference_file, file_exists, mbind, M_bind.
    rewrite bool_decide_eq_true_2 by (rewrite E; eauto).
    rewrite E. eauto.
  - rewrite autosomal_reference_step by done.
    eexists. split; [reflexivity|]. split; [reflexivity|].
    unfold move_file, write_file. cbn [files dirs fs trace].
    rewrite lookup_insert_eq. cbn [files dirs fs trace].
    rewrite lookup_insert_eq. eauto.
Qed.

Lemma run_ataqv_uncached (data : Sample) (w : world) (tss : string)
    (f1 : fsys) :
  ataqv_ready data ->
  files (fs w) !! ataqv_out_file data = None ->
  get_tss_bed (gtf_file data) (tss_bed_path data) data 1000 (fs w)
    = Some (tss, f1) ->
  exists w2,
    trace w2 = trace w ++ [tss_event data] /\
    is_Some (files (fs w2) !! autosomal_path data) /\
    run_ataqv data w =
    (mitoname ← lift (item0 (get_mitochondrial_chroms data));
     if negb (truthy (get_program "ataqv" data)) then
       _ ← logger_info "ataqv executable not found, skipping running ataqv.";
       mret None
     else
       _ ← file_transaction (ataqv_out_file data) (fun tx_out_file =>
             do_run
               (ataqv_cmd (get_program "ataqv" data) (fmt (get_NF_peaks data))
                  (sample_name data) tx_out_file tss (autosomal_path data)
                  mitoname (fmt (get_NF_bam data)))
               ("Running ataqv on the NF fraction of " +:+ sample_name data
                +:+ "."));
       mret (Some (ataqv_out_file data))) w2.
Proof.
  intros (Hm & Hp & Hb) Hno Htss.
  destruct (autosomal_reference_returns (autosomal_path data) data
              (mkWorld f1 (trace w ++ [tss_event data])))
    as (w2 & Hauto & Ht & Hf).
  exists w2. split; [exact Ht|]. split; [exact Hf|].
  unfold run_ataqv. rewrite bool_decide_eq_true_2 by done.
  rewrite Hp, Hb. cbn [negb].
  unfold file_exists, mbind at 1, M_bind at 1.
  fold (ataqv_out_file data).
  rewrite bool_decide_eq_false_2 by (rewrite Hno; by intros [? ?]).
  unfold do_get_tss_bed, mbind at 1, M_bind at 1.
  fold (tss_bed_path data). rewrite Htss.
  fold (autosomal_path data). fold (tss_event data).
  unfold mbind at 1, M_bind at 1. cbn [trace fs]. rewrite Hauto.
  reflexivity.
Qed.

(** X11. [run_ataqv] takes the first entry of the list of mitochondrial
    chromosomes before it runs anything: for a sample that passes the
    guards and has no report yet, an empty list raises [IndexError], after
    the TSS file has been asked for and the chromosome list written. *)
Lemma run_ataqv_no_mitochondrial (data : Sample) (w : world) (tss : string)
    (f1 : fsys) :
  ataqv_ready data ->
  files (fs w) !! ataqv_out_file data = None ->
  get_tss_bed (gtf_file data) (tss_bed_path data) data 1000 (fs w)
    = Some (tss, f1) ->
  get_mitochondrial_chroms data = [] ->
  exists w',
    run_ataqv data w = (Raise IndexError, w') /\
    trace w' = trace w ++ [tss_event data] /\
    is_Some (files (fs w') !! autosomal_path data).
Proof.
  intros Hr Hno Htss Hmito.
  destruct (run_ataqv_uncached data w tss f1 Hr Hno Htss)
    as (w2 & Ht & Hf & ->).
  exists w2. rewrite Hmito. by repeat split.
Qed.

(** X12. The ataqv program is looked up late: when it cannot be resolved,
    [run_ataqv] logs that and returns nothing, without running a command,
    but the TSS file has been asked for and the chromosome list written
    before. *)
Lemma run_ataqv_no_program (data : Sample) (w : world) (tss mito : string)
    (mitos : list string) (f1 : fsys) :
  ataqv_ready data ->
  files (fs w) !! ataqv_out_file data = None ->
  get_tss_bed (gtf_file data) (tss_bed_path data) data 1000 (fs w)
    = Some (tss, f1) ->
  get_mitochondrial_chroms data = mito :: mitos ->
  truthy (get_program "ataqv" data) = false ->
  exists w',
    run_ataqv data w = (OK None, w') /\
    trace w' =
      trace w ++
      [tss_event data;
       EvLog "ataqv executable not found, skipping running ataqv."] /\
    is_Some (files (fs w') !! autosomal_path data).
Proof.
  intros Hr Hno Htss Hmito Hprog.
  destruct (run_ataqv_uncached data w tss f1 Hr Hno Htss)
    as (w2 & Ht & Hf & ->).
  rewrite Hmito, Hprog. cbn.
  eexists. split; [reflexivity|]. cbn. rewrite Ht, <- app_assoc. by split.
Qed.

Lemma run_ataqv_uncached_fs (data : Sample) (w : world) (tss : string)
    (f1 : fsys) :
  ataqv_ready data ->
  files (fs w) !! ataqv_out_file data = None ->
  get_tss_bed (gtf_file data) (tss_bed_path data) data 1000 (fs w)
    = Some (tss, f1) ->
  exists f2,
    _make_autosomal_reference_file (autosomal_path data) data
      (mkWorld f1 (trace w ++ [tss_event data])) =
    (OK (autosomal_path data), mkWorld f2 (trace w ++ [tss_event data])) /\
    run_ataqv data w =
    (mitoname ← lift (item0 (get_mitochondrial_chroms data));
     if negb (truthy (get_program "ataqv" data)) then
       _ ← logger_info "ataqv executable not found, skipping running ataqv.";
       mret None
     else
       _ ← file_transaction (ataqv_out_file data) (fun tx_out_file =>
             do_run
               (ataqv_cmd (get_program "ataqv" data) (fmt (get_NF_peaks data))
                  (sample_name data) tx_out_file tss (autosomal_path data)
                  mitoname (fmt (get_NF_bam data)))
               ("Running ataqv on the NF fraction of " +:+ sample_name data
                +:+ "."));
       mret (Some (ataqv_out_file data)))
      (mkWorld f2 (trace w ++ [tss_event data])).
Proof.
  intros (Hm & Hp & Hb) Hno Htss.
  destruct (autosomal_reference_returns (autosomal_path data) data
              (mkWorld f1 (trace w ++ [tss_event data])))
    as ([f2 t2] & Hauto & Ht & Hf).
  cbn [trace] in Ht. subst t2.
  exists f2. split; [exact Hauto|].
  unfold run_ataqv. rewrite bool_decide_eq_true_2 by done.
  rewrite Hp, Hb. cbn [negb].
  unfold file_exists, mbind at 1, M_bind at 1.
  fold (ataqv_out_file data).
  rewrite bool_decide_eq_false_2 by (rewrite Hno; by intros [? ?]).
  unfold do_get_tss_bed, mbind at 1, M_bind at 1.
  fold (tss_bed_path data). rewrite Htss.
  fold (autosomal_path data). fold (tss_event data).
  unfold mbind at 1, M_bind at 1. cbn [trace fs]. rewrite Hauto.
  reflexivity.
Qed.

(** X13. For a sample that passes the guards and has no report yet,
    [run_ataqv] asks for the TSS file and then runs one command: the ataqv
    program on the nucleosome-free peaks and BAM, with the first
    mitochondrial chromosome.  Its answer is decided by this command, run
    on the files that the TSS call and the list of chromosomes left: it
    returns the path of the report when the command succeeds, and raises
    with the command when the command fails. *)
Lemma run_ataqv_runs (data : Sample) (w : world) (tss mito : string)
    (mitos : list string) (f1 : fsys) :
  ataqv_ready data ->
  files (fs w) !! ataqv_out_file data = None ->
  get_tss_bed (gtf_file data) (tss_bed_path data) data 1000 (fs w)
    = Some (tss, f1) ->
  get_mitochondrial_chroms data = mito :: mitos ->
  truthy (get_program "ataqv" data) = true ->
  let cmd :=
    ataqv_cmd (get_program "ataqv" data) (fmt (get_NF_peaks data))
      (sample_name data) (tx_path (ataqv_out_file data)) tss
      (autosomal_path data) mito (fmt (get_NF_bam data)) in
  exists r w' f2,
    run_ataqv data w = (r, w') /\
    trace w' =
      trace w ++
      [tss_event data;
       EvRun cmd ("Running ataqv on the NF fraction of " +:+
                  sample_name data +:+ ".")] /\
    _make_autosomal_reference_file (autosomal_path data) data
      (mkWorld f1 (trace w ++ [tss_event data])) =
    (OK (autosomal_path data), mkWorld f2 (trace w ++ [tss_event data])) /\
    r = match shell cmd f2 with
        | Some _ => OK (Some (ataqv_out_file data))
        | None => Raise (CalledProcessError cmd)
        end /\
    (r = OK (Some (ataqv_out_file data)) \/
     r = Raise (CalledProcessError cmd)) /\
    ((forall f, is_Some (shell cmd f)) ->
     r = OK (Some (ataqv_out_file data))) /\
    ((forall f, shell cmd f = None) ->
     r = Raise (CalledProcessError cmd)).
Proof.
  intros Hr Hno Htss Hmito Hprog cmd.
  destruct (run_ataqv_uncached_fs data w tss f1 Hr Hno Htss)
    as (f2 & Hauto & ->).
  rewrite Hmito, Hprog.
  unfold mbind, M_bind, lift, file_transaction, do_run, mret, M_ret.
  cbn [item0 negb fs trace]. fold cmd.
  destruct (shell cmd f2) as [f3|] eqn:Hsh.
  - eexists _, _, f2. split; [reflexivity|]. cbn [trace].
    rewrite <- app_assoc. split; [done|]. split; [exact Hauto|].
    rewrite Hsh. split; [done|]. split; [by left|]. split; [done|].
    intros Hall. by rewrite Hall in Hsh.
  - eexists _, _, f2. split; [reflexivity|]. cbn [trace].
    rewrite <- app_assoc. split; [done|]. split; [exact Hauto|].
    rewrite Hsh. split; [done|]. split; [by right|]. split; [|done].
    intros Hall. destruct (Hall f2) as [f Hf']. congruence.
Qed.
(** X14. The guards of [run_ataqv] come in a fixed order and skip quietly:
    a sample whose assay method is not "atac" gets nothing, with no log
    record; an ATAC sample without a peak file gets the record about the
    peak file (whether or not it has a BAM), and one with a peak file but
    without a BAM the record about the BAM.  Nothing is run, and the files
    are not looked at. *)
Lemma run_ataqv_skips (data : Sample) (w : world) :
  (chip_method data <> "atac" -> run_ataqv data w = (OK None, w)) /\
  (chip_method data = "atac" -> truthy (get_NF_peaks data) = false ->
   run_ataqv data w =
   (OK None,
    logged ("NF peak file for " +:+ sample_name data +:+
            " not found, skipping ataqv") w)) /\
  (chip_method data = "atac" -> truthy (get_NF_peaks data) = true ->
   truthy (get_NF_bam data) = false ->
   run_ataqv data w =
   (OK None,
    logged ("NF BAM file for " +:+ sample_name data +:+
            " not found, skipping ataqv") w)).
Proof.
  split; [|split].
  - intros H. unfold run_ataqv. by rewrite bool_decide_eq_false_2.
  - intros Hm Hp. unfold run_ataqv.
    rewrite bool_decide_eq_true_2 by done. by rewrite Hp.
  - intros Hm Hp Hb. unfold run_ataqv.
    rewrite bool_decide_eq_true_2 by done. by rewrite Hp, Hb.
Qed.

(** *** More on the complexity metrics *)

Lemma join_nonempty (a b : string) : b <> EmptyString -> join a b <> EmptyString.
Proof.
  intros Hb. unfold join. destruct b as [|c b]; [done|].
  destruct (Ascii.eqb c "/") eqn:E.
  - apply Ascii.eqb_eq in E as ->. done.
  - assert (Hj : (if bool_decide (a = EmptyString) || ends_with_slash a
                  then a +:+ String c b else a +:+ "/" +:+ String c b)
                 <> EmptyString).
    { destruct (_ || _); by destruct a. }
    destruct c as [[|] [|] [|] [|] [|] [|] [|] [|]]; try exact Hj.
    discriminate.
Qed.

Lemma metrics_path_nonempty (data : Sample) : metrics_path data <> EmptyString.
Proof.
  unfold metrics_path. apply join_nonempty. by destruct (sample_name data).
Qed.

Lemma calculate_complexity_metrics_fresh (in_bam : string) (data : Sample)
    (w : world) :
  files (fs w) !! metrics_path data = None ->
  calculate_complexity_metrics in_bam data w =
  (work_bam ← do_bam_sort in_bam "queryname";
   _ ← file_transaction (metrics_path data) (fun tx_metrics_file =>
         _ ← open_write tx_metrics_file ["mt,m0,m1,m2" +:+ nl];
         do_run
           (complexity_cmd (get_program "bedtools" data) work_bam
              tx_metrics_file)
           ("Calculating ATAC-seq complexity metrics on " +:+ work_bam +:+
            ", saving as " +:+ metrics_path data +:+ "."));
   mret (assoc_complexity_metrics_file (metrics_path data) data))
    (mkWorld (mkFsys (files (fs w))
                     ({[join (join (work_dir data) "metrics") "atac"]} ∪
                      dirs (fs w)))
             (trace w)).
Proof.
  intros Hno. unfold calculate_complexity_metrics.
  erewrite bind_OK; [|reflexivity].
  erewrite bind_OK.
  2:{ unfold file_exists. cbn [fs files].
      fold (metrics_path data). rewrite Hno.
      rewrite bool_decide_eq_false_2 by (by intros [? ?]). reflexivity. }
  reflexivity.
Qed.
(** X15. The two functions compose through the file: when there is no
    metrics file, the sort succeeds, and the command succeeds and leaves
    the header followed by the row [mt,m0,m1,m2] in the temporary file,
    then [calculate_complexity_metrics] runs the sort and the command (in
    this order, the command on the sorted BAM), the metrics file holds
    these two lines, and [calculate_encode_complexity_metrics] on the
    returned sample reads the four integers back and returns their
    ratios, the four integers being below the overflow bound of
    binary64. *)
Lemma complexity_metrics_round_trip (in_bam : string) (data : Sample)
    (w : world) (sorted : string) (f1 f2 : fsys) (mt m0 m1 m2 : Z) :
  files (fs w) !! metrics_path data = None ->
  bam_sort in_bam "queryname" (with_dir (metrics_dir data) (fs w))
    = Some (sorted, f1) ->
  shell (metrics_cmd data sorted)
        (write_file (tx_path (metrics_path data)) ["mt,m0,m1,m2" +:+ nl] f1)
    = Some f2 ->
  files f2 !! tx_path (metrics_path data) = Some (metrics_lines mt m0 m1 m2) ->
  m0 <> 0%Z -> mt <> 0%Z ->
  Forall in_float_range [mt; m0; m1; m2] ->
  exists d' w',
    calculate_complexity_metrics in_bam data w = (OK d', w') /\
    trace w' =
      trace w ++ [EvBamSort in_bam "queryname";
                  EvRun (metrics_cmd data sorted)
                        (metrics_message data sorted)] /\
    files (fs w') !! metrics_path data = Some (metrics_lines mt m0 m1 m2) /\
    calculate_encode_complexity_metrics d' w' =
      (OK (encode_ratios mt m0 m1 m2), w').
Proof.
  intros Hno Hsort Hsh Htx H0 Ht Hb.
  apply Forall_cons in Hb as [_ Hb]. apply Forall_cons in Hb as [Hb0 Hb].
  apply Forall_cons in Hb as [Hb1 _].
  rewrite calculate_complexity_metrics_fresh by done.
  unfold do_bam_sort, mbind at 1, M_bind at 1. cbn [fs trace].
  fold (metrics_dir data). fold (with_dir (metrics_dir data) (fs w)).
  rewrite Hsort.
  unfold file_transaction, open_write, do_run, mbind, M_bind, mret, M_ret.
  cbn [fs trace].
  fold (metrics_cmd data sorted). fold (metrics_message data sorted).
  rewrite Hsh. eexists _, _. split; [reflexivity|]. cbn [fs trace].
  assert (Hfile : files (move_file (tx_path (metrics_path data))
                           (metrics_path data) f2) !! metrics_path data
                  = Some (metrics_lines mt m0 m1 m2)).
  { unfold move_file. rewrite Htx. cbn. apply lookup_insert_eq. }
  split; [by rewrite <- !app_assoc|]. split; [exact Hfile|].
  erewrite calculate_encode_reads;
    [|reflexivity|apply metrics_path_nonempty|exact Hfile].
  rewrite encode_metrics_defined; [done|done|done|by apply no_overflow..|].
  intros Hm2. by apply no_overflow.
Qed.

(** X16. Failures of [calculate_complexity_metrics] leave no metrics file.
    When the sort fails, the command is not run and the files are as they
    were.  When the command fails, the exception carries the command, the
    temporary file is dropped, and the path of the metrics file holds no
    file (as long as the sort has put none there). *)
Lemma complexity_metrics_failures (in_bam : string) (data : Sample)
    (w : world) :
  files (fs w) !! metrics_path data = None ->
  (bam_sort in_bam "queryname" (with_dir (metrics_dir data) (fs w)) = None ->
   exists e,
     calculate_complexity_metrics in_bam data w =
     (Raise e,
      mkWorld (with_dir (metrics_dir data) (fs w))
              (trace w ++ [EvBamSort in_bam "queryname"]))) /\
  (forall (sorted : string) (f1 : fsys),
     bam_sort in_bam "queryname" (with_dir (metrics_dir data) (fs w))
       = Some (sorted, f1) ->
     shell (metrics_cmd data sorted)
           (write_file (tx_path (metrics_path data))
                       ["mt,m0,m1,m2" +:+ nl] f1) = None ->
     exists w',
       calculate_complexity_metrics in_bam data w =
         (Raise (CalledProcessError (metrics_cmd data sorted)), w') /\
       trace w' =
         trace w ++ [EvBamSort in_bam "queryname";
                     EvRun (metrics_cmd data sorted)
                           (metrics_message data sorted)] /\
       files (fs w') !! tx_path (metrics_path data) = None /\
       (files f1 !! metrics_path data = None ->
        files (fs w') !! metrics_path data = None)).
Proof.
  intros Hno. split.
  - intros Hsort. rewrite calculate_complexity_metrics_fresh by done.
    unfold do_bam_sort, mbind at 1, M_bind at 1. cbn [fs trace].
    fold (metrics_dir data). fold (with_dir (metrics_dir data) (fs w)).
    rewrite Hsort. by eexists.
  - intros sorted f1 Hsort Hsh.
    rewrite calculate_complexity_metrics_fresh by done.
    unfold do_bam_sort, mbind at 1, M_bind at 1. cbn [fs trace].
    fold (metrics_dir data). fold (with_dir (metrics_dir data) (fs w)).
    rewrite Hsort.
    unfold file_transaction, open_write, do_run, mbind, M_bind, mret, M_ret.
    cbn [fs trace].
    fold (metrics_cmd data sorted). fold (metrics_message data sorted).
    rewrite Hsh. eexists. split; [reflexivity|]. cbn [fs trace].
    split; [by rewrite <- !app_assoc|].
    unfold remove_file, write_file. cbn [files]. split.
    + apply lookup_delete_eq.
    + intros Hf1.
      destruct (decide (tx_path (metrics_path data) = metrics_path data))
        as [->|Hne]; [apply lookup_delete_eq|].
      by rewrite lookup_delete_ne, lookup_insert_ne.
Qed.

Lemma encode_metrics_shape (raw : gmap string Z) (m : gmap string number) :
  encode_metrics raw = OK m ->
  dom m = ({[ "PBC1"; "NRF"; "PBC2" ]} : gset string) /\
  (exists x, m !! "PBC1" = Some (Float x)) /\
  (exists y, m !! "NRF" = Some (Float y)) /\
  (m !! "PBC2" = Some (Int 0) \/ exists z, m !! "PBC2" = Some (Float z)).
Proof.
  unfold encode_metrics, truediv. intros H.
  destruct (getitem raw "m1") as [m1|]; [|done]. cbn [mbind result_bind] in H.
  destruct (getitem raw "m0") as [m0|]; [|done]. cbn [mbind result_bind] in H.
  destruct (m0 =? 0)%Z; [done|].
  destruct (overflows (inject_Z m1 / inject_Z m0)); [done|].
  cbn [mbind result_bind] in H.
  destruct (getitem raw "mt") as [mt|]; [|done]. cbn [mbind result_bind] in H.
  destruct (mt =? 0)%Z; [done|].
  destruct (overflows (inject_Z m0 / inject_Z mt)); [done|].
  cbn [mbind result_bind] in H.
  destruct (getitem raw "m2") as [m2|]; [|done]. cbn [mbind result_bind] in H.
  destruct (m2 =? 0)%Z eqn:E2; cbn [mbind result_bind] in H;
    [|destruct (overflows (inject_Z m1 / inject_Z m2)); [done|];
      cbn [mbind result_bind] in H].
  - injection H as <-. split.
    + rewrite !dom_insert_L, dom_singleton_L. set_solver.
    + split; [|split]; [eexists; by simplify_map_eq..|left; by simplify_map_eq].
  - injection H as <-. split.
    + rewrite !dom_insert_L, dom_singleton_L. set_solver.
    + split; [|split]; [eexists; by simplify_map_eq..|].
      right. eexists. by simplify_map_eq.
Qed.

Lemma calculate_encode_keys (data : Sample) (w w' : world)
    (m : gmap string number) :
  calculate_encode_complexity_metrics data w = (OK m, w') ->
  truthy (complexity_metrics_file data) = true ->
  dom m = ({[ "PBC1"; "NRF"; "PBC2" ]} : gset string).
Proof.
  unfold calculate_encode_complexity_metrics. intros H Ht. rewrite Ht in H.
  cbn [negb] in H. unfold mbind at 1, M_bind at 1, get_fs, lift in H.
  injection H as H _. revert H.
  destruct (open_read _ _) as [lines|]; [|done]. cbn.
  destruct (next lines) as [[l1 rest]|]; [|done]. cbn.
  destruct (next rest) as [[l2 rest']|]; [|done]. cbn.
  destruct (raw_metrics_of _ _) as [raw|]; [|done]. cbn.
  intros H. by apply encode_metrics_shape in H as [H _].
Qed.

(** X17. [calculate_encode_complexity_metrics] only reads: whatever it
    answers, the world is as before.  What it returns is the empty map when
    no path is recorded (absent or empty), and otherwise a map with exactly
    the keys PBC1, NRF and PBC2, where PBC1 and NRF are floats and PBC2 is a
    float or the integer 0. *)
Lemma calculate_encode_shape (data : Sample) (w w' : world)
    (r : result (gmap string number)) :
  calculate_encode_complexity_metrics data w = (r, w') ->
  w' = w /\
  (truthy (complexity_metrics_file data) = false -> r = OK ∅) /\
  (forall m, r = OK m -> truthy (complexity_metrics_file data) = true ->
     dom m = ({[ "PBC1"; "NRF"; "PBC2" ]} : gset string) /\
     (exists x, m !! "PBC1" = Some (Float x)) /\
     (exists y, m !! "NRF" = Some (Float y)) /\
     (m !! "PBC2" = Some (Int 0) \/ exists z, m !! "PBC2" = Some (Float z))).
Proof.
  unfold calculate_encode_complexity_metrics.
  destruct (truthy (complexity_metrics_file data)) eqn:Ht; cbn [negb].
  - unfold mbind at 1, M_bind at 1, get_fs, lift. intros H.
    injection H as <- <-. split; [done|]. split; [done|].
    intros m Hm _. revert Hm.
    destruct (open_read _ _) as [lines|]; [|done]. cbn.
    destruct (next lines) as [[l1 rest]|]; [|done]. cbn.
    destruct (next rest) as [[l2 rest']|]; [|done]. cbn.
    destruct (raw_metrics_of _ _) as [raw|]; [|done]. cbn.
    apply encode_metrics_shape.
  - intros H. injection H as <- <-. split; [done|]. split; [done|]. done.
Qed.

(** X18. Whenever [calculate_complexity_metrics] returns, the returned
    sample is the given one with the path of the metrics file recorded, and
    this path is not empty: on the returned sample
    [calculate_encode_complexity_metrics] never answers with the empty map;
    it raises or returns the three ratios. *)
Lemma complexity_metrics_recorded (in_bam : string) (data d' : Sample)
    (w w' : world) :
  calculate_complexity_metrics in_bam data w = (OK d', w') ->
  d' = assoc_complexity_metrics_file (metrics_path data) data /\
  truthy (complexity_metrics_file d') = true /\
  (forall w1 w2 m,
     calculate_encode_complexity_metrics d' w1 = (OK m, w2) ->
     dom m = ({[ "PBC1"; "NRF"; "PBC2" ]} : gset string)).
Proof.
  intros H.
  assert (Hd : d' = assoc_complexity_metrics_file (metrics_path data) data).
  { unfold calculate_complexity_metrics in H.
    apply bind_inv_OK in H as (? & w1 & _ & H).
    apply bind_inv_OK in H as (cached & w2 & _ & H).
    destruct cached; [by injection H as <- _|].
    apply bind_inv_OK in H as (? & w3 & _ & H).
    apply bind_inv_OK in H as (? & w4 & _ & H).
    by injection H as <- _. }
  assert (Ht : truthy (complexity_metrics_file d') = true).
  { subst d'. cbn. pose proof (metrics_path_nonempty data).
    by destruct (metrics_path data). }
  split; [exact Hd|]. split; [exact Ht|].
  intros w1 w2 m Hm. by eapply calculate_encode_keys.
Qed.












(** *** peaks.py *)

(** X21. Errors of [_get_paired_samples].  When the scan reaches an empty
    group before a control, it fails with [IndexError]; when the batch of
    the sample is a list and the scan reaches a group whose batch is a
    string, it fails with [TypeError]. *)
Lemma paired_errors (s : Sample) (pre post : list (list Sample)) :
  Forall (passed_over s) pre ->
  _get_paired_samples s (pre ++ [] :: post) = Raise IndexError /\
  (forall (o : Sample) (rest : list Sample) (l : list string) (y : string),
     batch s = BatchList l -> batch o = BatchStr y ->
     _get_paired_samples s (pre ++ (o :: rest) :: post) = Raise TypeError).
Proof.
  induction 1 as [|g pre Hg _ [IH1 IH2]].
  - split; [reflexivity|]. intros o rest l y Hs Ho.
    cbn [app _get_paired_samples item0 mbind result_bind].
    unfold batch_in. by rewrite Hs, Ho.
  - split.
    + cbn [app]. by rewrite paired_passed_over.
    + intros o rest l y Hs Ho. cbn [app]. rewrite paired_passed_over by done.
      by eapply IH2.
Qed.

(** X22. Between two samples whose batches are strings, Python's [in] is the
    substring test: a group is a control of the sample when the batch of
    the sample occurs somewhere in the batch of the group, and the phenotype
    of the group is "input".  Equal batches are one case of it. *)
Lemma string_batch_is_substring (s o : Sample) (x y : string) :
  batch s = BatchStr x -> batch o = BatchStr y ->
  (is_control_for s o <->
   (exists pre post, y = pre +:+ x +:+ post) /\ phenotype o = "input") /\
  (x = y -> phenotype o = "input" -> is_control_for s o).
Proof.
  intros Hs Ho.
  assert (Hiff : is_control_for s o <->
            (exists pre post, y = pre +:+ x +:+ post) /\ phenotype o = "input").
  { unfold is_control_for, batch_in. rewrite Hs, Ho, <- str_in_occurs.
    split; intros [H ?]; (split; [|done]); congruence. }
  split; [exact Hiff|]. intros Hxy Hp. apply Hiff. split; [|done].
  exists EmptyString, EmptyString. rewrite <- Hxy. clear.
  change (x = x +:+ EmptyString).
  induction x as [|c x IH]; [done|]. exact (f_equal (String c) IH).
Qed.

(** X23. A "chip" sample that heads its group, has "macs2" among its
    configured callers and has a control [o] in the collection, adds
    exactly one task, however often "macs2" is listed and whatever other
    callers are listed: the copy of the sample with [peak_fn] "macs2" and
    the work BAM of its first control as [work_bam_input].  Nothing is
    logged. *)
Lemma prepare_sample_one_task (data tp : list (list Sample)) (s o : Sample)
    (rest : list Sample) (w : world) :
  phenotype s = "chip" ->
  default_phenotype <> "chip" ->
  "macs2" ∈ callers_of (peakcaller s) ->
  first_control s data o ->
  prepare_sample data tp (s :: rest) w =
  (OK (tp ++ [[set_work_bam_input (work_bam o) (set_peak_fn "macs2" s)]]), w).
Proof.
  intros Hp Hd Hin Hfc.
  set (t := set_work_bam_input (work_bam o) (set_peak_fn "macs2" s)).
  apply list_elem_of_split_l in Hin as (l1 & l2 & Hl & Hl1).
  assert (Hc : prepare_caller data (MRecord s, tp) "macs2" w =
               (OK (MGroup [t], tp ++ [[t]]), w)).
  { rewrite prepare_caller_chip; [|by apply registry_lookup|done].
    by rewrite (paired_first (set_peak_fn "macs2" s) o data Hfc). }
  assert (Hfold : fold_M (prepare_caller data) (callers_of (peakcaller s))
                    (MRecord s, tp) w = (OK (MGroup [t], tp ++ [[t]]), w)).
  { rewrite Hl, fold_M_app.
    erewrite bind_OK; [|by apply callers_none, registry_only_macs2].
    cbn [fold_M]. erewrite bind_OK; [|exact Hc]. by apply callers_idle. }
  unfold prepare_sample. cbn [item0].
  erewrite bind_OK; [|reflexivity].
  erewrite bind_OK; [|exact Hfold]. reflexivity.
Qed.

Lemma only_logs_refl (w : world) : only_logs w w.
Proof. split; [done|]. exists []. cbn. by rewrite app_nil_r. Qed.

Lemma only_logs_trans (w1 w2 w3 : world) :
  only_logs w1 w2 -> only_logs w2 w3 -> only_logs w1 w3.
Proof.
  intros [Hf1 [m1 Ht1]] [Hf2 [m2 Ht2]]. split; [congruence|].
  exists (m1 ++ m2). by rewrite Ht2, Ht1, fmap_app, app_assoc.
Qed.

Lemma only_logs_logged (msg : string) (w : world) : only_logs w (logged msg w).
Proof. split; [done|]. by exists [msg]. Qed.

Lemma fold_M_only_logs {A B} (body : B -> A -> M B) :
  (forall acc x w r w', body acc x w = (r, w') -> only_logs w w') ->
  forall (xs : list A) (acc : B) (w w' : world) (r : result B),
    fold_M body xs acc w = (r, w') -> only_logs w w'.
Proof.
  intros Hbody. induction xs as [|x xs IH]; intros acc w w' r H.
  - injection H as _ <-. apply only_logs_refl.
  - cbn [fold_M] in H. unfold mbind, M_bind in H.
    destruct (body acc x w) as [[acc'|e] w1] eqn:Hb.
    + eapply only_logs_trans; [by eapply Hbody|by eapply IH].
    + injection H as _ <-. by eapply Hbody.
Qed.

Lemma prepare_caller_only_logs (data : list (list Sample))
    (st : mimic_val * list (list Sample)) (caller : string) (w w' : world)
    (r : result (mimic_val * list (list Sample))) :
  prepare_caller data st caller w = (r, w') -> only_logs w w'.
Proof.
  unfold prepare_caller. destruct st as [m tp].
  destruct (_ && _); [|intros H; injection H as _ <-; apply only_logs_refl].
  destruct m as [s| |];
    [|intros H; injection H as _ <-; apply only_logs_refl..].
  unfold mbind, M_bind, lift, logger_info, emit, mret, M_ret.
  destruct (_get_paired_samples _ data) as [[[|t g]|]|e]; intros H;
    injection H as _ <-;
    first [apply only_logs_refl | apply (only_logs_logged _ w)].
Qed.

Lemma prepare_sample_only_logs (data tp : list (list Sample))
    (g : list Sample) (w w' : world) (r : result (list (list Sample))) :
  prepare_sample data tp g w = (r, w') -> only_logs w w'.
Proof.
  unfold prepare_sample. destruct g as [|s rest].
  - intros H. injection H as _ <-. apply only_logs_refl.
  - cbn [item0]. erewrite bind_OK; [|reflexivity].
    unfold mbind, M_bind.
    destruct (fold_M _ _ _ w) as [[st|e] w1] eqn:Hf; intros H;
      injection H as _ <-;
      (eapply fold_M_only_logs; [|exact Hf]);
      intros; by eapply prepare_caller_only_logs.
Qed.

(** X24. The preparation loop of [peakcall_preparation] touches no file and
    runs nothing: whatever it answers, the files are as before and the
    trace has grown by log messages only.  When it returns, it has added at
    most one task for each group. *)
Lemma preparation_only_logs (data groups : list (list Sample))
    (tp : list (list Sample)) (w w' : world)
    (r : result (list (list Sample))) :
  fold_M (prepare_sample data) groups tp w = (r, w') ->
  only_logs w w' /\
  (forall tp', r = OK tp' ->
     (length tp' <= length tp + length groups)%nat).
Proof.
  intros H. split.
  - eapply fold_M_only_logs; [|exact H].
    intros; by eapply prepare_sample_only_logs.
  - intros tp' ->. revert tp w H.
    induction groups as [|g groups IH]; intros tp w H.
    + injection H as <- _. cbn. lia.
    + cbn [fold_M] in H. apply bind_inv_OK in H as (tp1 & w1 & Hs & H).
      apply IH in H. cbn [length].
      apply prepare_sample_tasks in Hs as [->|(tg & _ & ->)]; [lia|].
      rewrite length_app in H. cbn in H. lia.
Qed.

Lemma chars_not_macs2 (x : string) : "macs2" ∉ chars x.
Proof.
  unfold chars. intros H. apply list_elem_of_fmap in H as (c & Hc & _).
  discriminate.
Qed.

Lemma prepare_sample_skips (data tp : list (list Sample)) (s : Sample)
    (rest : list Sample) (w : world) :
  phenotype s <> "chip" \/ "macs2" ∉ callers_of (peakcaller s) ->
  prepare_sample data tp (s :: rest) w = (OK tp, w).
Proof.
  intros [Hp|Hc].
  - unfold prepare_sample. cbn [item0].
    erewrite bind_OK; [|reflexivity].
    erewrite bind_OK; [|by apply callers_idle]. reflexivity.
  - by apply prepare_sample_no_caller, registry_only_macs2.
Qed.

(** X25. Samples that are never called.  A caller configuration given as a
    bare string is iterated character by character, so it never names
    "macs2".  When the first sample of every group has a phenotype other
    than "chip" or does not list "macs2", [peakcall_preparation] returns the
    collection as it is, without calling the runner and without logging. *)
Lemma uncalled_samples (data : list (list Sample))
    (run_parallel : string -> list (list Sample) -> M (list (list Sample)))
    (w : world) :
  (forall x : string, "macs2" ∉ callers_of (Some (CallerStr x))) /\
  (Forall (fun g => exists s rest, g = s :: rest /\
                      (phenotype s <> "chip" \/
                       "macs2" ∉ callers_of (peakcaller s))) data ->
   peakcall_preparation data run_parallel w = (OK data, w)).
Proof.
  split; [intros x; apply chars_not_macs2|].
  intros Hall. unfold peakcall_preparation.
  assert (Hfold : forall groups tp w0,
            Forall (fun g => exists s rest, g = s :: rest /\
                      (phenotype s <> "chip" \/
                       "macs2" ∉ callers_of (peakcaller s))) groups ->
            fold_M (prepare_sample data) groups tp w0 = (OK tp, w0)).
  { induction groups as [|g groups IH]; intros tp w0 Hg; [reflexivity|].
    apply Forall_cons in Hg as [(s & rest & -> & Hs) Hg].
    cbn [fold_M]. erewrite bind_OK; [|by apply prepare_sample_skips].
    by apply IH. }
  erewrite bind_OK; [|by apply Hfold]. reflexivity.
Qed.
(** X26. [calling] checks its keys before it does anything: a task without
    [work_bam_input], without [peak_fn], or with a [peak_fn] that is not in
    the registry, is a [KeyError] for that key, and no directory is made. *)
Lemma calling_missing_keys (data : Sample) (w : world) :
  (work_bam_input data = None ->
   calling data w = (Raise (KeyError "work_bam_input"), w)) /\
  (forall i, work_bam_input data = Some i -> peak_fn data = None ->
     calling data w = (Raise (KeyError "peak_fn"), w)) /\
  (forall i fn, work_bam_input data = Some i -> peak_fn data = Some fn ->
     fn <> "macs2" ->
     calling data w = (Raise (KeyError fn), w)).
Proof.
  unfold calling. split; [|split].
  - by intros ->.
  - by intros i -> ->.
  - intros i fn -> -> Hfn. cbn [get_key]. unfold lift.
    assert (Hreg : getitem get_callers fn = Raise (KeyError fn)).
    { unfold getitem. destruct (get_callers !! fn) eqn:E; [|done].
      destruct Hfn. apply registry_lookup. by rewrite E. }
    unfold mbind, M_bind. by rewrite Hreg.
Qed.

Lemma calling_macs2 (data : Sample) (i : option string) (w : world) :
  work_bam_input data = Some i -> peak_fn data = Some "macs2" ->
  calling data w =
  match macs2_run (sample_name data) (work_bam data) i (genome_build data)
          (peaks_dir data "macs2") data
          (with_dir (peaks_dir data "macs2") (fs w)) with
  | Some (out, f) =>
      (OK [[set_peaks_file out data]],
       mkWorld f (trace w ++ [EvCaller "macs2" (sample_name data)
                                       (peaks_dir data "macs2")]))
  | None =>
      (Raise (CalledProcessError "macs2"),
       mkWorld (with_dir (peaks_dir data "macs2") (fs w))
               (trace w ++ [EvCaller "macs2" (sample_name data)
                                     (peaks_dir data "macs2")]))
  end.
Proof.
  intros Hi Hfn. unfold calling. rewrite Hi, Hfn. cbn [get_key].
  unfold lift, mbind, M_bind.
  change (getitem get_callers "macs2") with (OK macs2).
  unfold safe_makedir, macs2. cbn [fs trace].
  fold (peaks_dir data "macs2").
  fold (with_dir (peaks_dir data "macs2") (fs w)).
  by destruct (macs2_run _ _ _ _ _ _ _) as [[out f]|].
Qed.

(** X27. Every task that [peakcall_preparation] prepares can be handed to
    [calling]: it is one sample with [peak_fn] "macs2" and a
    [work_bam_input], so [calling] raises no [KeyError]; it records one call
    of macs2 for the name of the sample, with the directory
    [work_dir/macs2/name], and returns the task with its [peaks_file], or
    fails with the exception of macs2. *)
Lemma prepared_task_callable (data groups : list (list Sample))
    (tg : list Sample) (w : world) :
  prepared_from data groups tg ->
  exists t, tg = [t] /\ peak_fn t = Some "macs2" /\
    exists r w',
      calling t w = (r, w') /\
      trace w' = trace w ++ [EvCaller "macs2" (sample_name t)
                                      (peaks_dir t "macs2")] /\
      ((exists out, r = OK [[set_peaks_file out t]]) \/
       (exists e, r = Raise e /\ forall k, e <> KeyError k)).
Proof.
  intros (s & rest & caller & o & _ & _ & _ & Hreg & _ & ->).
  apply registry_lookup in Hreg. subst caller.
  eexists. split; [reflexivity|]. split; [reflexivity|].
  erewrite calling_macs2; [|reflexivity..].
  destruct (macs2_run _ _ _ _ _ _ _) as [[out f]|];
    eexists _, _; (split; [reflexivity|]); (split; [reflexivity|]).
  - left. by exists out.
  - right. eexists. split; [reflexivity|]. discriminate.
Qed.

Lemma run_serial_results (data groups : list (list Sample)) :
  (forall name chip input gb dir cfg f,
     is_Some (macs2_run name chip input gb dir cfg f)) ->
  forall tasks : list (list Sample),
    Forall (prepared_from data groups) tasks ->
    forall (done : list (list Sample)) (w : world),
    exists results w',
      fold_M (fun (done : list (list Sample)) (task : list Sample) =>
                t ← lift (item0 task);
                r ← calling t;
                mret (done ++ r))
             tasks done w = (OK (done ++ results), w') /\
      Forall2 result_of_task tasks results.
Proof.
  intros Htotal. induction 1 as [|tg tasks Htg _ IH]; intros done w.
  - exists [], w. split; [|constructor]. cbn. by rewrite app_nil_r.
  - destruct Htg as (s & rest & caller & o & _ & _ & _ & Hreg & _ & ->).
    apply registry_lookup in Hreg. subst caller.
    set (t := set_work_bam_input (work_bam o) (set_peak_fn "macs2" s)).
    cbn [fold_M item0].
    assert (Hcall : exists out w1,
              calling t w = (OK [[set_peaks_file out t]], w1)).
    { erewrite calling_macs2; [|reflexivity..].
      destruct (Htotal (sample_name t) (work_bam t) (work_bam o)
                  (genome_build t) (peaks_dir t "macs2") t
                  (with_dir (peaks_dir t "macs2") (fs w)))
        as [[out f] ->]. by eexists _, _. }
    destruct Hcall as (out & w1 & Hcall).
    destruct (IH (done ++ [[set_peaks_file out t]]) w1)
      as (results & w' & Hrest & Hres).
    exists ([set_peaks_file out t] :: results), w'. split.
    + unfold mbind at 1, M_bind at 1.
      unfold mbind at 1, M_bind at 1, lift at 1.
      unfold mbind at 1, M_bind at 1. rewrite Hcall.
      unfold mret at 1, M_ret at 1. rewrite Hrest.
      by rewrite <- app_assoc.
    + constructor; [by exists t, out|done].
Qed.

(** X28. Preparation, the runner and the merge fit together.  When the
    preparation loop returns, and the runner answers the prepared tasks
    with result groups that each have a first sample with a [peaks_file]
    (as the groups that [calling] returns have), then
    [peakcall_preparation] returns: the merge finds every first sample and
    every key that it reads, and the collection returned is the original
    one, changed at most by the merge.  Without tasks the runner is not
    needed: the collection is returned as it is. *)
Lemma peakcalling_returns (data : list (list Sample))
    (run_parallel : string -> list (list Sample) -> M (list (list Sample)))
    (tp : list (list Sample)) (w w1 : world) :
  fold_M (prepare_sample data) data [] w = (OK tp, w1) ->
  (tp <> [] ->
   forall w0, exists results w2,
     run_parallel "peakcalling" tp w0 = (OK results, w2) /\
     Forall has_peaks_file results) ->
  exists data' w',
    peakcall_preparation data run_parallel w = (OK data', w') /\
    Forall2 merged_group data data' /\
    (tp = [] -> data' = data /\ w' = w1).
Proof.
  intros Hprep Hrun.
  pose proof (prepare_all_nonempty _ _ _ _ _ _ Hprep) as Hne.
  assert (Hret : exists data' w',
            peakcall_preparation data run_parallel w = (OK data', w') /\
            (tp = [] -> data' = data /\ w' = w1)).
  { unfold peakcall_preparation. erewrite bind_OK; [|exact Hprep].
    unfold dispatch. destruct tp as [|tg tp]; [by eexists _, _|].
    unfold emit. unfold mbind at 1, M_bind at 1.
    destruct (Hrun ltac:(done)
                (mkWorld (fs w1)
                   (trace w1 ++ [EvParallel "peakcalling" (tg :: tp)])))
      as (results & w2 & Hr & Hres).
    erewrite bind_OK; [|exact Hr]. unfold lift.
    destruct (sync_total data results Hne Hres) as [data' Hs].
    rewrite Hs. by eexists _, _. }
  destruct Hret as (data' & w' & Hret & Hnil). exists data', w'.
  split; [exact Hret|]. split; [|exact Hnil].
  by eapply peakcall_preparation_merged.
Qed.

(** X29. Edge cases of [_sync].  Without results the collection is returned
    as it is, even when it holds empty groups.  With results, an empty
    original group makes the merge fail, and so does an empty result group
    when there is an original group; and a result that has the name of an
    original sample but no [peaks_file] is a [KeyError] for this key. *)
Lemma sync_edge_cases (original processed : list (list Sample)) :
  _sync original [] = OK original /\
  ([] ∈ original -> processed <> [] ->
   forall r, _sync original processed <> OK r) /\
  ([] ∈ processed -> original <> [] ->
   forall r, _sync original processed <> OK r) /\
  (forall (o p : Sample) (rest prest : list Sample)
          (post more : list (list Sample)),
     sample_name o = sample_name p -> peaks_file p = None ->
     _sync ((o :: rest) :: post) ((p :: prest) :: more) =
     Raise (KeyError "peaks_file")).
Proof.
  split; [|split; [|split]].
  - induction original as [|g original IH]; [reflexivity|].
    cbn [_sync for_each mbind result_bind]. by rewrite IH.
  - intros Hin Hp r Hr. apply sync_inv in Hr.
    apply list_elem_of_lookup in Hin as [i Hi].
    destruct (Forall2_lookup_l _ _ _ _ _ Hr Hi) as (g' & _ & Hg).
    by destruct processed.
  - intros Hin Ho r Hr. apply sync_inv in Hr.
    destruct original as [|g original]; [done|].
    apply Forall2_cons_inv_l in Hr as (g' & r' & Hg & _ & _).
    clear -Hin Hg. revert g Hg.
    induction processed as [|pg processed IH]; intros g Hg;
      [by apply elem_of_nil in Hin|].
    rewrite for_each_cons in Hg.
    destruct (sync_result g pg) as [g1|] eqn:E; [|done].
    apply elem_of_cons in Hin as [<-|Hin]; [|by eapply IH].
    unfold sync_result in E. by destruct g.
  - intros o p rest prest post more Hn Hpf.
    cbn [_sync]. rewrite for_each_cons.
    unfold sync_result, get_peaks_file. cbn [item0 mbind result_bind].
    rewrite bool_decide_eq_true_2 by done. by rewrite Hpf.
Qed.

Lemma sync_result_verdict (o : Sample) (rest pg : list Sample) :
  sync_result (o :: rest) pg =
  v ← verdict (sample_name o) pg; OK (write_peaks_file v o :: rest).
Proof.
  unfold sync_result, verdict. cbn [item0 mbind result_bind].
  destruct pg as [|p prest]; [reflexivity|]. cbn [item0 mbind result_bind].
  destruct (bool_decide _); [|reflexivity].
  destruct (get_peaks_file p) as [pf|]; [|reflexivity].
  cbn [mbind result_bind]. by destruct (bool_decide (pf = "error")).
Qed.

Lemma write_peaks_file_name (v : option string) (o : Sample) :
  sample_name (write_peaks_file v o) = sample_name o.
Proof. by destruct v. Qed.

Lemma write_peaks_file_twice (l v : option string) (o : Sample) :
  write_peaks_file l (write_peaks_file v o) =
  write_peaks_file (match l with Some pf => Some pf | None => v end) o.
Proof. by destruct l, v. Qed.

Lemma sync_results_last_peaks_file (processed : list (list Sample)) :
  forall (o : Sample) (rest : list Sample),
    for_each sync_result processed (o :: rest) =
    l ← last_peaks_file processed (sample_name o);
    OK (write_peaks_file l o :: rest).
Proof.
  induction processed as [|pg processed IH]; intros o rest; [reflexivity|].
  rewrite for_each_cons, sync_result_verdict. cbn [last_peaks_file].
  destruct (verdict (sample_name o) pg) as [v|]; [|reflexivity].
  cbn [mbind result_bind]. rewrite IH, write_peaks_file_name.
  destruct (last_peaks_file processed (sample_name o)) as [l|]; [|reflexivity].
  cbn [mbind result_bind]. by rewrite write_peaks_file_twice.
Qed.

(** X30. The merge is idempotent: when [_sync] returns, merging the same
    results into what it returned changes nothing. *)
Lemma sync_idempotent (original processed original' : list (list Sample)) :
  _sync original processed = OK original' ->
  _sync original' processed = OK original'.
Proof.
  assert (Hgroup : forall g g',
            for_each sync_result processed g = OK g' ->
            for_each sync_result processed g' = OK g').
  { intros [|o rest] g' H.
    - destruct processed; [done|]. by rewrite for_each_cons in H.
    - rewrite sync_results_last_peaks_file in H.
      destruct (last_peaks_file processed (sample_name o)) as [l|] eqn:El;
        [|done].
      injection H as <-.
      rewrite sync_results_last_peaks_file, write_peaks_file_name, El.
      cbn [mbind result_bind]. rewrite write_peaks_file_twice.
      by destruct l. }
  revert original'. induction original as [|g original IH]; intros original' H.
  - by injection H as <-.
  - cbn [_sync] in H.
    destruct (for_each sync_result processed g) as [g'|] eqn:Eg; [|done].
    cbn [mbind result_bind] in H.
    destruct (_sync original processed) as [r|] eqn:Er; [|done].
    injection H as <-. cbn [_sync].
    rewrite (Hgroup g g' Eg). cbn [mbind result_bind].
    by rewrite (IH r eq_refl).
Qed.

End Pipeline.

Arguments Int {F} z.
Arguments Float {F} x.

(** ** The statements at concrete inputs *)

Ltac found := eexists; vm_compute; reflexivity.

Lemma split_filter_strict_witness :
  Sambamba.accepts (range_filter (mkATACRange "NF" 0 100)) 50 = true /\
  Sambamba.accepts (range_filter (mkATACRange "NF" 0 100)) 100 = false.
Proof.
  destruct split_filter_strict as (_ & _ & Hin & Hout). split.
  - apply Forall_inv in Hin. apply Hin. cbn. lia.
  - apply Forall_inv in Hout. apply Forall_inv in Hout. exact Hout.
Defined.

Lemma split_ATAC_align_witness :
  (if truthy None then None else work_bam Ex.atac1) = Some "/w/align/a1.bam" /\
  exists w',
    split_ATAC Ex.get_program Ex.shell Ex.bam_index Ex.tx_path Ex.atac1 None
      Ex.no_files =
    (OK (assoc_align
           {[ "NF" := "/w/align/a1-NF.bam"; "MN" := "/w/align/a1-MN.bam";
              "DN" := "/w/align/a1-DN.bam"; "TN" := "/w/align/a1-TN.bam";
              "full" := "/w/align/a1.bam" ]} Ex.atac1), w').
Proof.
  split; [reflexivity|].
  destruct (split_ATAC_align Ex.get_program Ex.shell Ex.bam_index Ex.tx_path
              Ex.atac1 None "/w/align/a1.bam" Ex.no_files eq_refl)
    as (_ & _ & H & _).
  apply H. split; intros; eexists; reflexivity.
Defined.

Lemma outputs_computed_once_witness :
  is_Some (files (fs Ex.cached) !! metrics_path Ex.atac1) /\
  is_Some (files (fs Ex.cached) !!
             split_out_file "/w/align/a1" (mkATACRange "NF" 0 100)) /\
  (exists w',
     calculate_complexity_metrics Ex.get_program Ex.shell Ex.bam_sort
       Ex.tx_path "/w/align/a1.bam" Ex.atac1 Ex.cached =
     (OK (assoc_complexity_metrics_file (metrics_path Ex.atac1) Ex.atac1), w')
     /\ trace w' = []) /\
  split_range Ex.shell Ex.bam_index Ex.tx_path "sambamba view "
    "/w/align/a1.bam" "/w/align/a1" ∅ (mkATACRange "NF" 0 100) Ex.cached =
  (OK {[ "NF" := "/w/align/a1-NF.bam" ]}, Ex.cached) /\
  exists d',
    split_ATAC Ex.get_program Ex.shell Ex.bam_index Ex.tx_path Ex.atac1 None
      Ex.cached = (OK d', Ex.cached).
Proof.
  destruct (outputs_computed_once Ex.get_program Ex.shell Ex.bam_sort
              Ex.bam_index Ex.tx_path "/w/align/a1.bam" Ex.atac1
              "sambamba view " "/w/align/a1.bam" "/w/align/a1" ∅
              (mkATACRange "NF" 0 100) None Ex.cached)
    as (Hmetrics & Hrange & Hsplit & _).
  assert (H1 : is_Some (files (fs Ex.cached) !! metrics_path Ex.atac1))
    by found.
  assert (H2 : is_Some (files (fs Ex.cached) !!
                  split_out_file "/w/align/a1" (mkATACRange "NF" 0 100)))
    by found.
  split; [exact H1|]. split; [exact H2|]. split; [|split].
  - destruct (Hmetrics H1) as (w' & Hrun & Htrace & _).
    exists w'. split; [exact Hrun|exact Htrace].
  - exact (Hrange H2).
  - apply Hsplit; [reflexivity|]. repeat constructor; found.
Defined.

Lemma run_ataqv_cached_witness :
  is_Some (files (fs Ex.cached) !! ataqv_out_file Ex.atac1) /\
  run_ataqv Ex.get_program Ex.shell Ex.get_tss_bed Ex.mito Ex.nonmito
    Ex.tx_path Ex.atac1 Ex.cached =
  (OK (Some "/w/qc/a1/ataqv/a1.ataqv.json.gz"), Ex.cached).
Proof.
  assert (H : is_Some (files (fs Ex.cached) !! ataqv_out_file Ex.atac1))
    by found.
  split; [exact H|].
  destruct (run_ataqv_cached Ex.get_program Ex.shell Ex.get_tss_bed Ex.mito
              Ex.nonmito Ex.tx_path Ex.atac1 Ex.cached H) as (Hhit & _ & _).
  apply Hhit; reflexivity.
Defined.

(** C7, as stated, fails: the report of a sample exists, its assay method
    is not "atac", and [run_ataqv] returns nothing. *)
Lemma run_ataqv_cached_not_atac :
  is_Some (files (fs Ex.cached) !! ataqv_out_file Ex.chip1) /\
  chip_method Ex.chip1 = "chip" /\
  run_ataqv Ex.get_program Ex.shell Ex.get_tss_bed Ex.mito Ex.nonmito
    Ex.tx_path Ex.chip1 Ex.cached = (OK None, Ex.cached).
Proof. split; [found|]. split; reflexivity. Qed.




Lemma sync_spares_error_witness :
  sync_result [set_peaks_file "old.narrowPeak" Ex.s3]
              [set_peaks_file "error" Ex.s3]
  = OK [set_peaks_file "old.narrowPeak" Ex.s3] /\
  sync_result [Ex.s1] [set_peaks_file "/w/macs2/s1/s1_peaks.narrowPeak" Ex.s1]
  = OK [set_peaks_file "/w/macs2/s1/s1_peaks.narrowPeak" Ex.s1] /\
  exists original',
    _sync [[Ex.s1]; [set_peaks_file "old.narrowPeak" Ex.s3]]
          [[set_peaks_file "/w/macs2/s1/s1_peaks.narrowPeak" Ex.s1];
           [set_peaks_file "error" Ex.s3]]
    = OK original'.
Proof.
  destruct (sync_spares_error
              [[Ex.s1]; [set_peaks_file "old.narrowPeak" Ex.s3]]
              [[set_peaks_file "/w/macs2/s1/s1_peaks.narrowPeak" Ex.s1];
               [set_peaks_file "error" Ex.s3]])
    as (Hstep & _ & Htotal).
  split; [|split].
  - exact (Hstep (set_peaks_file "old.narrowPeak" Ex.s3)
                 (set_peaks_file "error" Ex.s3) [] [] "error"
                 eq_refl eq_refl).
  - exact (Hstep Ex.s1
                 (set_peaks_file "/w/macs2/s1/s1_peaks.narrowPeak" Ex.s1)
                 [] [] "/w/macs2/s1/s1_peaks.narrowPeak" eq_refl eq_refl).
  - apply Htotal.
    + repeat constructor; discriminate.
    + repeat constructor; eexists _, _, _; split; reflexivity.
Defined.



Lemma missing_control_skipped_witness :
  phenotype Ex.s3 = "chip" /\
  Forall (passed_over Ex.s3) [[Ex.s3]; [Ex.s1]; [Ex.ctrl1]] /\
  prepare_sample Ex.macs2_run EmptyString [[Ex.s3]; [Ex.s1]; [Ex.ctrl1]] [] [Ex.s3]
    Ex.no_files =
  (OK [], logged "No input sample for s3" Ex.no_files) /\
  exists data' w',
    peakcall_preparation Ex.macs2_run EmptyString
      [[Ex.s3]; [Ex.s1]; [Ex.ctrl1]] (run_serial Ex.macs2_run) Ex.no_files =
    (OK data', w') /\
    Forall2 merged_group [[Ex.s3]; [Ex.s1]; [Ex.ctrl1]] data'.
Proof.
  assert (Hnone : Forall (passed_over Ex.s3) [[Ex.s3]; [Ex.s1]; [Ex.ctrl1]]).
  { repeat constructor.
    - exists Ex.s3, [], true. split; [reflexivity|].
      split; [reflexivity|]. right. discriminate.
    - exists Ex.s1, [], false. split; [reflexivity|].
      split; [reflexivity|]. by left.
    - exists Ex.ctrl1, [], false. split; [reflexivity|].
      split; [reflexivity|]. by left. }
  split; [reflexivity|]. split; [exact Hnone|].
  assert (Hex : Exists (fun c => is_Some (get_callers Ex.macs2_run !! c))
                       (callers_of (peakcaller Ex.s3))).
  { apply Exists_cons_hd. eexists. reflexivity. }
  assert (Hd : EmptyString <> "chip") by discriminate.
  destruct (missing_control_skipped Ex.macs2_run EmptyString
              [[Ex.s3]; [Ex.s1]; [Ex.ctrl1]] [] [[Ex.s1]; [Ex.ctrl1]]
              Ex.s3 [] (run_serial Ex.macs2_run) Ex.no_files
              eq_refl eq_refl Hex Hd Hnone) as (Hturn & _ & _ & Hdispatch).
  split; [exact (Hturn [] Ex.no_files)|].
  destruct (Hdispatch
              [[set_work_bam_input (Some "/w/align/ctrl1.bam")
                  (set_peak_fn "macs2" Ex.s1)]]
              (logged "No input sample for s3" Ex.no_files))
    as (_ & _ & Hrun); [vm_compute; reflexivity|].
  assert (Hres : exists w2,
            run_serial Ex.macs2_run "peakcalling"
              [[set_work_bam_input (Some "/w/align/ctrl1.bam")
                  (set_peak_fn "macs2" Ex.s1)]]
              (mkWorld (fs (logged "No input sample for s3" Ex.no_files))
                 (trace (logged "No input sample for s3" Ex.no_files) ++
                  [EvParallel "peakcalling"
                     [[set_work_bam_input (Some "/w/align/ctrl1.bam")
                         (set_peak_fn "macs2" Ex.s1)]]])) =
            (OK [[set_peaks_file "/w/macs2/s1/s1_peaks.narrowPeak"
                    (set_work_bam_input (Some "/w/align/ctrl1.bam")
                       (set_peak_fn "macs2" Ex.s1))]], w2))
    by (eexists; vm_compute; reflexivity).
  destruct Hres as [w2 Hres].
  destruct (Hrun ltac:(discriminate) _ w2 Hres) as (data' & _ & Hret & Hm).
  { repeat constructor. eexists _, _, _. split; reflexivity. }
  exists data', w2. split; [exact Hret|exact Hm].
Defined.

(** C8, as stated, fails: a sample of phenotype "chip" has no control in
    the collection; its configured caller is not in the registry, and
    nothing is logged. *)
Lemma missing_control_not_logged :
  phenotype Ex.s5 = "chip" /\
  Forall (passed_over Ex.s5) [[Ex.s5]; [Ex.ctrl1]] /\
  peakcall_preparation Ex.macs2_run EmptyString [[Ex.s5]; [Ex.ctrl1]]
    (run_serial Ex.macs2_run) Ex.no_files =
  (OK [[Ex.s5]; [Ex.ctrl1]], Ex.no_files) /\
  trace Ex.no_files = [].
Proof.
  split; [reflexivity|]. split; [|split; reflexivity].
  repeat constructor.
  - exists Ex.s5, [], true. split; [reflexivity|].
    split; [reflexivity|]. right. discriminate.
  - exists Ex.ctrl1, [], false. split; [reflexivity|].
    split; [reflexivity|]. by left.
Qed.

Lemma default_peakcaller_prepares_nothing_witness :
  Forall (fun g => exists s rest, g = s :: rest /\ peakcaller s = None)
         [[Ex.s4]; [Ex.ctrl1]] /\
  peakcall_preparation Ex.macs2_run EmptyString [[Ex.s4]; [Ex.ctrl1]]
    (run_serial Ex.macs2_run) Ex.no_files =
  (OK [[Ex.s4]; [Ex.ctrl1]], Ex.no_files).
Proof.
  assert (H : Forall (fun g => exists s rest,
                        g = s :: rest /\ peakcaller s = None)
                     [[Ex.s4]; [Ex.ctrl1]]).
  { repeat constructor; eexists _, _; split; reflexivity. }
  split; [exact H|].
  destruct (default_peakcaller_prepares_nothing Ex.macs2_run EmptyString
              [[Ex.s4]; [Ex.ctrl1]] (run_serial Ex.macs2_run) Ex.no_files)
    as (_ & _ & _ & Hall).
  exact (Hall H).
Defined.

(** C9, as stated, fails on its last clause: a group of the collection has
    no "peakcaller" entry, and the collection is returned with the peaks
    file of another sample written into it. *)
Lemma default_peakcaller_collection_changed :
  peakcaller Ex.s4 = None /\
  [Ex.s4] ∈ [[Ex.s4]; [Ex.s1]; [Ex.ctrl1]] /\
  exists w',
    peakcall_preparation Ex.macs2_run EmptyString [[Ex.s4]; [Ex.s1]; [Ex.ctrl1]]
      (run_serial Ex.macs2_run) Ex.no_files =
    (OK [[Ex.s4];
         [set_peaks_file "/w/macs2/s1/s1_peaks.narrowPeak" Ex.s1];
         [Ex.ctrl1]], w') /\
    [[Ex.s4]; [set_peaks_file "/w/macs2/s1/s1_peaks.narrowPeak" Ex.s1];
     [Ex.ctrl1]] <> [[Ex.s4]; [Ex.s1]; [Ex.ctrl1]].
Proof.
  split; [reflexivity|]. split; [apply list_elem_of_here|].
  eexists. split; [vm_compute; reflexivity|]. discriminate.
Qed.

(** The end-to-end example of the specification: [s1] is paired with
    [ctrl1]; one task goes to the runner, tagged "macs2" and carrying the
    work BAM of [ctrl1]; afterwards [s1] has the peaks file that the caller
    returned. *)
Example end_to_end :
  exists w',
    peakcall_preparation Ex.macs2_run EmptyString [[Ex.s1]; [Ex.ctrl1]]
      (run_serial Ex.macs2_run) Ex.no_files =
    (OK [[set_peaks_file "/w/macs2/s1/s1_peaks.narrowPeak" Ex.s1];
         [Ex.ctrl1]], w') /\
    trace w' =
      [EvParallel "peakcalling"
         [[set_work_bam_input (Some "/w/align/ctrl1.bam")
             (set_peak_fn "macs2" Ex.s1)]];
       EvCaller "macs2" "s1" "/w/macs2/s1"].
Proof. eexists. split; vm_compute; reflexivity. Qed.

(** ** The further properties at concrete inputs *)

Ltac member n := apply (list_elem_of_lookup_2 _ n); reflexivity.



Lemma ranges_disjoint_witness :
  Sambamba.accepts (range_filter (mkATACRange "MN" 180 247)) 200 = true /\
  (0 < 200 < 615)%Z.
Proof.
  split; [reflexivity|].
  apply (ranges_disjoint (mkATACRange "MN" 180 247) (mkATACRange "MN" 180 247)
           200); [member 1%nat | member 1%nat | reflexivity | reflexivity].
Defined.

Lemma ranges_leave_gaps_witness :
  (100 <= 150 <= 180)%Z /\
  Sambamba.accepts (range_filter (mkATACRange "NF" 0 100)) 150 = false.
Proof.
  split; [lia|].
  apply (ranges_leave_gaps (mkATACRange "NF" 0 100) 150); [member 0%nat|].
  right. left. lia.
Defined.

Lemma range_files_distinct_witness :
  split_out_file (splitext "/w/align/a1.bam").1 (mkATACRange "NF" 0 100)
  <> "/w/align/a1.bam".
Proof.
  apply (range_files_distinct "/w/align/a1.bam" (mkATACRange "NF" 0 100)
           (mkATACRange "MN" 180 247)); [member 0%nat | member 1%nat].
Defined.

Lemma split_ATAC_names_witness :
  exists d',
    split_ATAC Ex.get_program Ex.shell Ex.bam_index Ex.tx_path Ex.atac1
      (Some "/w/align/a1.bam") Ex.cached = (OK d', Ex.cached) /\
    align d' =
    Some {[ "NF" := "/w/align/a1-NF.bam"; "MN" := "/w/align/a1-MN.bam";
            "DN" := "/w/align/a1-DN.bam"; "TN" := "/w/align/a1-TN.bam";
            "full" := "/w/align/a1.bam" ]}.
Proof.
  assert (H : exists d',
            split_ATAC Ex.get_program Ex.shell Ex.bam_index Ex.tx_path
              Ex.atac1 (Some "/w/align/a1.bam") Ex.cached = (OK d', Ex.cached))
    by found.
  destruct H as [d' H]. exists d'. split; [exact H|].
  apply (split_ATAC_names Ex.get_program Ex.shell Ex.bam_index Ex.tx_path
           Ex.atac1 d' "/w/align/a1" "1" Ex.cached Ex.cached eq_refl);
    [discriminate | discriminate | exact H].
Defined.

Lemma split_ATAC_default_bam_witness :
  work_bam Ex.nobam = None /\
  split_ATAC Ex.get_program Ex.shell Ex.bam_index Ex.tx_path Ex.nobam None
    Ex.no_files = (Raise TypeError, Ex.no_files).
Proof.
  split; [reflexivity|].
  destruct (split_ATAC_default_bam Ex.get_program Ex.shell Ex.bam_index
              Ex.tx_path Ex.nobam Ex.no_files) as [_ H].
  exact (H eq_refl).
Defined.

Lemma split_ATAC_trace_witness :
  exists d' w' computed,
    split_ATAC Ex.get_program Ex.shell Ex.bam_index Ex.tx_path Ex.atac1 None
      Ex.no_files = (OK d', w') /\
    computed `sublist_of` ATACRanges_values /\
    trace w' =
    trace Ex.no_files ++
    (computed ≫= range_events Ex.tx_path
                   (split_base_cmd Ex.get_program Ex.atac1)
                   "/w/align/a1.bam" (splitext "/w/align/a1.bam").1).
Proof.
  assert (H : exists d' w',
            split_ATAC Ex.get_program Ex.shell Ex.bam_index Ex.tx_path
              Ex.atac1 None Ex.no_files = (OK d', w'))
    by (eexists _, _; vm_compute; reflexivity).
  destruct H as (d' & w' & H). exists d', w'.
  destruct (split_ATAC_trace Ex.get_program Ex.shell Ex.bam_index Ex.tx_path
              Ex.atac1 d' None "/w/align/a1.bam" Ex.no_files w' eq_refl H)
    as (computed & Hs & Ht).
  exists computed. split; [exact H|]. split; [exact Hs|exact Ht].
Defined.

Lemma split_range_fails_witness :
  exists e w',
    split_range Ex.failing_shell Ex.bam_index Ex.tx_path "sambamba view "
      "/w/align/a1.bam" "/w/align/a1" ∅ (mkATACRange "NF" 0 100) Ex.no_files
    = (Raise e, w') /\
    files (fs Ex.no_files) !! split_out_file "/w/align/a1"
                                (mkATACRange "NF" 0 100) = None.
Proof.
  assert (H : exists e w',
            split_range Ex.failing_shell Ex.bam_index Ex.tx_path
              "sambamba view " "/w/align/a1.bam" "/w/align/a1" ∅
              (mkATACRange "NF" 0 100) Ex.no_files = (Raise e, w'))
    by (eexists _, _; vm_compute; reflexivity).
  destruct H as (e & w' & H). exists e, w'. split; [exact H|].
  destruct (split_range_fails Ex.failing_shell Ex.bam_index Ex.tx_path
              "sambamba view " "/w/align/a1.bam" "/w/align/a1" ∅
              (mkATACRange "NF" 0 100) e Ex.no_files w' H) as [Hno _].
  exact Hno.
Defined.

Lemma split_ATAC_then_NF_bam_witness :
  exists d',
    split_ATAC Ex.get_program Ex.shell Ex.bam_index Ex.tx_path Ex.atac1 None
      Ex.cached = (OK d', Ex.cached) /\
    get_NF_bam d' = Some "/w/align/a1-NF.bam" /\
    truthy (get_NF_bam d') = true.
Proof.
  assert (H : exists d',
            split_ATAC Ex.get_program Ex.shell Ex.bam_index Ex.tx_path
              Ex.atac1 None Ex.cached = (OK d', Ex.cached))
    by found.
  destruct H as [d' H]. exists d'. split; [exact H|].
  exact (split_ATAC_then_NF_bam Ex.get_program Ex.shell Ex.bam_index
           Ex.tx_path Ex.atac1 d' None "/w/align/a1.bam" Ex.cached Ex.cached
           eq_refl H).
Defined.

Lemma autosomal_reference_written_witness :
  files (fs Ex.no_files) !! "/w/qc/a1/ataqv/autosomal.txt" = None /\
  exists w',
    _make_autosomal_reference_file Ex.nonmito Ex.tx_path
      "/w/qc/a1/ataqv/autosomal.txt" Ex.atac1 Ex.no_files =
    (OK "/w/qc/a1/ataqv/autosomal.txt", w') /\
    files (fs w') !! "/w/qc/a1/ataqv/autosomal.txt" =
    Some ["chr1" +:+ nl; "chr2" +:+ nl].
Proof.
  split; [reflexivity|].
  destruct (autosomal_reference_written Ex.nonmito Ex.tx_path
              "/w/qc/a1/ataqv/autosomal.txt" Ex.atac1 Ex.no_files eq_refl)
    as (w' & H1 & H2 & _).
  exists w'. split; [exact H1|exact H2].
Defined.

Lemma ataqv_ready_atac1 : ataqv_ready Ex.atac1.
Proof. repeat split; vm_compute; reflexivity. Defined.

Lemma run_ataqv_no_mitochondrial_witness :
  ataqv_ready Ex.atac1 /\
  exists w',
    run_ataqv Ex.get_program Ex.shell Ex.get_tss_bed Ex.no_mito Ex.nonmito
      Ex.tx_path Ex.atac1 Ex.no_files = (Raise IndexError, w').
Proof.
  split; [exact ataqv_ready_atac1|].
  destruct (run_ataqv_no_mitochondrial Ex.get_program Ex.shell Ex.get_tss_bed
              Ex.no_mito Ex.nonmito Ex.tx_path Ex.atac1 Ex.no_files
              (tss_bed_path Ex.atac1) (fs Ex.no_files)
              ataqv_ready_atac1 eq_refl eq_refl eq_refl)
    as (w' & H & _).
  by exists w'.
Defined.

Lemma run_ataqv_no_program_witness :
  truthy (Ex.no_program "ataqv" Ex.atac1) = false /\
  exists w',
    run_ataqv Ex.no_program Ex.shell Ex.get_tss_bed Ex.mito Ex.nonmito
      Ex.tx_path Ex.atac1 Ex.no_files = (OK None, w') /\
    trace w' =
    [tss_event Ex.atac1;
     EvLog "ataqv executable not found, skipping running ataqv."].
Proof.
  split; [reflexivity|].
  destruct (run_ataqv_no_program Ex.no_program Ex.shell Ex.get_tss_bed
              Ex.mito Ex.nonmito Ex.tx_path Ex.atac1 Ex.no_files
              (tss_bed_path Ex.atac1) "chrM" [] (fs Ex.no_files)
              ataqv_ready_atac1 eq_refl eq_refl eq_refl eq_refl)
    as (w' & H & Ht & _).
  exists w'. split; [exact H|exact Ht].
Defined.

Lemma run_ataqv_runs_witness :
  ataqv_ready Ex.atac1 /\
  (exists w',
     run_ataqv Ex.get_program Ex.shell Ex.get_tss_bed Ex.mito Ex.nonmito
       Ex.tx_path Ex.atac1 Ex.no_files =
     (OK (Some (ataqv_out_file Ex.atac1)), w')) /\
  exists cmd w',
    run_ataqv Ex.get_program Ex.failing_shell Ex.get_tss_bed Ex.mito
      Ex.nonmito Ex.tx_path Ex.atac1 Ex.no_files =
    (Raise (CalledProcessError cmd), w').
Proof.
  split; [exact ataqv_ready_atac1|]. split.
  - destruct (run_ataqv_runs Ex.get_program Ex.shell Ex.get_tss_bed
                Ex.mito Ex.nonmito Ex.tx_path Ex.atac1 Ex.no_files
                (tss_bed_path Ex.atac1) "chrM" [] (fs Ex.no_files)
                ataqv_ready_atac1 eq_refl eq_refl eq_refl eq_refl)
      as (r & w' & f2 & H & _ & _ & _ & _ & Hok & _).
    exists w'. rewrite H. f_equal. apply Hok. intros f. by eexists.
  - destruct (run_ataqv_runs Ex.get_program Ex.failing_shell Ex.get_tss_bed
                Ex.mito Ex.nonmito Ex.tx_path Ex.atac1 Ex.no_files
                (tss_bed_path Ex.atac1) "chrM" [] (fs Ex.no_files)
                ataqv_ready_atac1 eq_refl eq_refl eq_refl eq_refl)
      as (r & w' & f2 & H & _ & _ & _ & _ & _ & Hfail).
    eexists _, w'. rewrite H. f_equal. apply Hfail. reflexivity.
Defined.

Lemma run_ataqv_skips_witness :
  chip_method Ex.chip1 <> "atac" /\
  run_ataqv Ex.get_program Ex.shell Ex.get_tss_bed Ex.mito Ex.nonmito
    Ex.tx_path Ex.chip1 Ex.no_files = (OK None, Ex.no_files).
Proof.
  assert (Hm : chip_method Ex.chip1 <> "atac") by discriminate.
  split; [exact Hm|].
  destruct (run_ataqv_skips Ex.get_program Ex.shell Ex.get_tss_bed Ex.mito
              Ex.nonmito Ex.tx_path Ex.chip1 Ex.no_files) as [H _].
  exact (H Hm).
Defined.

Lemma complexity_metrics_round_trip_witness :
  files (fs Ex.no_files) !! metrics_path Ex.atac1 = None /\
  exists d' w',
    calculate_complexity_metrics Ex.get_program Ex.awk_shell Ex.bam_sort
      Ex.tx_path "/w/align/a1.bam" Ex.atac1 Ex.no_files = (OK d', w') /\
    files (fs w') !! metrics_path Ex.atac1 = Some (metrics_lines 10 6 4 2) /\
    calculate_encode_complexity_metrics Q (fun q => q) d' w' =
    (OK (encode_ratios Q (fun q => q) 10 6 4 2), w').
Proof.
  assert (Hno : files (fs Ex.no_files) !! metrics_path Ex.atac1 = None)
    by (vm_compute; reflexivity).
  split; [exact Hno|].
  destruct (complexity_metrics_round_trip Q (fun q => q) Ex.get_program
              Ex.awk_shell Ex.bam_sort Ex.tx_path "/w/align/a1.bam" Ex.atac1
              Ex.no_files "/w/align/a1.bam"
              (with_dir (metrics_dir Ex.atac1) (fs Ex.no_files))
              (mkFsys (<[ "/w/metrics/atac/a1-atac-metrics.csv.tx" :=
                            metrics_lines 10 6 4 2 ]>
                         (files (write_file
                                   (Ex.tx_path (metrics_path Ex.atac1))
                                   ["mt,m0,m1,m2" +:+ nl]
                                   (with_dir (metrics_dir Ex.atac1)
                                             (fs Ex.no_files)))))
                      (dirs (write_file
                               (Ex.tx_path (metrics_path Ex.atac1))
                               ["mt,m0,m1,m2" +:+ nl]
                               (with_dir (metrics_dir Ex.atac1)
                                         (fs Ex.no_files)))))
              10 6 4 2 Hno eq_refl eq_refl)
    as (d' & w' & H & _ & Hf & Hread);
    [vm_compute; reflexivity | lia | lia | repeat constructor |].
  exists d', w'. split; [exact H|]. split; [exact Hf|exact Hread].
Defined.

Lemma complexity_metrics_failures_witness :
  files (fs Ex.no_files) !! metrics_path Ex.atac1 = None /\
  (exists e w',
     calculate_complexity_metrics Ex.get_program Ex.shell Ex.failing_sort
       Ex.tx_path "/w/align/a1.bam" Ex.atac1 Ex.no_files = (Raise e, w') /\
     trace w' = [EvBamSort "/w/align/a1.bam" "queryname"]) /\
  exists cmd w',
    calculate_complexity_metrics Ex.get_program Ex.failing_shell Ex.bam_sort
      Ex.tx_path "/w/align/a1.bam" Ex.atac1 Ex.no_files =
    (Raise (CalledProcessError cmd), w') /\
    files (fs w') !! metrics_path Ex.atac1 = None.
Proof.
  assert (Hno : files (fs Ex.no_files) !! metrics_path Ex.atac1 = None)
    by (vm_compute; reflexivity).
  split; [exact Hno|]. split.
  - destruct (complexity_metrics_failures Ex.get_program Ex.shell
                Ex.failing_sort Ex.tx_path "/w/align/a1.bam" Ex.atac1
                Ex.no_files Hno) as [H _].
    destruct (H eq_refl) as [e He]. eexists e, _. split; [exact He|].
    reflexivity.
  - destruct (complexity_metrics_failures Ex.get_program Ex.failing_shell
                Ex.bam_sort Ex.tx_path "/w/align/a1.bam" Ex.atac1
                Ex.no_files Hno) as [_ H].
    destruct (H "/w/align/a1.bam"
                (with_dir (metrics_dir Ex.atac1) (fs Ex.no_files))
                eq_refl eq_refl) as (w' & Hr & _ & _ & Hf).
    eexists _, w'. split; [exact Hr|]. apply Hf. vm_compute. reflexivity.
Defined.

Lemma calculate_encode_shape_witness :
  exists r w',
    calculate_encode_complexity_metrics Q (fun q => q) Ex.atac1
      (Ex.with_metrics 10 6 4 2) = (r, w') /\
    w' = Ex.with_metrics 10 6 4 2.
Proof.
  assert (H : exists r w',
            calculate_encode_complexity_metrics Q (fun q => q) Ex.atac1
              (Ex.with_metrics 10 6 4 2) = (r, w'))
    by (eexists _, _; vm_compute; reflexivity).
  destruct H as (r & w' & H). exists r, w'. split; [exact H|].
  destruct (calculate_encode_shape Q (fun q => q) Ex.atac1
              (Ex.with_metrics 10 6 4 2) w' r H) as [Hw _].
  exact Hw.
Defined.

Lemma complexity_metrics_recorded_witness :
  exists d' w',
    calculate_complexity_metrics Ex.get_program Ex.shell Ex.bam_sort
      Ex.tx_path "/w/align/a1.bam" Ex.atac1 Ex.cached = (OK d', w') /\
    d' = assoc_complexity_metrics_file (metrics_path Ex.atac1) Ex.atac1 /\
    truthy (complexity_metrics_file d') = true.
Proof.
  assert (H : exists d' w',
            calculate_complexity_metrics Ex.get_program Ex.shell Ex.bam_sort
              Ex.tx_path "/w/align/a1.bam" Ex.atac1 Ex.cached = (OK d', w'))
    by (eexists _, _; vm_compute; reflexivity).
  destruct H as (d' & w' & H). exists d', w'. split; [exact H|].
  destruct (complexity_metrics_recorded Q (fun q => q) Ex.get_program
              Ex.shell Ex.bam_sort Ex.tx_path "/w/align/a1.bam" Ex.atac1 d'
              Ex.cached w' H) as (Hd & Ht & _).
  split; [exact Hd|exact Ht].
Defined.



Lemma paired_errors_witness :
  Forall (passed_over Ex.s6) [[Ex.ctrl2]] /\
  _get_paired_samples Ex.s6 [[Ex.ctrl2]; []] = Raise IndexError /\
  _get_paired_samples Ex.s6 [[Ex.ctrl2]; [Ex.ctrl10]] = Raise TypeError.
Proof.
  assert (Hpre : Forall (passed_over Ex.s6) [[Ex.ctrl2]]).
  { repeat constructor. exists Ex.ctrl2, [], false.
    split; [reflexivity|]. split; [reflexivity|]. by left. }
  split; [exact Hpre|].
  destruct (paired_errors Ex.s6 [[Ex.ctrl2]] [] Hpre) as [H1 H2].
  split; [exact H1|].
  exact (H2 Ex.ctrl10 [] ["b1"; "b2"] "b10" eq_refl eq_refl).
Defined.

Lemma string_batch_is_substring_witness :
  batch Ex.s1 = BatchStr "b1" /\ batch Ex.ctrl10 = BatchStr "b10" /\
  is_control_for Ex.s1 Ex.ctrl10.
Proof.
  split; [reflexivity|]. split; [reflexivity|].
  destruct (string_batch_is_substring Ex.s1 Ex.ctrl10 "b1" "b10"
              eq_refl eq_refl) as [[_ H] _].
  apply H. split; [|reflexivity]. exists EmptyString, "0". reflexivity.
Defined.

Lemma first_control_s7 :
  first_control Ex.s7 [[Ex.s7]; [Ex.ctrl1]] Ex.ctrl1.
Proof.
  exists [[Ex.s7]], [], []. split; [reflexivity|]. split.
  - repeat constructor. exists Ex.s7, [], true.
    split; [reflexivity|]. split; [vm_compute; reflexivity|].
    right. discriminate.
  - split; [vm_compute; reflexivity|reflexivity].
Defined.

Lemma prepare_sample_one_task_witness :
  callers_of (peakcaller Ex.s7) = ["epic2"; "macs2"; "macs2"] /\
  prepare_sample Ex.macs2_run EmptyString [[Ex.s7]; [Ex.ctrl1]] [] [Ex.s7]
    Ex.no_files =
  (OK [[set_work_bam_input (Some "/w/align/ctrl1.bam")
          (set_peak_fn "macs2" Ex.s7)]], Ex.no_files).
Proof.
  split; [reflexivity|].
  apply (prepare_sample_one_task Ex.macs2_run EmptyString
           [[Ex.s7]; [Ex.ctrl1]] [] Ex.s7 Ex.ctrl1 [] Ex.no_files).
  - reflexivity.
  - discriminate.
  - member 1%nat.
  - exact first_control_s7.
Defined.

Lemma preparation_only_logs_witness :
  exists r w',
    fold_M (prepare_sample Ex.macs2_run EmptyString [[Ex.s3]; [Ex.ctrl1]])
      [[Ex.s3]; [Ex.ctrl1]] [] Ex.no_files = (r, w') /\
    only_logs Ex.no_files w'.
Proof.
  assert (H : exists r w',
            fold_M (prepare_sample Ex.macs2_run EmptyString
                      [[Ex.s3]; [Ex.ctrl1]])
              [[Ex.s3]; [Ex.ctrl1]] [] Ex.no_files = (r, w'))
    by (eexists _, _; vm_compute; reflexivity).
  destruct H as (r & w' & H). exists r, w'. split; [exact H|].
  destruct (preparation_only_logs Ex.macs2_run EmptyString
              [[Ex.s3]; [Ex.ctrl1]] [[Ex.s3]; [Ex.ctrl1]] [] Ex.no_files w' r H)
    as [Hl _].
  exact Hl.
Defined.

Lemma uncalled_samples_witness :
  peakcaller Ex.s8 = Some (CallerStr "macs2") /\
  peakcall_preparation Ex.macs2_run EmptyString [[Ex.s8]; [Ex.ctrl1]]
    (run_serial Ex.macs2_run) Ex.no_files =
  (OK [[Ex.s8]; [Ex.ctrl1]], Ex.no_files).
Proof.
  split; [reflexivity|].
  destruct (uncalled_samples Ex.macs2_run EmptyString [[Ex.s8]; [Ex.ctrl1]]
              (run_serial Ex.macs2_run) Ex.no_files) as [Hstr Hall].
  apply Hall. repeat constructor.
  - exists Ex.s8, []. split; [reflexivity|]. right. exact (Hstr "macs2").
  - exists Ex.ctrl1, []. split; [reflexivity|]. left. discriminate.
Defined.

Lemma calling_missing_keys_witness :
  work_bam_input Ex.s1 = None /\
  calling Ex.macs2_run Ex.s1 Ex.no_files =
  (Raise (KeyError "work_bam_input"), Ex.no_files).
Proof.
  split; [reflexivity|].
  destruct (calling_missing_keys Ex.macs2_run Ex.s1 Ex.no_files) as [H _].
  exact (H eq_refl).
Defined.

Lemma first_control_s1 :
  first_control Ex.s1 [[Ex.s1]; [Ex.ctrl1]] Ex.ctrl1.
Proof.
  exists [[Ex.s1]], [], []. split; [reflexivity|]. split.
  - repeat constructor. exists Ex.s1, [], true.
    split; [reflexivity|]. split; [vm_compute; reflexivity|].
    right. discriminate.
  - split; [vm_compute; reflexivity|reflexivity].
Defined.

Lemma prepared_task_callable_witness :
  prepared_from Ex.macs2_run [[Ex.s1]; [Ex.ctrl1]] [[Ex.s1]; [Ex.ctrl1]]
    [set_work_bam_input (work_bam Ex.ctrl1) (set_peak_fn "macs2" Ex.s1)] /\
  exists t,
    [set_work_bam_input (work_bam Ex.ctrl1) (set_peak_fn "macs2" Ex.s1)] = [t]
    /\ peak_fn t = Some "macs2".
Proof.
  assert (Hp : prepared_from Ex.macs2_run [[Ex.s1]; [Ex.ctrl1]]
                 [[Ex.s1]; [Ex.ctrl1]]
                 [set_work_bam_input (work_bam Ex.ctrl1)
                    (set_peak_fn "macs2" Ex.s1)]).
  { exists Ex.s1, [], "macs2", Ex.ctrl1.
    split; [member 0%nat|]. split; [reflexivity|].
    split; [member 0%nat|]. split; [by eexists|].
    split; [exact first_control_s1|reflexivity]. }
  split; [exact Hp|].
  destruct (prepared_task_callable Ex.macs2_run [[Ex.s1]; [Ex.ctrl1]]
              [[Ex.s1]; [Ex.ctrl1]] _ Ex.no_files Hp) as (t & Ht & Hfn & _).
  exists t. split; [exact Ht|exact Hfn].
Defined.

Lemma peakcalling_returns_witness :
  exists data' w',
    peakcall_preparation Ex.macs2_run EmptyString [[Ex.s1]; [Ex.ctrl1]]
      (run_serial Ex.macs2_run) Ex.no_files = (OK data', w') /\
    Forall2 merged_group [[Ex.s1]; [Ex.ctrl1]] data'.
Proof.
  assert (Htotal : forall name chip input gb dir cfg f,
            is_Some (Ex.macs2_run name chip input gb dir cfg f))
    by (intros; eexists; reflexivity).
  assert (H : exists tp w1,
            fold_M (prepare_sample Ex.macs2_run EmptyString
                      [[Ex.s1]; [Ex.ctrl1]])
              [[Ex.s1]; [Ex.ctrl1]] [] Ex.no_files = (OK tp, w1))
    by (eexists _, _; vm_compute; reflexivity).
  destruct H as (tp & w1 & H).
  assert (Hrun : tp <> [] ->
            forall w0, exists results w2,
              run_serial Ex.macs2_run "peakcalling" tp w0 = (OK results, w2) /\
              Forall has_peaks_file results).
  { intros _ w0.
    destruct (prepare_all_tasks _ _ _ _ _ _ _ _ H) as (new & Hnew & Htasks).
    cbn [app] in Hnew. subst new.
    destruct (run_serial_results Ex.macs2_run _ _ Htotal tp Htasks [] w0)
      as (results & w2 & Hr & Hres).
    exists results, w2. split; [exact Hr|].
    eapply Forall2_Forall_r; [exact Hres|].
    apply Forall_forall. intros tg' _ rg (t & out & _ & ->).
    by exists (set_peaks_file out t), [], out. }
  destruct (peakcalling_returns Ex.macs2_run EmptyString
              [[Ex.s1]; [Ex.ctrl1]] (run_serial Ex.macs2_run) tp
              Ex.no_files w1 H Hrun) as (data' & w' & Hret & Hm & _).
  exists data', w'. split; [exact Hret|exact Hm].
Defined.

Lemma sync_edge_cases_witness :
  _sync [[]; [Ex.s1]] [] = OK [[]; [Ex.s1]] /\
  _sync [[]; [Ex.s1]] [[Ex.s1]] <> OK [[]; [Ex.s1]] /\
  _sync [[Ex.s1]] [[Ex.s1]] = Raise (KeyError "peaks_file").
Proof.
  destruct (sync_edge_cases [[]; [Ex.s1]] [[Ex.s1]]) as (H0 & H1 & _ & H3).
  split; [exact H0|]. split.
  - apply H1; [member 0%nat|discriminate].
  - exact (H3 Ex.s1 Ex.s1 [] [] [] [] eq_refl eq_refl).
Defined.

Lemma sync_idempotent_witness :
  _sync [[Ex.s1]] [[set_peaks_file "/w/macs2/s1/s1_peaks.narrowPeak" Ex.s1]]
  = OK [[set_peaks_file "/w/macs2/s1/s1_peaks.narrowPeak" Ex.s1]] /\
  _sync [[set_peaks_file "/w/macs2/s1/s1_peaks.narrowPeak" Ex.s1]]
        [[set_peaks_file "/w/macs2/s1/s1_peaks.narrowPeak" Ex.s1]]
  = OK [[set_peaks_file "/w/macs2/s1/s1_peaks.narrowPeak" Ex.s1]].
Proof.
  assert (H : _sync [[Ex.s1]]
                [[set_peaks_file "/w/macs2/s1/s1_peaks.narrowPeak" Ex.s1]]
              = OK [[set_peaks_file "/w/macs2/s1/s1_peaks.narrowPeak" Ex.s1]])
    by reflexivity.
  split; [exact H|].
  exact (sync_idempotent _ _ _ H).
Defined.
